(** * Healthcare-benefits search: classifier, persistence and retrieval

    A shallow embedding of
    - [src/data_processing/chunker.py]       (class [BenefitChunker]),
    - [src/data_processing/pdf_extractor.py] (the benefit extraction of
      class [PDFExtractor]),
    - [src/models/embedding_generator.py]    (class [EmbeddingGenerator]),
    - [src/models/retriever.py]              (class [BenefitRetriever]),
    - [run_pipeline.py]                      ([HealthcareChatbot.ask]),
    together with the properties of the specification that concern them
    and further properties of the code.

    Python dictionaries whose key order is irrelevant (chunks, benefit
    records, plan metadata) are [gmap string value]; the dictionaries
    whose iteration order is observed ([self.categories], the local
    [scores] of the classifier) are association lists in insertion order.
    Exceptions are the [Err] results of a small error monad.  The disk
    is a map from directory names to the files of each directory, a file
    being the value serialised into it or an unfinished write.  Text is a
    [string] of 8-bit characters and [lower] is Python's [str.lower] on
    the ASCII range, which is where all keyword phrases live.  Floats are
    rationals; the one float operation of the code, [float(1 - distance)],
    goes through a rounding function that is a parameter.  The FAISS
    index and the embedding model are parameters as well. *)

From Stdlib Require Import ZArith QArith Ascii DecimalString.
From Stdlib Require OrdersEx.
From stdpp Require Import gmap strings list fin_maps sorting.

Local Open Scope Z_scope.

(** ** Exceptions and fallible results *)

Inductive exn : Type :=
  | FileNotFoundError
  | RuntimeError        (* raised by faiss for an unreadable index file *)
  | UnpicklingError     (* a file that does not hold what the reader expects *)
  | EOFError            (* a file with nothing in it *)
  | IndexError
  | KeyError
  | AttributeError
  | ValueError
  | AssertionError.

Inductive result (A : Type) : Type :=
  | Ok (a : A)
  | Err (e : exn).
Arguments Ok {A} a.
Arguments Err {A} e.

Definition rbind {A B : Type} (r : result A) (k : A -> result B) : result B :=
  match r with
  | Ok a => k a
  | Err e => Err e
  end.

(** [x ← r; k] is Python's sequencing: an exception raised by [r] skips [k]. *)
#[global] Instance result_ret : MRet result := fun A a => Ok a.
#[global] Instance result_bind : MBind result := fun A B k r => rbind r k.

(** ** Python values *)

Inductive value : Type :=
  | VStr (s : string)
  | VInt (z : Z)
  | VFloat (q : Q).

(** A chunk, a benefit record and plan metadata are all string-keyed
    dictionaries. *)
Abbreviation chunk := (gmap string value).

(** Python's [==] on the values above. *)
Definition py_eqb (a b : value) : bool :=
  match a, b with
  | VStr s, VStr t => String.eqb s t
  | VInt x, VInt y => Z.eqb x y
  | VInt x, VFloat q => Qeq_bool (inject_Z x) q
  | VFloat q, VInt y => Qeq_bool q (inject_Z y)
  | VFloat p, VFloat q => Qeq_bool p q
  | _, _ => false
  end.

(** [str(v)] as used by f-strings.  The textual form of a float is left
    to the parameter [float_repr] of the functions that format one. *)
Definition py_str (float_repr : Q -> string) (v : value) : string :=
  match v with
  | VStr s => s
  | VInt z => NilZero.string_of_int (Z.to_int z)
  | VFloat q => float_repr q
  end.

(** [list[idx]] with Python's negative indices and [IndexError]. *)
Definition py_getitem {A : Type} (l : list A) (idx : Z) : result A :=
  let n := Z.of_nat (length l) in
  let pos := if idx <? 0 then idx + n else idx in
  if (0 <=? pos) && (pos <? n) then
    match l !! Z.to_nat pos with
    | Some a => Ok a
    | None => Err IndexError
    end
  else Err IndexError.

(** [list(set(xs))]: the distinct elements of [xs] under [==].  Python
    leaves the order of the resulting list unspecified; the model lists
    first occurrences, and nothing below depends on the order. *)
Fixpoint py_set (xs : list value) : list value :=
  match xs with
  | [] => []
  | x :: rest => x :: filter (fun y => py_eqb x y = false) (py_set rest)
  end.

(** An insertion-ordered dictionary: a new key goes to the end, an
    existing key keeps its place (and its first key object). *)
Section OrderedDict.

Context {K V : Type} (eqb : K -> K -> bool).

(** [d.get(k)] *)
Fixpoint odict_get (d : list (K * V)) (k : K) : option V :=
  match d with
  | [] => None
  | (k', v) :: rest => if eqb k' k then Some v else odict_get rest k
  end.

(** [d[k] = v] *)
Fixpoint odict_set (d : list (K * V)) (k : K) (v : V) : list (K * V) :=
  match d with
  | [] => [(k, v)]
  | (k', v') :: rest =>
      if eqb k' k then (k', v) :: rest else (k', v') :: odict_set rest k v
  end.

End OrderedDict.

Definition is_str (v : value) : bool :=
  match v with
  | VStr _ => true
  | _ => false
  end.

(** The number a numeric value stands for. *)
Definition num_of (v : value) : Q :=
  match v with
  | VInt z => inject_Z z
  | VFloat q => q
  | VStr _ => 0
  end.

(** [a <= b] between two strings (by code points) or two numbers.
    Python has no order between a string and a number; the clauses for
    such pairs only make the relation total and are never reached by
    [py_sorted]. *)
Definition value_le (a b : value) : bool :=
  match a, b with
  | VStr s, VStr t => String.leb s t
  | VStr _, _ => true
  | _, VStr _ => false
  | _, _ => Qle_bool (num_of a) (num_of b)
  end.

Definition value_order (a b : value) : Prop := value_le a b = true.

#[global] Instance value_order_dec : RelDecision value_order :=
  fun a b => decide (value_le a b = true).

(** [sorted(l)].  A list that mixes strings and numbers makes the sort
    compare a string with a number, which raises [TypeError]: that is
    the [None] here.  The code sorts sets only; their elements are
    pairwise different, so the sorted list is unique and the sorting
    algorithm does not show. *)
Definition py_sorted (l : list value) : option (list value) :=
  if forallb is_str l || forallb (fun v => negb (is_str v)) l
  then Some (merge_sort value_order l)
  else None.

(** The parsed content of an [*_extracted.json] file, as far as the
    chunker reads it: the values of its keys ['metadata'] and
    ['benefits'], when present. *)
Record extracted : Type := {
  ex_metadata : option chunk;
  ex_benefits : option (list chunk)
}.

(** ** Strings *)

Definition lower_char (c : ascii) : ascii :=
  let n := nat_of_ascii c in
  if ((65 <=? n) && (n <=? 90))%nat then ascii_of_nat (n + 32) else c.

Fixpoint lower (s : string) : string :=
  match s with
  | EmptyString => EmptyString
  | String c rest => String (lower_char c) (lower rest)
  end.

(** [kw in text] *)
Fixpoint contains (kw text : string) : bool :=
  String.prefix kw text ||
  match text with
  | EmptyString => false
  | String _ rest => contains kw rest
  end.

(** [" ".join(parts)] *)
Fixpoint join_space (parts : list string) : string :=
  match parts with
  | [] => ""
  | [p] => p
  | p :: rest => p +:+ " " +:+ join_space rest
  end.

(** ** chunker.py *)

Module BenefitChunker.

(** [self.categories], in definition order. *)
Definition categories : list (string * list string) :=
  [ ("preventive", ["preventive"; "screening"; "wellness"; "annual"; "physical"; "immunization"]);
    ("emergency", ["emergency"; "urgent"; "ambulance"]);
    ("hospital", ["hospital"; "inpatient"; "admission"; "surgery"; "outpatient"]);
    ("prescription", ["prescription"; "drug"; "pharmacy"; "medication"; "tier"]);
    ("dental", ["dental"; "teeth"; "cleaning"; "orthodont"; "crown"; "filling"]);
    ("vision", ["vision"; "eye"; "glasses"; "contacts"; "exam"; "eyewear"]);
    ("mental_health", ["mental"; "therapy"; "counseling"; "behavioral"; "psychiatrist"; "psychologist"]);
    ("therapy", ["physical therapy"; "occupational"; "speech"; "rehabilitation"; "cardiac"]);
    ("specialist", ["specialist"; "consultation"; "referral"]);
    ("primary_care", ["primary care"; "pcp"; "doctor visit"]);
    ("wellness", ["gym"; "fitness"; "silversneakers"; "wellness"; "weight loss"]);
    ("telehealth", ["telehealth"; "virtual"; "telemedicine"]);
    ("transportation", ["transportation"; "rides"; "trip"]);
    ("hearing", ["hearing"; "hearing aid"; "audiologist"]);
    ("home_health", ["home health"; "home care"; "home support"]);
    ("meals", ["meal"; "food"; "nutrition"]);
    ("otc", ["over-the-counter"; "otc"]) ].

(** An insertion-ordered dictionary from category names to scores. *)
Definition scores_dict : Type := list (string * nat).

(** [d.get(k)] *)
Fixpoint dict_get (d : scores_dict) (k : string) : option nat :=
  match d with
  | [] => None
  | (k', v) :: rest => if String.eqb k' k then Some v else dict_get rest k
  end.

(** [d[k] = v]: replace in place when the key exists, append otherwise. *)
Fixpoint dict_set (d : scores_dict) (k : string) (v : nat) : scores_dict :=
  match d with
  | [] => [(k, v)]
  | (k', v') :: rest =>
      if String.eqb k' k then (k', v) :: rest else (k', v') :: dict_set rest k v
  end.

(** [sum(1 for kw in keywords if kw in text)] *)
Definition keyword_score (keywords : list string) (text : string) : nat :=
  length (filter (fun kw => contains kw text = true) keywords).

(** The loop of [_classify] over [self.categories.items()]. *)
Fixpoint fill_scores (cats : list (string * list string)) (text : string)
    (scores : scores_dict) : scores_dict :=
  match cats with
  | [] => scores
  | (category, keywords) :: rest =>
      let score := keyword_score keywords text in
      if (0 <? score)%nat
      then fill_scores rest text (dict_set scores category score)
      else fill_scores rest text scores
  end.

(** [max(keys, key=f)]: the first key whose image under [f] is maximal.
    A missing image ([None]) is never produced by the caller below. *)
Fixpoint max_from (f : string -> option nat) (best : string) (bv : option nat)
    (keys : list string) : string :=
  match keys with
  | [] => best
  | k :: rest =>
      match bv, f k with
      | Some b, Some v =>
          if (b <? v)%nat then max_from f k (Some v) rest
          else max_from f best bv rest
      | _, _ => max_from f best bv rest
      end
  end.

Definition py_max (keys : list string) (f : string -> option nat) : option string :=
  match keys with
  | [] => None
  | k :: rest => Some (max_from f k (f k) rest)
  end.

Definition _classify (text : string) : string :=
  let scores := fill_scores categories text [] in
  match scores with
  | [] => "general"
  | _ :: _ =>
      match py_max (map fst scores) (dict_get scores) with
      | Some c => c
      | None => "general"
      end
  end.

(** [d[k]], raising [KeyError] on a missing key. *)
Definition dict_item (d : chunk) (k : string) : result value :=
  match d !! k with
  | Some v => Ok v
  | None => Err KeyError
  end.

(** The receiver of [.lower()] has to be a [str]. *)
Definition as_str (v : value) : result string :=
  match v with
  | VStr s => Ok s
  | _ => Err AttributeError
  end.

(** [v == 0] *)
Definition is_zero (v : value) : bool := py_eqb v (VInt 0).

Section Formatting.

(** [str(x)] for a float [x]. *)
Variable float_repr : Q -> string.

Definition cost_sentence (zero_text prefix : string) (v : value) : string :=
  if is_zero v then zero_text
  else prefix +:+ py_str float_repr v +:+ ".".

Definition overview_parts (metadata : chunk) : list string :=
  let plan := default (VStr "This plan") (metadata !! "plan_name") in
  let provider := default (VStr "") (metadata !! "provider") in
  [py_str float_repr plan +:+ " is offered by " +:+ py_str float_repr provider +:+ "."]
  ++ match metadata !! "plan_type" with
     | Some t => ["This is a " +:+ py_str float_repr t +:+ " plan."]
     | None => []
     end
  ++ match metadata !! "monthly_premium" with
     | Some premium =>
         [cost_sentence "This plan has no monthly premium ($0)."
                        "The monthly premium is $" premium]
     | None => []
     end
  ++ match metadata !! "deductible" with
     | Some deductible =>
         [cost_sentence "This plan has no deductible ($0)."
                        "The annual deductible is $" deductible]
     | None => []
     end.

(** The dictionary display [{'text': .., 'type': .., 'category': ..,
    **metadata}]: the entries of [metadata] are written last, which is
    the left-biased union with [metadata] on the left. *)
Definition _create_overview (metadata : chunk) : chunk :=
  let text := join_space (overview_parts metadata) in
  metadata ∪
    (<["category" := VStr "general"]>
       (<["type" := VStr "overview"]>
          (<["text" := VStr text]> ∅))).

Definition benefit_text (service description : value) (metadata : chunk) : string :=
  let text := "For " +:+ py_str float_repr service +:+ ": "
                +:+ py_str float_repr description in
  match metadata !! "plan_name" with
  | Some plan => "Under the " +:+ py_str float_repr plan +:+ ", " +:+ lower text
  | None => text
  end.

Definition _create_benefit_chunk (benefit metadata : chunk) : result chunk :=
  service ← dict_item benefit "service";
  description ← dict_item benefit "description";
  let text := benefit_text service description metadata in
  s ← as_str service;
  d ← as_str description;
  let category := _classify (lower s +:+ " " +:+ lower d) in
  Ok (metadata ∪
        (<["category" := VStr category]>
           (<["type" := VStr "benefit"]>
              (<["description" := description]>
                 (<["service" := service]>
                    (<["text" := VStr text]> ∅)))))).

(** The loop of [chunk_file] over the benefits. *)
Fixpoint chunk_benefits (benefits : list chunk) (metadata : chunk)
    : result (list chunk) :=
  match benefits with
  | [] => Ok []
  | benefit :: rest =>
      c ← _create_benefit_chunk benefit metadata;
      cs ← chunk_benefits rest metadata;
      Ok (c :: cs)
  end.

(** [chunk_file], from the dictionary that [json.load] returned. *)
Definition chunk_file (data : extracted) : result (list chunk) :=
  metadata ← match ex_metadata data with
             | Some m => Ok m
             | None => Err KeyError
             end;
  let overview := _create_overview metadata in
  cs ← chunk_benefits (default [] (ex_benefits data)) metadata;
  Ok (overview :: cs).

End Formatting.

End BenefitChunker.

(** ** pdf_extractor.py *)

Module PDFExtractor.

(** The characters [str.strip()] removes, in the ASCII range. *)
Definition is_space (c : ascii) : bool :=
  let n := nat_of_ascii c in
  ((9 <=? n) && (n <=? 13) || (28 <=? n) && (n <=? 32))%nat.

Fixpoint lstrip (s : string) : string :=
  match s with
  | EmptyString => EmptyString
  | String c rest => if is_space c then lstrip rest else s
  end.

Fixpoint rstrip (s : string) : string :=
  match s with
  | EmptyString => EmptyString
  | String c rest =>
      match rstrip rest with
      | EmptyString => if is_space c then EmptyString else String c EmptyString
      | rest' => String c rest'
      end
  end.

(** [s.strip()] *)
Definition strip (s : string) : string := lstrip (rstrip s).

(** [text.split('\n')] *)
Fixpoint split_lines (text : string) : list string :=
  match text with
  | EmptyString => [EmptyString]
  | String c rest =>
      if Ascii.eqb c "010"%char then EmptyString :: split_lines rest
      else match split_lines rest with
           | line :: lines => String c line :: lines
           | [] => [String c EmptyString]
           end
  end.

Definition section_headers : list string :=
  ["PLAN OVERVIEW"; "COVERED SERVICES"; "COVERED SERVICES AND COST SHARING"].

Definition service_keywords : list string :=
  ["visit"; "care"; "exam"; "test"; "therapy"; "surgery";
   "hospital"; "prescription"; "drug"; "vision"; "dental";
   "menttal"; "physical"; "emergency"; "urgent"; "preventive";
   "laboratory"; "x-ray"; "imaging"; "outpatient"; "inpatient";
   "gym"; "membership"; "telehealth"; "transportation"; "wellness";
   "hearing"; "eyewear"; "allowance"; "meal"; "support"; "acupuncture";
   "tier"; "rehabilitation"; "skilled"; "home health"; "over-the-counter"].

Definition _is_service_header (line : string) : bool :=
  if (80 <? String.length line)%nat then false
  else if String.prefix "you pay" (lower line) then false
  else if String.prefix "Plan Type:" line || String.prefix "Monthly Premium:" line
  then false
  else existsb (fun keyword => contains keyword (lower line)) service_keywords.

(** [{'service': .., 'description': ' '.join(..)}] *)
Definition benefit_record (service : string) (description : list string) : chunk :=
  <["description" := VStr (join_space description)]>
    (<["service" := VStr service]> ∅).

(** [if current_service and current_description: benefits.append(..)] *)
Definition save_benefit (current_service : option string)
    (current_description : list string) (benefits : list chunk) : list chunk :=
  match current_service, current_description with
  | Some service, _ :: _ =>
      if String.eqb service "" then benefits
      else benefits ++ [benefit_record service current_description]
  | _, _ => benefits
  end.

(** The loop of [_extract_benefits] over the lines. *)
Fixpoint extract_loop (lines : list string) (current_service : option string)
    (current_description : list string) (benefits : list chunk)
    : option string * list string * list chunk :=
  match lines with
  | [] => (current_service, current_description, benefits)
  | line :: rest =>
      let line := strip line in
      if String.eqb line "" then
        extract_loop rest current_service current_description benefits
      else if bool_decide (line ∈ section_headers) then
        extract_loop rest current_service current_description benefits
      else if _is_service_header line then
        extract_loop rest (Some line) []
          (save_benefit current_service current_description benefits)
      else
        match current_service with
        | Some service =>
            if String.eqb service "" then
              extract_loop rest current_service current_description benefits
            else
              extract_loop rest current_service (current_description ++ [line])
                benefits
        | None => extract_loop rest current_service current_description benefits
        end
  end.

Definition _extract_benefits (text : string) : list chunk :=
  let '(current_service, current_description, benefits) :=
    extract_loop (split_lines text) None [] [] in
  save_benefit current_service current_description benefits.

End PDFExtractor.

(** ** The persisted unit on disk *)

(** A numpy matrix: its shape and its entries in row-major order. *)
Record ndarray : Type := { nd_shape : nat * nat; nd_data : list Q }.

(** The contents of [metadata.json]. *)
Record summary : Type := {
  total_chunks : nat;
  embedding_dimension : Z;
  model_name : string;
  index_type : string;
  plans : list value;
  summary_categories : list value;
  total_plans : nat
}.

(** The directories above [dir], outermost first, as [Path(dir).parents]
    has them: the non-empty prefixes of the name that end before a ['/'].
    The current directory and the root always exist and are not listed.
    A directory is named the way pathlib prints it: components separated
    by single slashes, none of them ['.'] or ['..'], no slash at the
    end. *)
Fixpoint parents_from (before rest : string) : list string :=
  match rest with
  | EmptyString => []
  | String c rest' =>
      (if Ascii.eqb c "/" && negb (String.eqb before "") then [before] else [])
      ++ parents_from (before +:+ String c EmptyString) rest'
  end.

Definition parents (dir : string) : list string := parents_from "" dir.

Section Disk.

(** The FAISS index is opaque to the code. *)
Variable Index : Type.

(** A file holds the value that was serialised into it.  A file that was
    opened for writing and not written to the end holds nothing yet
    ([FEmpty]) or the beginning of a serialisation only ([FPartial]). *)
Inductive file : Type :=
  | FIndex (ix : Index)
  | FPickle (cs : list chunk)
  | FNpy (a : ndarray)
  | FJson (m : summary)
  | FEmpty
  | FPartial.

(** A file system maps a directory to its files. *)
Local Abbreviation FS := (gmap string (gmap string file)).

(** [os.mkdir] under [exist_ok=True]: an existing directory is left as
    it is. *)
Definition make_dir (dir : string) (fs : FS) : FS :=
  match fs !! dir with
  | Some _ => fs
  | None => <[dir := ∅]> fs
  end.

(** [path.mkdir(parents=True, exist_ok=True)]: the missing directories
    above [dir] are created, outermost first, then [dir] itself. *)
Definition mkdir (dir : string) (fs : FS) : FS :=
  make_dir dir (foldl (fun fs d => make_dir d fs) fs (parents dir)).

(** Writing a file to its end: [open(path, 'wb')] followed by a complete
    dump.  The file is created or replaced. *)
Definition write_file (dir name : string) (c : file) (fs : FS) : FS :=
  <[dir := <[name := c]> (default ∅ (fs !! dir))]> fs.

Definition read_file (dir name : string) (fs : FS) : option file :=
  fs !! dir ≫= fun d => d !! name.

(** [faiss.read_index(str(dir / "benefits.index"))] *)
Definition read_index (dir : string) (fs : FS) : result Index :=
  match read_file dir "benefits.index" fs with
  | Some (FIndex ix) => Ok ix
  | _ => Err RuntimeError
  end.

(** [pickle.load(open(dir / "chunks.pkl", 'rb'))] *)
Definition load_chunks (dir : string) (fs : FS) : result (list chunk) :=
  match read_file dir "chunks.pkl" fs with
  | Some (FPickle cs) => Ok cs
  | Some FEmpty => Err EOFError
  | Some _ => Err UnpicklingError
  | None => Err FileNotFoundError
  end.

(** [np.load(dir / "embeddings.npy")] *)
Definition load_embeddings (dir : string) (fs : FS) : result ndarray :=
  match read_file dir "embeddings.npy" fs with
  | Some (FNpy a) => Ok a
  | Some FEmpty => Err EOFError
  | Some _ => Err ValueError
  | None => Err FileNotFoundError
  end.

End Disk.

Abbreviation FS Index := (gmap string (gmap string (file Index))).

Arguments FIndex {Index} ix.
Arguments FPickle {Index} cs.
Arguments FNpy {Index} a.
Arguments FJson {Index} m.
Arguments FEmpty {Index}.
Arguments FPartial {Index}.
Arguments make_dir {Index} dir fs.
Arguments mkdir {Index} dir fs.
Arguments write_file {Index} dir name c fs.
Arguments read_file {Index} dir name fs.
Arguments read_index {Index} dir fs.
Arguments load_chunks {Index} dir fs.
Arguments load_embeddings {Index} dir fs.

(** ** embedding_generator.py *)

Module EmbeddingGenerator.

(** [c.get(key, fallback) for c in chunks] *)
Definition column (key : string) (fallback : value) (chunks : list chunk) : list value :=
  map (fun c : chunk => default fallback (c !! key)) chunks.

(** The [metadata] dictionary of [save_all]; [dimension] is
    [self.dimension]. *)
Definition make_summary (dimension : Z) (chunks : list chunk) : summary :=
  {| total_chunks := length chunks;
     embedding_dimension := dimension;
     model_name := "all-MiniLM-L6-v2";
     index_type := "HNSW";
     plans := py_set (column "plan_name" (VStr "Unknown") chunks);
     summary_categories := py_set (column "category" (VStr "unknown") chunks);
     total_plans := length (py_set (column "plan_name" (VStr "Unknown") chunks)) |}.

(** [generate_embeddings]: the texts of the chunks, handed to the
    embedding model [encode_all] in one call. *)
Fixpoint chunk_texts (chunks : list chunk) : result (list value) :=
  match chunks with
  | [] => Ok []
  | c :: rest =>
      text ← match c !! "text" with
             | Some v => Ok v
             | None => Err KeyError
             end;
      texts ← chunk_texts rest;
      Ok (text :: texts)
  end.

Definition generate_embeddings (encode_all : list value -> ndarray)
    (chunks : list chunk) : result ndarray :=
  texts ← chunk_texts chunks;
  Ok (encode_all texts).

Section Persist.

Variable Index : Type.

(** The four files [save_all] writes, in the order it writes them. *)
Definition save_all_writes (dimension : Z) (index : Index) (chunks : list chunk)
    (embeddings : ndarray) : list (string * file Index) :=
  [ ("benefits.index", FIndex index);
    ("chunks.pkl", FPickle chunks);
    ("embeddings.npy", FNpy embeddings);
    ("metadata.json", FJson (make_summary dimension chunks)) ].

Definition run_writes (dir : string) (ws : list (string * file Index))
    (fs : FS Index) : FS Index :=
  foldl (fun fs w => write_file dir w.1 w.2 fs) fs ws.

Definition save_all (dimension : Z) (index : Index) (chunks : list chunk)
    (embeddings : ndarray) (output_dir : string) (fs : FS Index) : FS Index :=
  run_writes output_dir (save_all_writes dimension index chunks embeddings)
             (mkdir output_dir fs).

(** The states the output directory goes through while [save_all] runs.
    Each of its four writes -- [faiss.write_index] (line 111),
    [open(chunks_file, 'wb')] with [pickle.dump] (116-117), [np.save]
    (122), [open(metadata_file, 'w')] with [json.dump] (137-138) -- opens
    the file under its final name, which creates it empty or empties it,
    and then fills it: the file holds nothing, then a part of the dump,
    then all of it. *)
Definition save_all_progress (dimension : Z) (index : Index) (chunks : list chunk)
    (embeddings : ndarray) : list (string * file Index) :=
  flat_map (fun w : string * file Index => [(w.1, FEmpty); (w.1, FPartial); w])
           (save_all_writes dimension index chunks embeddings).

(** A run of [save_all] that a failure stops after [k] of these twelve
    states.  With [k = 3 * n] the failure falls between two writes, [n]
    files being complete (the next file cannot be opened, the summary
    cannot be computed, the process is stopped); otherwise it falls
    within a write (the dump raises, the disk is full) and leaves the
    file at hand empty or partial.  Nothing is undone: [save_all] has no
    handler, no temporary file and no rename. *)
Definition save_all_interrupted (k : nat) (dimension : Z) (index : Index)
    (chunks : list chunk) (embeddings : ndarray) (output_dir : string)
    (fs : FS Index) : FS Index :=
  run_writes output_dir
             (take k (save_all_progress dimension index chunks embeddings))
             (mkdir output_dir fs).

Definition load_all (index_dir : string) (fs : FS Index)
    : result (Index * list chunk * ndarray) :=
  index ← read_index index_dir fs;
  chunks ← load_chunks index_dir fs;
  embeddings ← load_embeddings index_dir fs;
  Ok (index, chunks, embeddings).

End Persist.

Arguments save_all_writes {Index} dimension index chunks embeddings.
Arguments run_writes {Index} dir ws fs.
Arguments save_all {Index} dimension index chunks embeddings output_dir fs.
Arguments save_all_progress {Index} dimension index chunks embeddings.
Arguments save_all_interrupted {Index} k dimension index chunks embeddings
  output_dir fs.
Arguments load_all {Index} index_dir fs.

End EmbeddingGenerator.

(** ** retriever.py *)

Module BenefitRetriever.

(** A filter argument is applied only when it is truthy: neither [None]
    nor the empty string. *)
Definition truthy (f : option string) : bool :=
  match f with
  | Some s => negb (String.eqb s "")
  | None => false
  end.

(** [chunk.get(key) != wanted], where [chunk.get] yields [None] for a
    missing key and [None] differs from every string. *)
Definition field_differs (c : chunk) (key wanted : string) : bool :=
  match c !! key with
  | Some v => negb (py_eqb v (VStr wanted))
  | None => true
  end.

(** [flt and chunk.get(key) != flt] *)
Definition rejects (flt : option string) (c : chunk) (key : string) : bool :=
  truthy flt && field_differs c key (default "" flt).

Section Retriever.

(** The external capabilities: [index.search(x, k)] yields the [k]
    candidate pairs (distance, id) of its single query row;
    [SentenceTransformer(name)] loads the embedding model of that name,
    or raises; [model.encode], of the one model the code ever loads,
    embeds the query; [round32] rounds an exact real to the nearest
    [float32], so that [float(1 - distance)] is [round32 (1 - distance)]. *)
Variable Index : Type.
Variable Vec : Type.
Variable index_search : Index -> Vec -> Z -> result (list (Q * Z)).
Variable load_model : string -> result unit.
Variable encode : string -> Vec.
Variable round32 : Q -> Q.

(** The attributes of [self] that the methods read. *)
Record retriever : Type := {
  index : Index;
  chunks : list chunk
}.

Definition __init__ (index_dir : string) (fs : FS Index) : result retriever :=
  match fs !! index_dir with
  | None => Err FileNotFoundError
  | Some _ =>
      ix ← read_index index_dir fs;
      cs ← load_chunks index_dir fs;
      _ ← load_model "all-MiniLM-L6-v2";
      Ok {| index := ix; chunks := cs |}
  end.

(** The three assignments that turn a copied chunk into a result. *)
Definition annotate (c : chunk) (distance : Q) (i idx : Z) : chunk :=
  <["chunk_id" := VInt idx]>
    (<["rank" := VInt (i + 1)]>
       (<["similarity_score" := VFloat (round32 (1 - distance))]> c)).

(** One pass through the body of the loop of [search], up to the
    [append]: [Ok None] is a [continue]. *)
Definition visit (cs : list chunk) (plan_filter category_filter : option string)
    (i : Z) (cand : Q * Z) : result (option chunk) :=
  let '(distance, idx) := cand in
  if idx =? -1 then Ok None
  else
    c ← py_getitem cs idx;
    if rejects plan_filter c "plan_name" then Ok None
    else if rejects category_filter c "category" then Ok None
    else Ok (Some (annotate c distance i idx)).

(** The loop of [search] from candidate number [i] on, with the results
    collected so far. *)
Fixpoint collect (cs : list chunk) (top_k : Z)
    (plan_filter category_filter : option string)
    (i : Z) (cands : list (Q * Z)) (results : list chunk) : result (list chunk) :=
  match cands with
  | [] => Ok results
  | cand :: rest =>
      r ← visit cs plan_filter category_filter i cand;
      match r with
      | None => collect cs top_k plan_filter category_filter (i + 1) rest results
      | Some c =>
          let results := results ++ [c] in
          if Z.of_nat (length results) >=? top_k then Ok results
          else collect cs top_k plan_filter category_filter (i + 1) rest results
      end
  end.

Definition search (self : retriever) (query : string) (top_k : Z)
    (plan_filter category_filter : option string) : result (list chunk) :=
  let query_embedding := encode query in
  cands ← index_search (index self) query_embedding
            (Z.min (top_k * 3) (Z.of_nat (length (chunks self))));
  collect (chunks self) top_k plan_filter category_filter 0 cands [].

(** [result.get('plan_name', 'Unknown')] *)
Definition plan_of (c : chunk) : value :=
  default (VStr "Unknown") (c !! "plan_name").

(** One pass through the grouping loop of [search_with_context]. *)
Definition group_step (by_plan : list (value * list chunk)) (r : chunk)
    : list (value * list chunk) :=
  let plan := plan_of r in
  let by_plan :=
    match odict_get py_eqb by_plan plan with
    | Some _ => by_plan
    | None => odict_set py_eqb by_plan plan []
    end in
  odict_set py_eqb by_plan plan (default [] (odict_get py_eqb by_plan plan) ++ [r]).

Record search_context : Type := {
  sc_query : string;
  sc_total_results : nat;
  sc_results : list chunk;
  sc_by_plan : list (value * list chunk);
  sc_plans_found : list value
}.

Definition search_with_context (self : retriever) (query : string) (top_k : Z)
    : result search_context :=
  results ← search self query top_k None None;
  let by_plan := foldl group_step [] results in
  Ok {| sc_query := query;
        sc_total_results := length results;
        sc_results := results;
        sc_by_plan := by_plan;
        sc_plans_found := map fst by_plan |}.

(** The loop of [compare_plans]. *)
Fixpoint compare_loop (self : retriever) (query : string) (plan_names : list string)
    (comparison : list (string * list chunk))
    : result (list (string * list chunk)) :=
  match plan_names with
  | [] => Ok comparison
  | plan_name :: rest =>
      results ← search self query 3 (Some plan_name) None;
      compare_loop self query rest (odict_set String.eqb comparison plan_name results)
  end.

(** [compare_plans]: the pair of the ['query'] and ['comparison']
    entries of the returned dictionary. *)
Definition compare_plans (self : retriever) (query : string)
    (plan_names : list string) : result (string * list (string * list chunk)) :=
  comparison ← compare_loop self query plan_names [];
  Ok (query, comparison).

(** [chunk.get(key) == wanted] *)
Definition field_is (c : chunk) (key wanted : string) : bool :=
  match c !! key with
  | Some v => py_eqb v (VStr wanted)
  | None => false
  end.

(** [get_plan_overview]; [None] is Python's [None]. *)
Definition get_plan_overview (self : retriever) (plan_name : string)
    : option chunk :=
  List.find (fun c : chunk =>
               field_is c "plan_name" plan_name && field_is c "type" "overview")
            (chunks self).

(** [sorted(list(set(chunk[key] for chunk in chunks if key in chunk)))];
    [None] is the [TypeError] of [sorted]. *)
Definition list_field (key : string) (cs : list chunk) : option (list value) :=
  py_sorted (py_set (omap (fun c : chunk => c !! key) cs)).

Definition list_plans (self : retriever) : option (list value) :=
  list_field "plan_name" (chunks self).

Definition list_categories (self : retriever) : option (list value) :=
  list_field "category" (chunks self).

(** One pass through a counting loop of [get_statistics]:
    [d[k] = d.get(k, 0) + 1]. *)
Definition count_step (key : string) (fallback : value)
    (d : list (value * nat)) (c : chunk) : list (value * nat) :=
  let k := default fallback (c !! key) in
  odict_set py_eqb d k (default 0%nat (odict_get py_eqb d k) + 1)%nat.

Record statistics : Type := {
  st_total_chunks : nat;
  st_total_plans : nat;
  st_plans : list value;
  st_categories : list value;
  st_chunks_by_plan : list (value * nat);
  st_chunks_by_category : list (value * nat)
}.

(** [get_statistics]; [None] is the [TypeError] of [sorted]. *)
Definition get_statistics (self : retriever) : option statistics :=
  plans_for_count ← list_plans self;
  plans ← list_plans self;
  categories ← list_categories self;
  Some {| st_total_chunks := length (chunks self);
          st_total_plans := length plans_for_count;
          st_plans := plans;
          st_categories := categories;
          st_chunks_by_plan :=
            foldl (count_step "plan_name" (VStr "Unknown")) [] (chunks self);
          st_chunks_by_category :=
            foldl (count_step "category" (VStr "unknown")) [] (chunks self) |}.

End Retriever.

Arguments Build_retriever {Index} index chunks.
Arguments index {Index} self : rename.
Arguments chunks {Index} self : rename.
Arguments __init__ {Index} load_model index_dir fs.
Arguments search {Index Vec} index_search encode round32 self query top_k
  plan_filter category_filter.
Arguments search_with_context {Index Vec} index_search encode round32 self
  query top_k.
Arguments compare_loop {Index Vec} index_search encode round32 self query
  plan_names comparison.
Arguments compare_plans {Index Vec} index_search encode round32 self query
  plan_names.
Arguments get_plan_overview {Index} self plan_name.
Arguments list_plans {Index} self.
Arguments list_categories {Index} self.
Arguments get_statistics {Index} self.

End BenefitRetriever.

(** ** run_pipeline.py *)

Module HealthcareChatbot.

Section Chatbot.

Variable Index : Type.
Variable Vec : Type.
Variable index_search : Index -> Vec -> Z -> result (list (Q * Z)).
Variable encode : string -> Vec.
Variable round32 : Q -> Q.

(** The keys that [ask] reads to print one result; the printing itself
    is left out. *)
Definition show_result (show_details : bool) (r : chunk) : result unit :=
  _ ← BenefitChunker.dict_item r "plan_name";
  _ ← BenefitChunker.dict_item r "text";
  if show_details then
    _ ← BenefitChunker.dict_item r "similarity_score";
    _ ← BenefitChunker.dict_item r "category";
    Ok tt
  else Ok tt.

Fixpoint show_results (show_details : bool) (results : list chunk) : result unit :=
  match results with
  | [] => Ok tt
  | r :: rest =>
      _ ← show_result show_details r;
      show_results show_details rest
  end.

Definition no_information : string :=
  "❌ I couldn't find any information about that.".

(** [ask]: the message for an empty result list, the results otherwise. *)
Definition ask (retriever : BenefitRetriever.retriever Index) (question : string)
    (show_details : bool) : result (string + list chunk) :=
  results ← BenefitRetriever.search index_search encode round32 retriever
              question 3 None None;
  match results with
  | [] => Ok (inl no_information)
  | _ :: _ =>
      _ ← show_results show_details results;
      Ok (inr results)
  end.

End Chatbot.

Arguments ask {Index Vec} index_search encode round32 retriever question
  show_details.

End HealthcareChatbot.

Import BenefitChunker PDFExtractor EmbeddingGenerator BenefitRetriever
  HealthcareChatbot.

(** ** Reference definitions for the properties below *)

(** The classifier as the specification words it: lower-case the input,
    score every category, and take the first category in mapping order
    whose score is the maximum, provided that maximum is positive. *)
Definition classify_spec (text : string) : string :=
  let t := lower text in
  let score (c : string * list string) := keyword_score c.2 t in
  let best := max_list (map score categories) in
  if (0 <? best)%nat then
    match List.find (fun c => (score c =? best)%nat) categories with
    | Some c => c.1
    | None => "general"
    end
  else "general".

(** Every keyword phrase of every category. *)
Definition all_keywords : list string := concat (map snd categories).

(** The keyword phrases occurring in [text] are exactly those in [kws]. *)
Definition matches_exactly (kws : list string) (text : string) : bool :=
  forallb (fun kw => Bool.eqb (contains kw text) (bool_decide (kw ∈ kws)))
          all_keywords.

(** The entries of the local [scores] dictionary, computed at once. *)
Definition positive_scores (cats : list (string * list string)) (text : string)
    : scores_dict :=
  omap (fun c : string * list string =>
          let s := keyword_score c.2 text in
          if (0 <? s)%nat then Some (c.1, s) else None) cats.

(** First-maximum selection over (key, score) pairs. *)
Fixpoint first_max (best : string) (bv : nat) (rest : scores_dict) : string :=
  match rest with
  | [] => best
  | (k, v) :: rest' =>
      if (bv <? v)%nat then first_max k v rest' else first_max best bv rest'
  end.

(** The first key paired with the score [m]. *)
Definition first_with (m : nat) (d : scores_dict) : string :=
  match List.find (fun p : string * nat => (p.2 =? m)%nat) d with
  | Some p => p.1
  | None => "general"
  end.

(** The chunk a creation call returned, empty when the call raised. *)
Definition returned_chunk (r : result chunk) : chunk :=
  match r with
  | Ok c => c
  | Err _ => ∅
  end.

(** Fields of a search result. *)
Definition rank_of (r : chunk) : option Z :=
  match r !! "rank" with Some (VInt z) => Some z | _ => None end.

Definition similarity_of (r : chunk) : option Q :=
  match r !! "similarity_score" with Some (VFloat q) => Some q | _ => None end.

Definition chunk_id_of (r : chunk) : option Z :=
  match r !! "chunk_id" with Some (VInt z) => Some z | _ => None end.

(** [similarity_score] never increases along the list. *)
Definition scores_non_increasing (rs : list chunk) : Prop :=
  forall (i j : nat) (ri rj : chunk),
    (i < j)%nat -> rs !! i = Some ri -> rs !! j = Some rj ->
    exists si sj, similarity_of ri = Some si /\ similarity_of rj = Some sj /\
                  (sj <= si)%Q.

(** Distances of the real (non-sentinel) candidates never decrease. *)
Fixpoint ascendingb (cands : list (Q * Z)) : bool :=
  match cands with
  | [] => true
  | c :: rest =>
      forallb (fun c' : Q * Z =>
                 (c.2 =? -1) || (c'.2 =? -1) || Qle_bool c.1 c'.1) rest
      && ascendingb rest
  end.

(** What [index.search(x, n)] promises about its answer: exactly [n]
    candidates, the real ones by ascending distance. *)
Definition faiss_answer_ok (n : Z) (answer : result (list (Q * Z))) : bool :=
  match answer with
  | Ok cands => (Z.of_nat (length cands) =? n) && ascendingb cands
  | Err _ => true
  end.

(** A candidate id the loop can look up: the sentinel, or a position of
    the passage store. *)
Definition valid_id (n : nat) (idx : Z) : Prop :=
  idx = -1 \/ (0 <= idx < Z.of_nat n).

(** The number of neighbours [search] asks the index for. *)
Definition requested {Index : Type} (self : retriever Index) (top_k : Z) : Z :=
  Z.min (top_k * 3) (Z.of_nat (length (chunks self))).

(** The returned list of a call, empty when the call raised. *)
Definition returned (r : result (list chunk)) : list chunk :=
  match r with
  | Ok rs => rs
  | Err _ => []
  end.

Section Accepted.

Variable round32 : Q -> Q.
Variable cs : list chunk.
Variable plan_filter category_filter : option string.

(** The result a candidate contributes, if any. *)
Definition accept (i : Z) (cand : Q * Z) : option chunk :=
  match visit round32 cs plan_filter category_filter i cand with
  | Ok r => r
  | Err _ => None
  end.

(** All accepted candidates, numbered from [i] in the raw list. *)
Fixpoint accepted (i : Z) (cands : list (Q * Z)) : list chunk :=
  match cands with
  | [] => []
  | cand :: rest =>
      match accept i cand with
      | Some r => r :: accepted (i + 1) rest
      | None => accepted (i + 1) rest
      end
  end.

End Accepted.

(** How many more results the loop appends when it already holds [have]:
    the test [len(results) >= top_k] comes after an append, so at least
    one. *)
Definition quota (top_k : Z) (have : nat) : nat :=
  Z.to_nat (Z.max 1 (top_k - Z.of_nat have)).

(** ** Example data *)

(** A small exact index: it holds the (distance, id) pairs in the order
    it returns them, pads a request for more with the sentinel id, and
    refuses a request for no neighbours at all. *)
Definition toy_search (ix : list (Q * Z)) (_ : string) (k : Z)
    : result (list (Q * Z)) :=
  if k <=? 0 then Err AssertionError
  else Ok (take (Z.to_nat k) (ix ++ replicate (Z.to_nat k) (1000%Q, -1))).

Definition toy_encode (q : string) : string := q.

Definition exact (q : Q) : Q := q.

(** Two passages of two plans and an index over them. *)
Definition demo_chunk_a : chunk :=
  <["plan_name" := VStr "Plan A"]> (<["category" := VStr "dental"]> ∅).

Definition demo_chunk_b : chunk :=
  <["plan_name" := VStr "Plan B"]> (<["category" := VStr "wellness"]> ∅).

Definition demo_index : list (Q * Z) := [((1 # 10)%Q, 0); ((2 # 10)%Q, 1)].

Definition demo_retriever : retriever (list (Q * Z)) :=
  {| index := demo_index; chunks := [demo_chunk_a; demo_chunk_b] |}.

Definition demo_search (top_k : Z) (plan_filter category_filter : option string)
    : result (list chunk) :=
  search toy_search toy_encode exact demo_retriever "gym membership" top_k
         plan_filter category_filter.

(** An older and a newer build for the same location. *)
Definition demo_dir : string := "data/index".

Definition demo_old_embeddings : ndarray :=
  {| nd_shape := (1%nat, 2%nat); nd_data := [1%Q; 0%Q] |}.

Definition demo_new_embeddings : ndarray :=
  {| nd_shape := (2%nat, 2%nat); nd_data := [1%Q; 0%Q; 0%Q; 1%Q] |}.

Definition demo_old_fs : FS nat :=
  save_all 384 1%nat [demo_chunk_a] demo_old_embeddings demo_dir ∅.

(** A location holding the index, the passages and the vectors, but no
    summary metadata. *)
Definition demo_fs_without_metadata : FS nat :=
  write_file demo_dir "embeddings.npy" (FNpy demo_old_embeddings)
    (write_file demo_dir "chunks.pkl" (FPickle [demo_chunk_a])
       (write_file demo_dir "benefits.index" (FIndex 1%nat) (mkdir demo_dir ∅))).

(** Input of the chunker whose metadata carries its own [category]. *)
Definition demo_benefit : chunk :=
  <["service" := VStr "Gym Membership"]>
    (<["description" := VStr "Covered at no cost"]> ∅).

Definition demo_metadata : chunk :=
  <["plan_name" := VStr "Plan A"]> (<["category" := VStr "custom"]> ∅).

Definition demo_float_repr (q : Q) : string := "".

(** ** Further reference definitions *)

(** No two elements of the list are equal under [==]. *)
Fixpoint values_distinct (l : list value) : Prop :=
  match l with
  | [] => True
  | x :: rest => Forall (fun y => py_eqb x y = false) rest /\ values_distinct rest
  end.

(** No two keys of the dictionary are equal under [==]. *)
Definition keys_distinct {V : Type} (d : list (value * V)) : Prop :=
  values_distinct (map fst d).

(** [ps] lists, in ascending order and without repetition, the values
    that the chunks of [cs] carry under [key]. *)
Definition lists_values_of (key : string) (cs : list chunk) (ps : list value) : Prop :=
  StronglySorted value_order ps /\
  values_distinct ps /\
  (forall p, p ∈ ps -> exists c : chunk, c ∈ cs /\ c !! key = Some p) /\
  (forall (c : chunk) v, c ∈ cs -> c !! key = Some v ->
     exists p, p ∈ ps /\ py_eqb p v = true).

(** Some chunk carries a string under [key] and some chunk a number. *)
Definition mixes_kinds (key : string) (cs : list chunk) : Prop :=
  exists (c1 c2 : chunk) s v,
    c1 ∈ cs /\ c2 ∈ cs /\ c1 !! key = Some (VStr s) /\
    c2 !! key = Some v /\ is_str v = false.

(** [d.get(k, 0)] on a dictionary of counts. *)
Definition count_of (d : list (value * nat)) (k : value) : nat :=
  default 0%nat (odict_get py_eqb d k).

(** The statistics of the example store. *)
Definition demo_statistics : statistics :=
  {| st_total_chunks := 2; st_total_plans := 2;
     st_plans := [VStr "Plan A"; VStr "Plan B"];
     st_categories := [VStr "dental"; VStr "wellness"];
     st_chunks_by_plan := [(VStr "Plan A", 1%nat); (VStr "Plan B", 1%nat)];
     st_chunks_by_category := [(VStr "dental", 1%nat); (VStr "wellness", 1%nat)] |}.

(** The unfiltered results over the example store and their context. *)
Definition demo_results : list chunk := returned (demo_search 5 None None).

Definition demo_context : search_context :=
  {| sc_query := "gym membership";
     sc_total_results := 2;
     sc_results := demo_results;
     sc_by_plan := foldl group_step [] demo_results;
     sc_plans_found := [VStr "Plan A"; VStr "Plan B"] |}.

(** A parsed file with the example metadata and one benefit. *)
Definition demo_extracted : extracted :=
  {| ex_metadata := Some demo_metadata; ex_benefits := Some [demo_benefit] |}.

(** The stripped lines that [_extract_benefits] takes for service
    headers: not blank, not a section header, and accepted by
    [_is_service_header]. *)
Definition header_lines (lines : list string) : list string :=
  filter (fun line => negb (String.eqb line "")
                      && negb (bool_decide (line ∈ section_headers))
                      && _is_service_header line = true)
         (map strip lines).

(** A benefit record with a service header for its service and a
    non-empty description made of non-blank lines. *)
Definition benefit_well_formed (b : chunk) : Prop :=
  exists (s : string) (ds : list string),
    b = benefit_record s ds /\ s <> "" /\ _is_service_header s = true /\
    ds <> [] /\ Forall (fun d => d <> "") ds.

(** The state of the loop of [_extract_benefits] after the header lines
    [hs]: the current service is the last of them, and the services saved
    so far are among the earlier ones, in order. *)
Definition loop_state_ok (current_service : option string) (benefits : list chunk)
    (hs : list string) : Prop :=
  match current_service with
  | Some s =>
      s <> "" /\ _is_service_header s = true /\
      exists hs', hs = hs' ++ [s] /\
        omap (fun b : chunk => b !! "service") benefits `sublist_of` map VStr hs'
  | None => hs = [] /\ benefits = []
  end.

(** A two-benefit document: the second header has no description. *)
Definition demo_text : string :=
  "COVERED SERVICES" +:+ String "010"%char
  ("Primary Care Visit" +:+ String "010"%char
  ("  You pay $25 copay per visit " +:+ String "010"%char
  ("Gym Membership" +:+ String "010"%char
  ("Dental Preventive" +:+ String "010"%char
   "No charge.")))).

(** A store whose index has no vector: every candidate is the sentinel. *)
Definition demo_unmatched_retriever : retriever (list (Q * Z)) :=
  {| index := []; chunks := [demo_chunk_a] |}.

(** A store of one passage that has the keys [ask] prints. *)
Definition demo_passage : chunk :=
  <["plan_name" := VStr "Plan A"]>
    (<["category" := VStr "wellness"]>
       (<["text" := VStr "Plan A covers Gym Membership: Covered at no cost"]> ∅)).

Definition demo_passage_retriever : retriever (list (Q * Z)) :=
  {| index := [((1 # 10)%Q, 0)]; chunks := [demo_passage] |}.

(** An embedding model that loads. *)
Definition demo_load_model (_ : string) : result unit := Ok tt.

(** The example store as a unit on disk. *)
Definition demo_unit_fs : FS (list (Q * Z)) :=
  save_all 384 demo_index [demo_chunk_a; demo_chunk_b] demo_new_embeddings
           demo_dir ∅.

(** A unit of one passage whose index file was replaced by the index of
    a build over two passages, the second of them nearest to the query. *)
Definition demo_larger_index : list (Q * Z) := [((1 # 10)%Q, 1); ((2 # 10)%Q, 0)].

Definition demo_mismatched_fs : FS (list (Q * Z)) :=
  write_file demo_dir "benefits.index" (FIndex demo_larger_index)
    (save_all 384 [((1 # 10)%Q, 0)] [demo_chunk_a] demo_old_embeddings demo_dir ∅).

Definition demo_mismatched_retriever : retriever (list (Q * Z)) :=
  {| index := demo_larger_index; chunks := [demo_chunk_a] |}.

(** A store with a plan named by a string and a plan named by a number. *)
Definition demo_mixed_retriever : retriever (list (Q * Z)) :=
  {| index := demo_index;
     chunks := [demo_chunk_a; <["plan_name" := VInt 2024]> ∅] |}.

(** * Properties *)

(** ** The classifier *)

Lemma lower_app (s t : string) : lower (s +:+ t) = lower s +:+ lower t.
Proof. induction s as [|c s IH]; simpl; [done | by rewrite IH]. Qed.

Lemma categories_distinct : NoDup (map fst categories).
Proof. apply (bool_decide_unpack _). by vm_compute. Qed.

Lemma dict_set_fresh (d : scores_dict) (k : string) (v : nat) :
  k ∉ map fst d -> dict_set d k v = d ++ [(k, v)].
Proof.
  induction d as [|[k' v'] d IH]; simpl; intros Hk; [done|].
  apply not_elem_of_cons in Hk as [Hne Hk].
  destruct (String.eqb_spec k' k) as [->|_]; [done|].
  by rewrite IH.
Qed.

Lemma positive_scores_keys (cats : list (string * list string)) (text k : string) :
  k ∈ map fst (positive_scores cats text) -> k ∈ map fst cats.
Proof.
  induction cats as [|[c kws] cats IH]; simpl; [done|].
  unfold positive_scores in *. simpl.
  destruct (0 <? keyword_score kws text)%nat; simpl; intros Hin.
  - apply elem_of_cons in Hin as [->|Hin]; [left | right; by apply IH].
  - right. by apply IH.
Qed.

Lemma fill_scores_fresh (cats : list (string * list string)) (text : string)
    (scores : scores_dict) :
  NoDup (map fst scores ++ map fst cats) ->
  fill_scores cats text scores = scores ++ positive_scores cats text.
Proof.
  revert scores.
  induction cats as [|[c kws] cats IH]; intros scores Hnd; simpl.
  - by rewrite app_nil_r.
  - simpl in Hnd. apply NoDup_app in Hnd as (Hs & Hdisj & Hc).
    apply NoDup_cons in Hc as [Hc Hcats].
    assert (Hfresh : c ∉ map fst scores) by (intros Hin; apply (Hdisj c Hin); left).
    unfold positive_scores. simpl.
    destruct (0 <? keyword_score kws text)%nat eqn:Hpos; simpl.
    + rewrite IH.
      * rewrite dict_set_fresh by done. by rewrite <- app_assoc.
      * rewrite dict_set_fresh by done. rewrite map_app. simpl.
        apply NoDup_app. split; [|split; [|done]].
        -- apply NoDup_app. split; [done|]. split; [|apply NoDup_singleton].
           intros x Hx Hx'. apply list_elem_of_singleton in Hx'. by subst.
        -- intros x Hx Hx'. apply elem_of_app in Hx as [Hx|Hx].
           ++ apply (Hdisj x Hx). by right.
           ++ apply list_elem_of_singleton in Hx. by subst.
    + apply IH. apply NoDup_app. split; [done|]. split; [|done].
      intros x Hx Hx'. apply (Hdisj x Hx). by right.
Qed.

Lemma dict_get_NoDup (d : scores_dict) (k : string) (v : nat) :
  NoDup (map fst d) -> (k, v) ∈ d -> dict_get d k = Some v.
Proof.
  induction d as [|[k' v'] d IH]; simpl; intros Hnd Hin.
  - by apply elem_of_nil in Hin.
  - apply NoDup_cons in Hnd as [Hk' Hnd].
    apply elem_of_cons in Hin as [Heq|Hin].
    + injection Heq as -> ->. by rewrite String.eqb_refl.
    + destruct (String.eqb_spec k' k) as [->|_]; [|by apply IH].
      exfalso. apply Hk'. apply list_elem_of_fmap. by exists (k, v).
Qed.

Lemma max_from_pairs (f : string -> option nat) (rest : scores_dict)
    (best : string) (bv : nat) :
  (forall k v, (k, v) ∈ rest -> f k = Some v) ->
  max_from f best (Some bv) (map fst rest) = first_max best bv rest.
Proof.
  revert best bv.
  induction rest as [|[k v] rest IH]; intros best bv Hf; simpl; [done|].
  rewrite (Hf k v) by left.
  destruct (bv <? v)%nat; apply IH; intros k' v' Hin; apply Hf; by right.
Qed.

Lemma first_max_spec (rest : scores_dict) (best : string) (bv : nat) :
  first_max best bv rest =
    if (bv <? max_list (map snd rest))%nat
    then first_with (max_list (map snd rest)) rest
    else best.
Proof.
  revert best bv.
  induction rest as [|[k v] rest IH]; intros best bv; simpl.
  - by destruct bv.
  - rewrite !IH. unfold first_with. simpl.
    set (m := max_list (map snd rest)).
    destruct (Nat.ltb_spec bv v), (Nat.ltb_spec v m), (Nat.ltb_spec bv m),
      (Nat.ltb_spec bv (v `max` m)), (Nat.eqb_spec v (v `max` m));
      try lia; try done;
      by (replace (v `max` m)%nat with m by lia).
Qed.

Lemma positive_scores_max (cats : list (string * list string)) (text : string) :
  max_list (map snd (positive_scores cats text))
  = max_list (map (fun c => keyword_score c.2 text) cats).
Proof.
  induction cats as [|[c kws] cats IH]; simpl; [done|].
  unfold positive_scores in *. simpl.
  destruct (Nat.ltb_spec 0 (keyword_score kws text)); simpl; rewrite IH; lia.
Qed.

Lemma positive_scores_first_with (cats : list (string * list string))
    (text : string) (m : nat) :
  (0 < m)%nat ->
  first_with m (positive_scores cats text) =
    match List.find (fun c => (keyword_score c.2 text =? m)%nat) cats with
    | Some c => c.1
    | None => "general"
    end.
Proof.
  intros Hm. unfold first_with.
  induction cats as [|[c kws] cats IH]; simpl; [done|].
  unfold positive_scores in *. simpl.
  destruct (Nat.ltb_spec 0 (keyword_score kws text)); simpl.
  - by destruct (keyword_score kws text =? m)%nat.
  - destruct (Nat.eqb_spec (keyword_score kws text) m); [lia | done].
Qed.

Lemma positive_scores_positive (cats : list (string * list string))
    (text k : string) (v : nat) :
  (k, v) ∈ positive_scores cats text -> (0 < v)%nat.
Proof.
  unfold positive_scores. intros Hin.
  apply list_elem_of_omap in Hin as ([c kws] & _ & Hc). simpl in Hc.
  destruct (Nat.ltb_spec 0 (keyword_score kws text)); [|done].
  by injection Hc as _ <-.
Qed.

(** [_classify] picks the first category of maximal positive score. *)
Lemma _classify_first_max (text : string) :
  _classify text =
    let score (c : string * list string) := keyword_score c.2 text in
    let best := max_list (map score categories) in
    if (0 <? best)%nat then
      match List.find (fun c => (score c =? best)%nat) categories with
      | Some c => c.1
      | None => "general"
      end
    else "general".
Proof.
  unfold _classify.
  rewrite fill_scores_fresh by (simpl map at 1; apply categories_distinct).
  rewrite app_nil_l. cbv zeta.
  rewrite <- positive_scores_max.
  assert (Hnd : NoDup (map fst (positive_scores categories text))).
  { unfold positive_scores.
    generalize categories_distinct. generalize categories.
    induction l as [|[c kws] l IH]; simpl; intros Hl; [constructor|].
    apply NoDup_cons in Hl as [Hc Hl].
    destruct (0 <? keyword_score kws text)%nat; simpl; [|by apply IH].
    apply NoDup_cons. split; [|by apply IH].
    intros Hin. apply Hc. by apply (positive_scores_keys l text). }
  destruct (positive_scores categories text) as [|[k v] rest] eqn:Hps; [done|].
  assert (Hv : (0 < v)%nat).
  { apply (positive_scores_positive categories text k). rewrite Hps. left. }
  unfold py_max. simpl map. cbv iota beta.
  assert (Hk : dict_get ((k, v) :: rest) k = Some v).
  { apply dict_get_NoDup; [done | left]. }
  rewrite Hk.
  rewrite max_from_pairs.
  2:{ intros k' v' Hin. apply dict_get_NoDup; [done | by right]. }
  rewrite first_max_spec.
  simpl max_list.
  set (m := max_list (map snd rest)).
  destruct (Nat.ltb_spec 0 (v `max` m)); [|lia].
  destruct (Nat.ltb_spec v m).
  - replace (v `max` m)%nat with m by lia.
    rewrite <- (positive_scores_first_with categories text m) by lia.
    rewrite Hps. unfold first_with. simpl.
    destruct (Nat.eqb_spec v m); [lia | done].
  - replace (v `max` m)%nat with v by lia.
    rewrite <- (positive_scores_first_with categories text v) by lia.
    rewrite Hps. unfold first_with. simpl. by rewrite Nat.eqb_refl.
Qed.

Lemma keyword_score_ext (kws : list string) (t t' : string) :
  (forall kw, kw ∈ kws -> contains kw t = contains kw t') ->
  keyword_score kws t = keyword_score kws t'.
Proof.
  unfold keyword_score.
  induction kws as [|kw kws IH]; intros Hext; [done|].
  rewrite !filter_cons.
  rewrite (Hext kw) by left.
  destruct (decide (contains kw t' = true)); simpl;
    rewrite IH; try done; intros kw' Hin; apply Hext; by right.
Qed.

Lemma fill_scores_ext (cats : list (string * list string)) (t t' : string)
    (scores : scores_dict) :
  (forall c, c ∈ cats -> keyword_score c.2 t = keyword_score c.2 t') ->
  fill_scores cats t scores = fill_scores cats t' scores.
Proof.
  revert scores.
  induction cats as [|[c kws] cats IH]; intros scores Hext; simpl; [done|].
  assert (Hc : keyword_score kws t = keyword_score kws t').
  { apply (Hext (c, kws)). left. }
  rewrite Hc.
  destruct (0 <? keyword_score kws t')%nat; apply IH;
    intros c' Hin; apply Hext; by right.
Qed.

Lemma matches_exactly_contains (kws : list string) (t kw : string) :
  matches_exactly kws t = true -> kw ∈ all_keywords ->
  contains kw t = bool_decide (kw ∈ kws).
Proof.
  unfold matches_exactly. intros Hall Hin.
  rewrite forallb_forall in Hall.
  apply Bool.eqb_prop, Hall. by apply list_elem_of_In.
Qed.

(** Texts with the same keyword matches are classified alike. *)
Lemma _classify_same_matches (kws : list string) (t t' : string) :
  matches_exactly kws t = true -> matches_exactly kws t' = true ->
  _classify t = _classify t'.
Proof.
  intros Ht Ht'. unfold _classify.
  rewrite (fill_scores_ext categories t t'); [done|].
  intros c Hc. apply keyword_score_ext. intros kw Hkw.
  assert (Hall : kw ∈ all_keywords).
  { unfold all_keywords. apply list_elem_of_In, in_concat.
    exists c.2. split; apply list_elem_of_In; [|done].
    apply list_elem_of_fmap. by exists c. }
  by rewrite (matches_exactly_contains kws t), (matches_exactly_contains kws t').
Qed.

(** C2. Classification lower-cases the text (at the call site in
    [_create_benefit_chunk]), scores each of the 17 categories by the
    number of its keyword phrases that occur in the text, and returns the
    first-defined category of maximal score when that score is positive,
    [general] otherwise; a text whose keyword matches are exactly "gym"
    and "wellness" is classified as wellness. *)
Theorem classify_first_category_of_max_score (text : string) :
  _classify (lower text) = classify_spec text
  /\ length categories = 17%nat
  /\ (forall float_repr benefit metadata c,
        _create_benefit_chunk float_repr benefit metadata = Ok c ->
        metadata !! "category" = None ->
        exists s d,
          benefit !! "service" = Some (VStr s) /\
          benefit !! "description" = Some (VStr d) /\
          c !! "category" = Some (VStr (classify_spec (s +:+ " " +:+ d))))
  /\ (matches_exactly ["gym"; "wellness"] (lower text) = true ->
      _classify (lower text) = "wellness").
Proof.
  assert (Hspec : forall t, _classify (lower t) = classify_spec t).
  { intros t. by rewrite _classify_first_max. }
  split; [apply Hspec|]. split; [done|]. split.
  - intros float_repr benefit metadata c Hc Hmeta.
    unfold _create_benefit_chunk, dict_item in Hc.
    destruct (benefit !! "service") as [service|] eqn:Hs; [|done].
    destruct (benefit !! "description") as [description|] eqn:Hd; [|done].
    simpl in Hc.
    destruct service as [s| |]; try done.
    destruct description as [d| |]; try done.
    simpl in Hc. injection Hc as <-.
    exists s, d. split; [done|]. split; [done|].
    rewrite lookup_union_r by done.
    rewrite lookup_insert_eq.
    by rewrite <- Hspec, !lower_app.
  - intros Hm.
    rewrite (_classify_same_matches ["gym"; "wellness"] _ "gym wellness" Hm);
      by vm_compute.
Qed.

Lemma classify_first_category_of_max_score_witness :
  matches_exactly ["gym"; "wellness"] (lower "Gym and Wellness") = true
  /\ _classify (lower "Gym and Wellness") = "wellness".
Proof.
  split; [reflexivity|].
  apply (classify_first_category_of_max_score "Gym and Wellness").
  reflexivity.
Defined.

(** ** The search loop *)

Lemma annotate_rank (round32 : Q -> Q) (c : chunk) (d : Q) (i idx : Z) :
  rank_of (annotate round32 c d i idx) = Some (i + 1).
Proof.
  unfold rank_of, annotate.
  rewrite lookup_insert_ne by done. by rewrite lookup_insert_eq.
Qed.

Lemma annotate_similarity (round32 : Q -> Q) (c : chunk) (d : Q) (i idx : Z) :
  similarity_of (annotate round32 c d i idx) = Some (round32 (1 - d)%Q).
Proof.
  unfold similarity_of, annotate.
  rewrite !lookup_insert_ne by done. by rewrite lookup_insert_eq.
Qed.

Lemma annotate_chunk_id (round32 : Q -> Q) (c : chunk) (d : Q) (i idx : Z) :
  chunk_id_of (annotate round32 c d i idx) = Some idx.
Proof. unfold chunk_id_of, annotate. by rewrite lookup_insert_eq. Qed.

Lemma annotate_other (round32 : Q -> Q) (c : chunk) (d : Q) (i idx : Z) (k : string) :
  k <> "chunk_id" -> k <> "rank" -> k <> "similarity_score" ->
  annotate round32 c d i idx !! k = c !! k.
Proof. intros H1 H2 H3. unfold annotate. by rewrite !lookup_insert_ne. Qed.

Lemma py_getitem_in_range {A : Type} (l : list A) (idx : Z) :
  0 <= idx < Z.of_nat (length l) -> exists a, py_getitem l idx = Ok a.
Proof.
  intros Hr. unfold py_getitem.
  destruct (Z.ltb_spec idx 0); [lia|].
  destruct (Z.leb_spec 0 idx); [|lia].
  destruct (Z.ltb_spec idx (Z.of_nat (length l))); [|lia]. simpl.
  destruct (lookup_lt_is_Some_2 l (Z.to_nat idx)) as [a Ha]; [lia|].
  rewrite Ha. by exists a.
Qed.

(** A truthy filter lets through only chunks whose field is that string. *)
Lemma rejects_false_field (flt : option string) (c : chunk) (key : string) :
  truthy flt = true -> rejects flt c key = false ->
  exists p, flt = Some p /\ c !! key = Some (VStr p).
Proof.
  unfold rejects, field_differs. intros Ht Hr.
  destruct flt as [p|]; [|done]. rewrite Ht in Hr.
  exists p. split; [done|]. simpl in Hr.
  destruct (c !! key) as [v|]; [|done].
  destruct v as [s| |]; simpl in Hr; try done.
  apply negb_false_iff, String.eqb_eq in Hr. by subst.
Qed.

Section Loop.

Context (round32 : Q -> Q) (cs : list chunk) (top_k : Z).
Context (pf cf : option string).

Lemma quota_step (have : nat) :
  (Z.of_nat (S have) >=? top_k) = false ->
  quota top_k have = S (quota top_k (S have)).
Proof. unfold quota. rewrite Z.geb_leb. intros ?%Z.leb_gt. lia. Qed.

Lemma quota_last (have : nat) :
  (Z.of_nat (S have) >=? top_k) = true -> quota top_k have = 1%nat.
Proof. unfold quota. rewrite Z.geb_leb. intros ?%Z.leb_le. lia. Qed.

Lemma accept_visit (i : Z) (cand : Q * Z) (r : option chunk) :
  visit round32 cs pf cf i cand = Ok r -> accept round32 cs pf cf i cand = r.
Proof. unfold accept. by intros ->. Qed.

Lemma accept_Some (i : Z) (cand : Q * Z) (r : chunk) :
  accept round32 cs pf cf i cand = Some r ->
  exists c, cand.2 <> -1 /\ py_getitem cs cand.2 = Ok c /\
    rejects pf c "plan_name" = false /\ rejects cf c "category" = false /\
    r = annotate round32 c cand.1 i cand.2.
Proof.
  unfold accept, visit. destruct cand as [d idx]. simpl.
  destruct (Z.eqb_spec idx (-1)); [done|].
  destruct (py_getitem cs idx) as [c|e]; simpl; [|done].
  destruct (rejects pf c "plan_name") eqn:Hp; [done|].
  destruct (rejects cf c "category") eqn:Hc; [done|].
  intros [= <-]. by exists c.
Qed.

Lemma visit_valid (i : Z) (cand : Q * Z) :
  valid_id (length cs) cand.2 ->
  exists r, visit round32 cs pf cf i cand = Ok r.
Proof.
  destruct cand as [d idx]. unfold visit, valid_id. simpl. intros Hv.
  destruct (Z.eqb_spec idx (-1)); [by eexists|].
  destruct Hv as [?|Hr]; [done|].
  destruct (py_getitem_in_range cs idx Hr) as [c ->]. simpl.
  destruct (rejects pf c "plan_name"); [by eexists|].
  destruct (rejects cf c "category"); by eexists.
Qed.

(** Whenever the loop returns, it has appended the accepted candidates
    of some prefix of the raw list, up to its quota. *)
Lemma collect_prefix (cands : list (Q * Z)) (i : Z) (rs out : list chunk) :
  collect round32 cs top_k pf cf i cands rs = Ok out ->
  exists n, out = rs ++ take (quota top_k (length rs))
                          (accepted round32 cs pf cf i (take n cands)).
Proof.
  revert i rs.
  induction cands as [|cand cands IH]; intros i rs Hc; simpl in Hc.
  - injection Hc as <-. exists 0%nat. simpl. by rewrite take_nil, app_nil_r.
  - destruct (visit round32 cs pf cf i cand) as [[c|]|e] eqn:Hv;
      simpl in Hc; [| |done].
    + rewrite length_app, Nat.add_1_r in Hc.
      destruct (Z.of_nat (S (length rs)) >=? top_k) eqn:Hk.
      * injection Hc as <-. exists 1%nat. simpl.
        rewrite (accept_visit _ _ _ Hv). by rewrite (quota_last _ Hk).
      * destruct (IH _ _ Hc) as [n ->]. exists (S n). simpl.
        rewrite (accept_visit _ _ _ Hv), (quota_step _ Hk).
        rewrite length_app, Nat.add_1_r. simpl. by rewrite <- app_assoc.
    + destruct (IH _ _ Hc) as [n ->]. exists (S n). simpl.
      by rewrite (accept_visit _ _ _ Hv).
Qed.

(** On candidates that can all be looked up, the loop returns exactly
    the accepted candidates up to its quota. *)
Lemma collect_valid (cands : list (Q * Z)) (i : Z) (rs : list chunk) :
  Forall (fun cand => valid_id (length cs) cand.2) cands ->
  collect round32 cs top_k pf cf i cands rs
  = Ok (rs ++ take (quota top_k (length rs))
                   (accepted round32 cs pf cf i cands)).
Proof.
  intros Hall. revert i rs.
  induction Hall as [|cand cands Hv _ IH]; intros i rs; simpl.
  - by rewrite take_nil, app_nil_r.
  - destruct (visit_valid i cand Hv) as [r Hr]. rewrite Hr. simpl.
    rewrite (accept_visit _ _ _ Hr).
    destruct r as [c|]; [|apply IH].
    rewrite length_app, Nat.add_1_r.
    destruct (Z.of_nat (S (length rs)) >=? top_k) eqn:Hk.
    + by rewrite (quota_last _ Hk).
    + rewrite IH, (quota_step _ Hk), length_app, Nat.add_1_r. simpl.
      by rewrite <- app_assoc.
Qed.

(** The [a]-th accepted result comes from a raw candidate at a position
    [j >= a], and the later results come from later candidates. *)
Lemma accepted_lookup (cands : list (Q * Z)) (i : Z) (a : nat) (r : chunk) :
  accepted round32 cs pf cf i cands !! a = Some r ->
  exists (j : nat) (cand : Q * Z),
    (a <= j)%nat /\ cands !! j = Some cand /\
    accept round32 cs pf cf (i + Z.of_nat j) cand = Some r /\
    drop (S a) (accepted round32 cs pf cf i cands)
    = accepted round32 cs pf cf (i + Z.of_nat j + 1) (drop (S j) cands).
Proof.
  revert i a.
  induction cands as [|cand cands IH]; intros i a Ha; simpl in Ha; [done|].
  destruct (accept round32 cs pf cf i cand) as [c|] eqn:Hc.
  - destruct a as [|a]; simpl in Ha.
    + injection Ha as ->. exists 0%nat, cand.
      rewrite Z.add_0_r. simpl. rewrite Hc. simpl. by rewrite drop_0.
    + destruct (IH _ _ Ha) as (j & cand' & Hle & Hj & Hacc & Hdrop).
      exists (S j), cand'. simpl. rewrite Hc. simpl.
      replace (i + Z.of_nat (S j)) with (i + 1 + Z.of_nat j) by lia.
      split; [lia|]. by split.
  - destruct (IH _ _ Ha) as (j & cand' & Hle & Hj & Hacc & Hdrop).
    exists (S j), cand'. simpl. rewrite Hc.
    replace (i + Z.of_nat (S j)) with (i + 1 + Z.of_nat j) by lia.
    split; [lia|]. by split.
Qed.

(** Two results in list order come from two candidates in raw order. *)
Lemma accepted_lookup2 (cands : list (Q * Z)) (i : Z) (a b : nat)
    (ra rb : chunk) :
  (a < b)%nat ->
  accepted round32 cs pf cf i cands !! a = Some ra ->
  accepted round32 cs pf cf i cands !! b = Some rb ->
  exists (ja jb : nat) (ca cb : Q * Z),
    (a <= ja)%nat /\ (ja < jb)%nat /\
    cands !! ja = Some ca /\ cands !! jb = Some cb /\
    accept round32 cs pf cf (i + Z.of_nat ja) ca = Some ra /\
    accept round32 cs pf cf (i + Z.of_nat jb) cb = Some rb.
Proof.
  intros Hab Ha Hb.
  destruct (accepted_lookup _ _ _ _ Ha) as (ja & ca & Hle & Hja & Hacca & Hdrop).
  assert (Hb' : drop (S a) (accepted round32 cs pf cf i cands) !! (b - S a)%nat
                = Some rb).
  { rewrite lookup_drop. by replace (S a + (b - S a))%nat with b by lia. }
  rewrite Hdrop in Hb'.
  destruct (accepted_lookup _ _ _ _ Hb') as (j & cb & _ & Hj & Haccb & _).
  rewrite lookup_drop in Hj.
  exists ja, (S ja + j)%nat, ca, cb.
  replace (i + Z.of_nat (S ja + j)) with (i + Z.of_nat ja + 1 + Z.of_nat j) by lia.
  repeat split; try done; lia.
Qed.

End Loop.

(** When nothing is skipped, accepted results and raw candidates line up. *)
Lemma accepted_all_lookup (round32 : Q -> Q) (cs : list chunk)
    (pf cf : option string) (cands : list (Q * Z)) (i : Z) (a : nat) (r : chunk) :
  (forall j cand, cands !! j = Some cand ->
     is_Some (accept round32 cs pf cf (i + Z.of_nat j) cand)) ->
  accepted round32 cs pf cf i cands !! a = Some r ->
  exists cand, cands !! a = Some cand /\
    accept round32 cs pf cf (i + Z.of_nat a) cand = Some r.
Proof.
  revert i a.
  induction cands as [|cand cands IH]; intros i a Hall Ha; simpl in Ha; [done|].
  destruct (Hall 0%nat cand eq_refl) as [c Hc].
  rewrite Z.add_0_r in Hc. rewrite Hc in Ha.
  destruct a as [|a]; simpl in Ha.
  - injection Ha as ->. exists cand. by rewrite Z.add_0_r.
  - destruct (IH (i + 1) a) as (cand' & Ha' & Hacc); [|done|].
    + intros j cand' Hj.
      replace (i + 1 + Z.of_nat j) with (i + Z.of_nat (S j)) by lia.
      by apply Hall.
    + exists cand'. split; [done|].
      by replace (i + Z.of_nat (S a)) with (i + 1 + Z.of_nat a) by lia.
Qed.

Lemma collect_ext (round32 : Q -> Q) (cs : list chunk) (top_k : Z)
    (pf cf pf' cf' : option string) (cands : list (Q * Z)) (i : Z)
    (rs : list chunk) :
  (forall j cand, visit round32 cs pf cf j cand = visit round32 cs pf' cf' j cand) ->
  collect round32 cs top_k pf cf i cands rs
  = collect round32 cs top_k pf' cf' i cands rs.
Proof.
  intros Hv. revert i rs.
  induction cands as [|cand cands IH]; intros i rs; simpl; [done|].
  rewrite Hv.
  destruct (visit round32 cs pf' cf' i cand) as [[c|]|e]; simpl; [|done..].
  by destruct (Z.of_nat (length (rs ++ [c])) >=? top_k).
Qed.

Section SearchFacts.

Context {Index Vec : Type}.
Context (index_search : Index -> Vec -> Z -> result (list (Q * Z))).
Context (encode : string -> Vec) (round32 : Q -> Q).
Context (self : retriever Index) (query : string) (top_k : Z).
Context (pf cf : option string).

(** A returned list is the accepted part of a prefix of the candidates. *)
Lemma search_Ok (results : list chunk) :
  search index_search encode round32 self query top_k pf cf = Ok results ->
  exists cands n,
    index_search (index self) (encode query) (requested self top_k) = Ok cands /\
    results = take (quota top_k 0)
                (accepted round32 (chunks self) pf cf 0 (take n cands)).
Proof.
  unfold search, requested.
  destruct (index_search _ _ _) as [cands|e]; simpl; [|done].
  intros Hc. destruct (collect_prefix _ _ _ _ _ _ _ _ _ Hc) as [n ->].
  by exists cands, n.
Qed.

End SearchFacts.

(** ** Ranks (C1) *)

(** C1, as the code has it. The [rank] of a result is one more than the
    position of its candidate in the raw list the index returned: ranks
    increase strictly along the results and the result at position [a]
    has a rank of at least [a + 1]; they are [1, 2, ..., len(results)]
    when no candidate was skipped. *)
Theorem rank_is_raw_candidate_position {Index Vec : Type}
    (index_search : Index -> Vec -> Z -> result (list (Q * Z)))
    (encode : string -> Vec) (round32 : Q -> Q)
    (self : retriever Index) (query : string) (top_k : Z)
    (pf cf : option string) (results : list chunk) :
  search index_search encode round32 self query top_k pf cf = Ok results ->
  exists cands,
    index_search (index self) (encode query) (requested self top_k) = Ok cands /\
    (forall (a : nat) (r : chunk), results !! a = Some r ->
       exists (j : nat) (cand : Q * Z),
         (a <= j)%nat /\ cands !! j = Some cand /\
         chunk_id_of r = Some cand.2 /\ rank_of r = Some (Z.of_nat j + 1)) /\
    (forall (a b : nat) (ra rb : chunk),
       (a < b)%nat -> results !! a = Some ra -> results !! b = Some rb ->
       exists x y, rank_of ra = Some x /\ rank_of rb = Some y /\ x < y) /\
    ((forall (j : nat) (cand : Q * Z), cands !! j = Some cand ->
        is_Some (accept round32 (chunks self) pf cf (Z.of_nat j) cand)) ->
     forall (a : nat) (r : chunk), results !! a = Some r ->
       rank_of r = Some (Z.of_nat a + 1)).
Proof.
  intros Hs. destruct (search_Ok _ _ _ _ _ _ _ _ _ Hs) as (cands & n & Hc & ->).
  exists cands. split; [done|]. split; [|split].
  - intros a r Ha. apply lookup_take_Some in Ha as [Ha _].
    destruct (accepted_lookup _ _ _ _ _ _ _ _ Ha) as (j & cand & Hle & Hj & Hacc & _).
    apply lookup_take_Some in Hj as [Hj _].
    destruct (accept_Some _ _ _ _ _ _ _ Hacc) as (c & _ & _ & _ & _ & ->).
    exists j, cand. rewrite annotate_rank, annotate_chunk_id. by rewrite Z.add_0_l.
  - intros a b ra rb Hab Ha Hb.
    apply lookup_take_Some in Ha as [Ha _]. apply lookup_take_Some in Hb as [Hb _].
    destruct (accepted_lookup2 _ _ _ _ _ _ _ _ _ _ Hab Ha Hb)
      as (ja & jb & ca & cb & _ & Hlt & _ & _ & Hacca & Haccb).
    destruct (accept_Some _ _ _ _ _ _ _ Hacca) as (c1 & _ & _ & _ & _ & ->).
    destruct (accept_Some _ _ _ _ _ _ _ Haccb) as (c2 & _ & _ & _ & _ & ->).
    eexists _, _. rewrite !annotate_rank. split; [done|]. split; [done|]. lia.
  - intros Hall a r Ha. apply lookup_take_Some in Ha as [Ha _].
    destruct (accepted_all_lookup round32 (chunks self) pf cf (take n cands) 0 a r)
      as (cand & _ & Hacc); [|done|].
    + intros j cand Hj.
      apply lookup_take_Some in Hj as [Hj _]. rewrite Z.add_0_l. by apply Hall.
    + destruct (accept_Some _ _ _ _ _ _ _ Hacc) as (c & _ & _ & _ & _ & ->).
      rewrite annotate_rank. by rewrite Z.add_0_l.
Qed.

Lemma rank_is_raw_candidate_position_witness :
  demo_search 1 (Some "Plan B") None = Ok (returned (demo_search 1 (Some "Plan B") None))
  /\ exists cands,
    toy_search demo_index "gym membership" (requested demo_retriever 1) = Ok cands /\
    (forall (a : nat) (r : chunk),
       returned (demo_search 1 (Some "Plan B") None) !! a = Some r ->
       exists (j : nat) (cand : Q * Z),
         (a <= j)%nat /\ cands !! j = Some cand /\
         chunk_id_of r = Some cand.2 /\ rank_of r = Some (Z.of_nat j + 1)).
Proof.
  split; [reflexivity|].
  destruct (rank_is_raw_candidate_position toy_search toy_encode exact
              demo_retriever "gym membership" 1 (Some "Plan B") None
              (returned (demo_search 1 (Some "Plan B") None)) eq_refl)
    as (cands & Hc & Hrank & _).
  exists cands. by split.
Defined.

(** C1 fails as stated: with a plan filter that rejects the first
    candidate, the only returned result has rank 2, not 1. *)
Lemma rank_not_accepted_position :
  map rank_of (returned (demo_search 1 (Some "Plan B") None)) = [Some 2]
  /\ map rank_of (returned (demo_search 1 (Some "Plan B") None)) <> [Some 1].
Proof. split; [reflexivity | discriminate]. Qed.

(** ** Length and order of the results (C3) *)

Lemma ascendingb_lookup (cands : list (Q * Z)) (i j : nat) (ci cj : Q * Z) :
  ascendingb cands = true -> (i < j)%nat ->
  cands !! i = Some ci -> cands !! j = Some cj ->
  ci.2 <> -1 -> cj.2 <> -1 -> (ci.1 <= cj.1)%Q.
Proof.
  revert i j.
  induction cands as [|c rest IH]; intros i j Hasc Hij Hi Hj Hni Hnj; [done|].
  simpl in Hasc. apply andb_true_iff in Hasc as [Hhd Htl].
  destruct j as [|j]; [lia|]. simpl in Hj.
  destruct i as [|i]; simpl in Hi.
  - injection Hi as ->. rewrite forallb_forall in Hhd.
    specialize (Hhd cj). rewrite <- list_elem_of_In in Hhd.
    specialize (Hhd (list_elem_of_lookup_2 _ _ _ Hj)).
    apply orb_true_iff in Hhd as [Hs|Hle]; [|by apply Qle_bool_iff].
    apply orb_true_iff in Hs as [Hs|Hs]; apply Z.eqb_eq in Hs; done.
  - apply (IH i j); try done. lia.
Qed.

Lemma one_minus_antitone (x y : Q) : (x <= y)%Q -> (1 - y <= 1 - x)%Q.
Proof.
  intros Hxy. unfold Qminus.
  apply Qplus_le_compat; [apply Qle_refl | by apply Qopp_le_compat].
Qed.

(** C3. When the index answers a request for [n] neighbours with [n]
    candidates in ascending distance and [float32] rounding is monotone,
    the list returned by [search] has at most [top_k] elements and its
    [similarity_score] values never increase. *)
Theorem search_length_and_order {Index Vec : Type}
    (index_search : Index -> Vec -> Z -> result (list (Q * Z)))
    (encode : string -> Vec) (round32 : Q -> Q)
    (self : retriever Index) (query : string) (top_k : Z)
    (pf cf : option string) (results : list chunk) :
  (forall x y : Q, (x <= y)%Q -> (round32 x <= round32 y)%Q) ->
  faiss_answer_ok (requested self top_k)
    (index_search (index self) (encode query) (requested self top_k)) = true ->
  search index_search encode round32 self query top_k pf cf = Ok results ->
  Z.of_nat (length results) <= top_k /\ scores_non_increasing results.
Proof.
  intros Hmono Hfaiss Hs.
  destruct (search_Ok _ _ _ _ _ _ _ _ _ Hs) as (cands & n & Hc & ->).
  rewrite Hc in Hfaiss. simpl in Hfaiss.
  apply andb_true_iff in Hfaiss as [Hlen Hasc]. apply Z.eqb_eq in Hlen.
  split.
  - rewrite length_take. unfold quota, requested in *.
    destruct (Z.le_gt_cases 1 top_k) as [Hk|Hk]; [lia|].
    assert (Hnil : cands = []) by (apply length_zero_iff_nil; lia).
    subst cands. rewrite take_nil. simpl in *. lia.
  - intros a b ra rb Hab Ha Hb.
    apply lookup_take_Some in Ha as [Ha _]. apply lookup_take_Some in Hb as [Hb _].
    destruct (accepted_lookup2 _ _ _ _ _ _ _ _ _ _ Hab Ha Hb)
      as (ja & jb & ca & cb & _ & Hlt & Hja & Hjb & Hacca & Haccb).
    apply lookup_take_Some in Hja as [Hja _].
    apply lookup_take_Some in Hjb as [Hjb _].
    destruct (accept_Some _ _ _ _ _ _ _ Hacca) as (c1 & Hn1 & _ & _ & _ & ->).
    destruct (accept_Some _ _ _ _ _ _ _ Haccb) as (c2 & Hn2 & _ & _ & _ & ->).
    eexists _, _. rewrite !annotate_similarity.
    split; [done|]. split; [done|].
    apply Hmono, one_minus_antitone.
    by apply (ascendingb_lookup cands ja jb).
Qed.

Lemma search_length_and_order_witness :
  demo_search 2 None None = Ok (returned (demo_search 2 None None))
  /\ Z.of_nat (length (returned (demo_search 2 None None))) <= 2
  /\ scores_non_increasing (returned (demo_search 2 None None)).
Proof.
  split; [reflexivity|].
  apply (search_length_and_order toy_search toy_encode exact demo_retriever
           "gym membership" 2 None None).
  - intros x y Hxy. exact Hxy.
  - reflexivity.
  - reflexivity.
Defined.

(** ** Filters (C4, C10) *)

(** C4, as the code has it. With a non-empty [plan_filter = p] every
    returned result has [plan_name == p], and with a non-empty
    [category_filter = c] every returned result has [category == c]; each
    filter acts on its own and both hold together when both are given. *)
Theorem search_respects_nonempty_filters {Index Vec : Type}
    (index_search : Index -> Vec -> Z -> result (list (Q * Z)))
    (encode : string -> Vec) (round32 : Q -> Q)
    (self : retriever Index) (query : string) (top_k : Z)
    (pf cf : option string) (results : list chunk) (r : chunk) :
  search index_search encode round32 self query top_k pf cf = Ok results ->
  r ∈ results ->
  (forall p, pf = Some p -> p <> "" -> r !! "plan_name" = Some (VStr p)) /\
  (forall c, cf = Some c -> c <> "" -> r !! "category" = Some (VStr c)).
Proof.
  intros Hs Hr.
  destruct (search_Ok _ _ _ _ _ _ _ _ _ Hs) as (cands & n & _ & ->).
  apply list_elem_of_lookup in Hr as [a Ha].
  apply lookup_take_Some in Ha as [Ha _].
  destruct (accepted_lookup _ _ _ _ _ _ _ _ Ha) as (j & cand & _ & _ & Hacc & _).
  destruct (accept_Some _ _ _ _ _ _ _ Hacc) as (c0 & _ & _ & Hp & Hc & ->).
  split.
  - intros p -> Hne. rewrite annotate_other by done.
    destruct (rejects_false_field (Some p) c0 "plan_name") as (p' & [= <-] & Hf);
      [|done..].
    simpl. by apply negb_true_iff, String.eqb_neq.
  - intros c -> Hne. rewrite annotate_other by done.
    destruct (rejects_false_field (Some c) c0 "category") as (c' & [= <-] & Hf);
      [|done..].
    simpl. by apply negb_true_iff, String.eqb_neq.
Qed.

Lemma search_respects_nonempty_filters_witness :
  demo_search 3 (Some "Plan B") None = Ok [annotate exact demo_chunk_b (2 # 10) 1 1]
  /\ annotate exact demo_chunk_b (2 # 10) 1 1 ∈ [annotate exact demo_chunk_b (2 # 10) 1 1]
  /\ "Plan B" <> ""
  /\ annotate exact demo_chunk_b (2 # 10) 1 1 !! "plan_name" = Some (VStr "Plan B").
Proof.
  assert (Hne : "Plan B" <> "") by discriminate.
  split; [reflexivity|]. split; [left|]. split; [exact Hne|].
  exact (proj1 (search_respects_nonempty_filters toy_search toy_encode exact
                  demo_retriever "gym membership" 3 (Some "Plan B") None
                  [annotate exact demo_chunk_b (2 # 10) 1 1]
                  (annotate exact demo_chunk_b (2 # 10) 1 1)
                  eq_refl (list_elem_of_here _ _))
           "Plan B" eq_refl Hne).
Defined.

(** C4 fails as stated: an empty [plan_filter] is supplied, yet the
    returned results carry other plan names. *)
Lemma empty_plan_filter_not_enforced :
  map (fun r : chunk => r !! "plan_name") (returned (demo_search 5 (Some "") None))
  = [Some (VStr "Plan A"); Some (VStr "Plan B")].
Proof. reflexivity. Qed.

Lemma visit_empty_plan_filter (round32 : Q -> Q) (cs : list chunk)
    (cf : option string) (i : Z) (cand : Q * Z) :
  visit round32 cs (Some "") cf i cand = visit round32 cs None cf i cand.
Proof. done. Qed.

Lemma visit_empty_category_filter (round32 : Q -> Q) (cs : list chunk)
    (pf : option string) (i : Z) (cand : Q * Z) :
  visit round32 cs pf (Some "") i cand = visit round32 cs pf None i cand.
Proof. done. Qed.

(** C10. An empty-string [plan_filter] (or [category_filter]) filters
    nothing: the call returns what it returns with that filter absent. *)
Theorem empty_string_filter_is_no_filter {Index Vec : Type}
    (index_search : Index -> Vec -> Z -> result (list (Q * Z)))
    (encode : string -> Vec) (round32 : Q -> Q)
    (self : retriever Index) (query : string) (top_k : Z)
    (pf cf : option string) :
  search index_search encode round32 self query top_k (Some "") cf
  = search index_search encode round32 self query top_k None cf
  /\ search index_search encode round32 self query top_k pf (Some "")
     = search index_search encode round32 self query top_k pf None.
Proof.
  unfold search.
  split; destruct (index_search _ _ _) as [cands|e]; simpl; try done;
    apply collect_ext; intros j cand.
  - apply visit_empty_plan_filter.
  - apply visit_empty_category_filter.
Qed.

(** ** Oversampling, the sentinel and short result lists (C8) *)

(** C8. [search] asks the index for [min(top_k * 3, N)] neighbours and
    its outcome depends on the index through the answer to that one
    request only; a candidate with the sentinel id [-1] is skipped; and
    on candidates that are the sentinel or positions of the store the
    call returns the accepted candidates, cut at [top_k] -- all of them,
    unpadded and without an error, when fewer than [top_k] survive. *)
Theorem search_oversamples_and_never_pads {Index Vec : Type}
    (index_search : Index -> Vec -> Z -> result (list (Q * Z)))
    (encode : string -> Vec) (round32 : Q -> Q)
    (self : retriever Index) (query : string) (top_k : Z)
    (pf cf : option string) (cands : list (Q * Z)) :
  index_search (index self) (encode query)
    (Z.min (top_k * 3) (Z.of_nat (length (chunks self)))) = Ok cands ->
  Forall (fun cand => valid_id (length (chunks self)) cand.2) cands ->
  (forall other : Index -> Vec -> Z -> result (list (Q * Z)),
     other (index self) (encode query)
       (Z.min (top_k * 3) (Z.of_nat (length (chunks self)))) = Ok cands ->
     search other encode round32 self query top_k pf cf
     = search index_search encode round32 self query top_k pf cf) /\
  (forall (i : Z) (distance : Q),
     visit round32 (chunks self) pf cf i (distance, -1) = Ok None) /\
  search index_search encode round32 self query top_k pf cf
  = Ok (take (Z.to_nat (Z.max 1 top_k))
          (accepted round32 (chunks self) pf cf 0 cands)) /\
  (Z.of_nat (length (accepted round32 (chunks self) pf cf 0 cands)) < top_k ->
   search index_search encode round32 self query top_k pf cf
   = Ok (accepted round32 (chunks self) pf cf 0 cands)) /\
  (forall r, r ∈ accepted round32 (chunks self) pf cf 0 cands ->
     chunk_id_of r <> Some (-1)).
Proof.
  intros Hc Hvalid.
  assert (Hs : search index_search encode round32 self query top_k pf cf
               = Ok (take (Z.to_nat (Z.max 1 top_k))
                       (accepted round32 (chunks self) pf cf 0 cands))).
  { unfold search. rewrite Hc. simpl. rewrite collect_valid by done.
    unfold quota. simpl. by rewrite Z.sub_0_r. }
  split; [|split; [|split; [|split]]].
  - intros other Ho. unfold search. by rewrite Ho, Hc.
  - done.
  - done.
  - intros Hlt. rewrite Hs. f_equal. apply take_ge. lia.
  - intros r Hr. apply list_elem_of_lookup in Hr as [a Ha].
    destruct (accepted_lookup _ _ _ _ _ _ _ _ Ha) as (j & cand & _ & _ & Hacc & _).
    destruct (accept_Some _ _ _ _ _ _ _ Hacc) as (c & Hne & _ & _ & _ & ->).
    rewrite annotate_chunk_id. by intros [= ?].
Qed.

Lemma search_oversamples_and_never_pads_witness :
  toy_search (index demo_retriever) (toy_encode "gym membership")
    (Z.min (5 * 3) (Z.of_nat (length (chunks demo_retriever))))
  = Ok demo_index
  /\ Forall (fun cand : Q * Z => valid_id (length (chunks demo_retriever)) cand.2)
       demo_index
  /\ demo_search 5 (Some "Plan B") None
     = Ok (accepted exact (chunks demo_retriever) (Some "Plan B") None 0 demo_index)
  /\ length (accepted exact (chunks demo_retriever) (Some "Plan B") None 0 demo_index)
     = 1%nat.
Proof.
  assert (Hvalid : Forall (fun cand : Q * Z =>
                     valid_id (length (chunks demo_retriever)) cand.2) demo_index).
  { repeat apply Forall_cons_2; [right; simpl; lia | right; simpl; lia | constructor]. }
  split; [reflexivity|]. split; [exact Hvalid|]. split; [|reflexivity].
  apply (search_oversamples_and_never_pads toy_search toy_encode exact
           demo_retriever "gym membership" 5 (Some "Plan B") None demo_index
           eq_refl Hvalid).
  reflexivity.
Defined.

(** ** The persisted unit (C5, C6) *)

Lemma read_file_write_eq {Index : Type} (dir name : string) (c : file Index)
    (fs : FS Index) :
  read_file dir name (write_file dir name c fs) = Some c.
Proof.
  unfold read_file, write_file. rewrite lookup_insert_eq. simpl.
  by rewrite lookup_insert_eq.
Qed.

Lemma read_file_write_ne {Index : Type} (dir name name' : string) (c : file Index)
    (fs : FS Index) :
  name <> name' ->
  read_file dir name' (write_file dir name c fs) = read_file dir name' fs.
Proof.
  intros Hne. unfold read_file, write_file. rewrite lookup_insert_eq. simpl.
  rewrite lookup_insert_ne by done.
  by destruct (fs !! dir).
Qed.

Lemma make_dir_lookup {Index : Type} (d d' : string) (fs : FS Index) :
  make_dir d fs !! d' =
    match fs !! d' with
    | Some files => Some files
    | None => if decide (d' = d) then Some ∅ else None
    end.
Proof.
  unfold make_dir. destruct (fs !! d) as [files|] eqn:Hd.
  - destruct (fs !! d') eqn:Hd'; [done|].
    destruct (decide (d' = d)) as [->|_]; [congruence | done].
  - destruct (decide (d' = d)) as [->|Hne].
    + by rewrite lookup_insert_eq, Hd.
    + rewrite lookup_insert_ne by done. by destruct (fs !! d').
Qed.

Lemma make_dirs_lookup {Index : Type} (ds : list string) (d' : string)
    (fs : FS Index) :
  foldl (fun fs d => make_dir d fs) fs ds !! d' =
    match fs !! d' with
    | Some files => Some files
    | None => if decide (d' ∈ ds) then Some ∅ else None
    end.
Proof.
  revert fs. induction ds as [|d ds IH]; intros fs.
  - simpl. by destruct (fs !! d').
  - cbn [foldl]. rewrite IH, make_dir_lookup. destruct (fs !! d') as [files|]; [done|].
    destruct (decide (d' = d)) as [->|Hne].
    + by rewrite decide_True by left.
    + destruct (decide (d' ∈ ds)) as [Hin|Hnin].
      * by rewrite decide_True by (by right).
      * rewrite decide_False; [done|].
        intros [?|?]%elem_of_cons; [by apply Hne | by apply Hnin].
Qed.

(** What [mkdir] leaves in place: the directories there were, as they
    were, and an empty directory for [dir] and for each directory above
    it that was missing. *)
Lemma mkdir_lookup {Index : Type} (dir d' : string) (fs : FS Index) :
  mkdir dir fs !! d' =
    match fs !! d' with
    | Some files => Some files
    | None => if decide (d' ∈ dir :: parents dir) then Some ∅ else None
    end.
Proof.
  unfold mkdir. rewrite make_dir_lookup, make_dirs_lookup.
  destruct (fs !! d') as [files|]; [done|].
  destruct (decide (d' ∈ parents dir)) as [Hin|Hnin].
  - by rewrite decide_True by (by right).
  - destruct (decide (d' = dir)) as [->|Hne].
    + by rewrite decide_True by left.
    + rewrite decide_False; [done|].
      intros [?|?]%elem_of_cons; [by apply Hne | by apply Hnin].
Qed.

Lemma read_file_mkdir {Index : Type} (dir name : string) (fs : FS Index) :
  read_file dir name (mkdir dir fs) = read_file dir name fs.
Proof.
  unfold read_file. rewrite mkdir_lookup.
  destruct (fs !! dir); [done|].
  rewrite decide_True by left. simpl. by rewrite lookup_empty.
Qed.




Lemma read_file_missing_dir {Index : Type} (dir name : string) (fs : FS Index) :
  fs !! dir = None -> read_file dir name fs = None.
Proof. unfold read_file. by intros ->. Qed.

(** [load_all] succeeds exactly on the three files it reads. *)
Lemma load_all_Ok {Index : Type} (dir : string) (fs : FS Index)
    (ix : Index) (cs : list chunk) (emb : ndarray) :
  load_all dir fs = Ok (ix, cs, emb) <->
  read_file dir "benefits.index" fs = Some (FIndex ix) /\
  read_file dir "chunks.pkl" fs = Some (FPickle cs) /\
  read_file dir "embeddings.npy" fs = Some (FNpy emb).
Proof.
  unfold load_all, read_index, load_chunks, load_embeddings. split.
  - destruct (read_file dir "benefits.index" fs) as [[]|]; simpl; try done.
    destruct (read_file dir "chunks.pkl" fs) as [[]|]; simpl; try done.
    destruct (read_file dir "embeddings.npy" fs) as [[]|]; simpl; try done.
    by intros [= -> -> ->].
  - by intros (-> & -> & ->).
Qed.

Ltac read_files :=
  repeat first
    [ rewrite read_file_write_eq
    | rewrite read_file_write_ne by done
    | rewrite read_file_mkdir ].

(** C6. Loading from a location right after [save_all] wrote to it gives
    back the index, the passages and the vector matrix that were saved --
    hence the same passage count and the same matrix shape -- and the
    location holds the summary metadata of exactly those passages. *)
Theorem load_after_save_all_round_trip {Index : Type} (dimension : Z)
    (ix : Index) (cs : list chunk) (emb : ndarray) (dir : string) (fs : FS Index) :
  load_all dir (save_all dimension ix cs emb dir fs) = Ok (ix, cs, emb)
  /\ (exists ix' cs' emb',
        load_all dir (save_all dimension ix cs emb dir fs) = Ok (ix', cs', emb') /\
        length cs' = length cs /\
        nd_shape emb' = nd_shape emb /\
        read_file dir "metadata.json" (save_all dimension ix cs emb dir fs)
        = Some (FJson (make_summary dimension cs')) /\
        total_chunks (make_summary dimension cs') = length cs).
Proof.
  assert (Hload : load_all dir (save_all dimension ix cs emb dir fs) = Ok (ix, cs, emb)).
  { apply load_all_Ok. unfold save_all, run_writes. simpl. by read_files. }
  split; [done|]. exists ix, cs, emb. repeat split; try done.
  unfold save_all, run_writes. simpl. by read_files.
Qed.

Lemma write_file_twice {Index : Type} (dir name : string) (c c' : file Index)
    (fs : FS Index) :
  write_file dir name c' (write_file dir name c fs) = write_file dir name c' fs.
Proof.
  unfold write_file. rewrite lookup_insert_eq, insert_insert_eq. simpl.
  by rewrite insert_insert_eq.
Qed.

Lemma save_all_progress_unfold {Index : Type} (dimension : Z) (ix : Index)
    (cs : list chunk) (emb : ndarray) :
  save_all_progress dimension ix cs emb
  = [ ("benefits.index", FEmpty); ("benefits.index", FPartial);
      ("benefits.index", FIndex ix);
      ("chunks.pkl", FEmpty); ("chunks.pkl", FPartial);
      ("chunks.pkl", FPickle cs);
      ("embeddings.npy", FEmpty); ("embeddings.npy", FPartial);
      ("embeddings.npy", FNpy emb);
      ("metadata.json", FEmpty); ("metadata.json", FPartial);
      ("metadata.json", FJson (make_summary dimension cs)) ].
Proof. reflexivity. Qed.

Ltac interrupted_files :=
  unfold save_all_interrupted, run_writes; rewrite save_all_progress_unfold;
  cbn [take]; rewrite ?take_nil; cbn [foldl fst snd]; read_files.

(** A run that goes through all twelve states is a complete [save_all]. *)
Lemma save_all_interrupted_complete {Index : Type} (k : nat) (dimension : Z)
    (ix : Index) (cs : list chunk) (emb : ndarray) (dir : string) (fs : FS Index) :
  (12 <= k)%nat ->
  save_all_interrupted k dimension ix cs emb dir fs
  = save_all dimension ix cs emb dir fs.
Proof.
  intros Hk. unfold save_all_interrupted, save_all, run_writes, save_all_writes.
  rewrite save_all_progress_unfold.
  rewrite take_ge by (cbn [length]; lia).
  cbn [foldl fst snd]. by rewrite !write_file_twice.
Qed.

(** C5, as the code has it. [save_all] is not atomic: it writes its four
    files one after the other, each in place under its final name, and
    undoes nothing when it fails. Stopped between two writes over a
    previous unit, it leaves the new files written so far beside the old
    remaining ones, and [load_all] accepts that mixture. Stopped within
    the write of the index, the passages or the vectors, it leaves that
    file empty or partial and [load_all] raises. Once these three are
    written [load_all] returns the new unit, whether the summary
    metadata is still the old one, empty or partial. Over a location
    without a unit [load_all] raises until the three files are written. *)
Theorem save_all_interrupted_mixes_units {Index : Type} (dimension : Z)
    (ix : Index) (cs : list chunk) (emb : ndarray) (dir : string) (fs : FS Index) :
  (forall k, (12 <= k)%nat ->
     save_all_interrupted k dimension ix cs emb dir fs
     = save_all dimension ix cs emb dir fs) /\
  (forall n ix0 cs0 emb0,
     load_all dir fs = Ok (ix0, cs0, emb0) ->
     load_all dir (save_all_interrupted (3 * n) dimension ix cs emb dir fs)
     = Ok (if (1 <=? n)%nat then ix else ix0,
           if (2 <=? n)%nat then cs else cs0,
           if (3 <=? n)%nat then emb else emb0)) /\
  (forall k, (k < 9)%nat -> (k mod 3 <> 0)%nat ->
     exists e, load_all dir (save_all_interrupted k dimension ix cs emb dir fs) = Err e) /\
  (forall k, (9 <= k)%nat ->
     load_all dir (save_all_interrupted k dimension ix cs emb dir fs)
     = Ok (ix, cs, emb)) /\
  (read_file dir "metadata.json" (save_all_interrupted 9 dimension ix cs emb dir fs)
   = read_file dir "metadata.json" fs /\
   read_file dir "metadata.json" (save_all_interrupted 10 dimension ix cs emb dir fs)
   = Some FEmpty /\
   read_file dir "metadata.json" (save_all_interrupted 11 dimension ix cs emb dir fs)
   = Some FPartial) /\
  (forall k, fs !! dir = None -> (k < 9)%nat ->
     exists e, load_all dir (save_all_interrupted k dimension ix cs emb dir fs) = Err e).
Proof.
  assert (Hnew : forall k, (9 <= k)%nat ->
            load_all dir (save_all_interrupted k dimension ix cs emb dir fs)
            = Ok (ix, cs, emb)).
  { intros k Hk. apply load_all_Ok.
    do 9 (destruct k as [|k]; [lia|]).
    destruct k as [|[|[|k]]]; by interrupted_files. }
  split; [intros k Hk; by apply save_all_interrupted_complete|].
  split; [|split; [|split; [exact Hnew|split]]].
  - intros n ix0 cs0 emb0 Hold.
    destruct n as [|[|[|n]]]; [| | |by rewrite Hnew by lia];
      apply load_all_Ok in Hold as (Hi & Hc & He); apply load_all_Ok;
      change (3 * 0)%nat with 0%nat; change (3 * 1)%nat with 3%nat;
      change (3 * 2)%nat with 6%nat;
      interrupted_files; by rewrite ?Hi, ?Hc, ?He.
  - intros k Hk Hmod.
    unfold load_all, read_index, load_chunks, load_embeddings.
    do 9 (destruct k as [|k];
          [first [by exfalso; apply Hmod
                 | interrupted_files; cbn [mbind result_bind rbind]; by eexists]|]).
    lia.
  - repeat split; by interrupted_files.
  - intros k Hdir Hk.
    unfold load_all, read_index, load_chunks, load_embeddings.
    do 9 (destruct k as [|k];
          [interrupted_files; rewrite ?(read_file_missing_dir _ _ _ Hdir);
           cbn [mbind result_bind rbind]; by eexists|]).
    lia.
Qed.

Lemma save_all_interrupted_mixes_units_witness :
  (12 <= 12)%nat
  /\ save_all_interrupted 12 384 2%nat [demo_chunk_a; demo_chunk_b]
       demo_new_embeddings demo_dir demo_old_fs
     = save_all 384 2%nat [demo_chunk_a; demo_chunk_b] demo_new_embeddings
         demo_dir demo_old_fs
  /\ load_all demo_dir demo_old_fs = Ok (1%nat, [demo_chunk_a], demo_old_embeddings)
  /\ load_all demo_dir
       (save_all_interrupted (3 * 2) 384 2%nat [demo_chunk_a; demo_chunk_b]
          demo_new_embeddings demo_dir demo_old_fs)
     = Ok (2%nat, [demo_chunk_a; demo_chunk_b], demo_old_embeddings)
  /\ (4 < 9)%nat /\ (4 mod 3 <> 0)%nat
  /\ (exists e,
        load_all demo_dir
          (save_all_interrupted 4 384 2%nat [demo_chunk_a; demo_chunk_b]
             demo_new_embeddings demo_dir demo_old_fs) = Err e)
  /\ (9 <= 10)%nat
  /\ load_all demo_dir
       (save_all_interrupted 10 384 2%nat [demo_chunk_a; demo_chunk_b]
          demo_new_embeddings demo_dir demo_old_fs)
     = Ok (2%nat, [demo_chunk_a; demo_chunk_b], demo_new_embeddings)
  /\ (∅ : FS nat) !! demo_dir = None /\ (8 < 9)%nat
  /\ exists e,
       load_all demo_dir
         (save_all_interrupted 8 384 2%nat [demo_chunk_a; demo_chunk_b]
            demo_new_embeddings demo_dir ∅) = Err e.
Proof.
  assert (H12 : (12 <= 12)%nat) by lia.
  assert (H4 : (4 < 9)%nat) by lia.
  assert (Hmod : (4 mod 3 <> 0)%nat) by (simpl; lia).
  assert (H10 : (9 <= 10)%nat) by lia.
  assert (H8 : (8 < 9)%nat) by lia.
  destruct (save_all_interrupted_mixes_units 384 2%nat [demo_chunk_a; demo_chunk_b]
              demo_new_embeddings demo_dir demo_old_fs)
    as (Hall & Hbetween & Hwithin & Hnew & _ & _).
  destruct (save_all_interrupted_mixes_units 384 2%nat [demo_chunk_a; demo_chunk_b]
              demo_new_embeddings demo_dir (∅ : FS nat))
    as (_ & _ & _ & _ & _ & Hfresh).
  split; [exact H12|]. split; [exact (Hall 12%nat H12)|].
  split; [reflexivity|].
  split; [exact (Hbetween 2%nat 1%nat [demo_chunk_a] demo_old_embeddings eq_refl)|].
  split; [exact H4|]. split; [exact Hmod|]. split; [exact (Hwithin 4%nat H4 Hmod)|].
  split; [exact H10|]. split; [exact (Hnew 10%nat H10)|].
  split; [reflexivity|]. split; [exact H8|].
  exact (Hfresh 8%nat eq_refl H8).
Defined.

(** C5 fails as stated: a build stopped right after its first write
    leaves the new index beside the old passages and vectors, and
    [load_all] accepts the mixture -- neither the previous unit nor a
    failed load. *)
Lemma interrupted_save_loads_a_mixture :
  load_all demo_dir demo_old_fs = Ok (1%nat, [demo_chunk_a], demo_old_embeddings)
  /\ load_all demo_dir
       (save_all_interrupted 3 384 2%nat [demo_chunk_a; demo_chunk_b]
          demo_new_embeddings demo_dir demo_old_fs)
     = Ok (2%nat, [demo_chunk_a], demo_old_embeddings).
Proof. split; reflexivity. Qed.

(** ** Merging the plan metadata into a chunk (C9) *)

(** C9. The plan metadata is merged last into an overview chunk and into
    a benefit chunk: every key of the metadata keeps the metadata's value
    in the chunk, so a metadata key [category], [text] or [type] replaces
    the computed entry; the computed category (the classifier's, or
    [general] for an overview), text and type are in the chunk when the
    metadata has no such key. *)
Theorem metadata_overrides_computed_fields (float_repr : Q -> string)
    (benefit metadata : chunk) :
  (forall k v, metadata !! k = Some v ->
     _create_overview float_repr metadata !! k = Some v) /\
  (forall c k v,
     _create_benefit_chunk float_repr benefit metadata = Ok c ->
     metadata !! k = Some v -> c !! k = Some v) /\
  (metadata !! "category" = None ->
   _create_overview float_repr metadata !! "category" = Some (VStr "general")) /\
  (metadata !! "type" = None ->
   _create_overview float_repr metadata !! "type" = Some (VStr "overview")) /\
  (metadata !! "text" = None ->
   _create_overview float_repr metadata !! "text"
   = Some (VStr (join_space (overview_parts float_repr metadata)))) /\
  (forall c,
     _create_benefit_chunk float_repr benefit metadata = Ok c ->
     exists s d,
       benefit !! "service" = Some (VStr s) /\
       benefit !! "description" = Some (VStr d) /\
       (metadata !! "category" = None ->
        c !! "category" = Some (VStr (_classify (lower s +:+ " " +:+ lower d)))) /\
       (metadata !! "type" = None -> c !! "type" = Some (VStr "benefit")) /\
       (metadata !! "text" = None ->
        c !! "text"
        = Some (VStr (benefit_text float_repr (VStr s) (VStr d) metadata)))).
Proof.
  repeat apply conj.
  - intros k v Hk. unfold _create_overview. by apply lookup_union_Some_l.
  - intros c k v Hc Hk. unfold _create_benefit_chunk, dict_item in Hc.
    destruct (benefit !! "service") as [service|]; [|done].
    destruct (benefit !! "description") as [description|]; [|done].
    simpl in Hc.
    destruct service as [s| |]; try done.
    destruct description as [d| |]; try done.
    simpl in Hc. injection Hc as <-. by apply lookup_union_Some_l.
  - intros Hk. unfold _create_overview. rewrite lookup_union_r by done.
    by rewrite lookup_insert_eq.
  - intros Hk. unfold _create_overview. rewrite lookup_union_r by done.
    rewrite lookup_insert_ne by done. by rewrite lookup_insert_eq.
  - intros Hk. unfold _create_overview. rewrite lookup_union_r by done.
    rewrite !lookup_insert_ne by done. by rewrite lookup_insert_eq.
  - intros c Hc. unfold _create_benefit_chunk, dict_item in Hc.
    destruct (benefit !! "service") as [service|]; [|done].
    destruct (benefit !! "description") as [description|]; [|done].
    simpl in Hc.
    destruct service as [s| |]; try done.
    destruct description as [d| |]; try done.
    simpl in Hc. injection Hc as <-.
    exists s, d. repeat split; intros Hk; rewrite lookup_union_r by done.
    + by rewrite lookup_insert_eq.
    + rewrite lookup_insert_ne by done. by rewrite lookup_insert_eq.
    + rewrite !lookup_insert_ne by done. by rewrite lookup_insert_eq.
Qed.

Lemma metadata_overrides_computed_fields_witness :
  demo_metadata !! "category" = Some (VStr "custom")
  /\ _create_overview demo_float_repr demo_metadata !! "category"
     = Some (VStr "custom")
  /\ _create_benefit_chunk demo_float_repr demo_benefit demo_metadata
     = Ok (returned_chunk (_create_benefit_chunk demo_float_repr demo_benefit demo_metadata))
  /\ returned_chunk (_create_benefit_chunk demo_float_repr demo_benefit demo_metadata)
       !! "category" = Some (VStr "custom").
Proof.
  pose proof (metadata_overrides_computed_fields demo_float_repr demo_benefit
                demo_metadata) as (Ho & Hb & _).
  split; [reflexivity|]. split; [by apply Ho|]. split; [reflexivity|].
  by apply (Hb _ "category" (VStr "custom")).
Defined.

(** * Further properties of the code *)

(** ** Python equality and ordered dictionaries *)

Lemma py_eqb_refl (a : value) : py_eqb a a = true.
Proof.
  destruct a as [s|z|q]; simpl.
  - apply String.eqb_refl.
  - apply Z.eqb_refl.
  - apply Qeq_bool_iff. reflexivity.
Qed.

Lemma Qeq_bool_sym (p q : Q) : Qeq_bool p q = Qeq_bool q p.
Proof.
  destruct (Qeq_bool p q) eqn:Hpq, (Qeq_bool q p) eqn:Hqp; try done.
  - apply Qeq_bool_iff in Hpq. symmetry in Hpq. apply Qeq_bool_iff in Hpq. congruence.
  - apply Qeq_bool_iff in Hqp. symmetry in Hqp. apply Qeq_bool_iff in Hqp. congruence.
Qed.

Lemma py_eqb_sym (a b : value) : py_eqb a b = py_eqb b a.
Proof.
  destruct a as [s|x|p], b as [t|y|q]; simpl; try done.
  - apply String.eqb_sym.
  - apply Z.eqb_sym.
  - apply Qeq_bool_sym.
  - apply Qeq_bool_sym.
  - apply Qeq_bool_sym.
Qed.

(** Python's [==] is read through the number a value stands for. *)
Lemma py_eqb_num (a b : value) :
  is_str a = false -> is_str b = false ->
  py_eqb a b = Qeq_bool (num_of a) (num_of b).
Proof.
  destruct a as [s|x|p], b as [t|y|q]; simpl; try done. intros _ _.
  destruct (Z.eqb_spec x y) as [->|Hne].
  - symmetry. apply Qeq_bool_iff. reflexivity.
  - symmetry. apply not_true_is_false. intros Hq%Qeq_bool_iff.
    apply Hne. unfold Qeq in Hq. simpl in Hq. lia.
Qed.

Lemma py_eqb_trans (a b c : value) :
  py_eqb a b = true -> py_eqb b c = true -> py_eqb a c = true.
Proof.
  destruct (is_str a) eqn:Ha, (is_str b) eqn:Hb, (is_str c) eqn:Hc;
    try (destruct a, b, c; simpl in *; done).
  - destruct a as [s| |], b as [t| |], c as [u| |]; try done. simpl.
    intros ->%String.eqb_eq ->%String.eqb_eq. apply String.eqb_refl.
  - rewrite !py_eqb_num by done. intros H1%Qeq_bool_iff H2%Qeq_bool_iff.
    apply Qeq_bool_iff. by rewrite H1.
Qed.

Lemma py_eqb_class (k k' k0 : value) :
  py_eqb k k' = true -> py_eqb k0 k = py_eqb k0 k'.
Proof.
  intros Hk.
  destruct (py_eqb k0 k) eqn:H1, (py_eqb k0 k') eqn:H2; try done.
  - by rewrite (py_eqb_trans k0 k k') in H2.
  - rewrite py_eqb_sym in Hk. by rewrite (py_eqb_trans k0 k' k) in H1.
Qed.

Section OrderedDictFacts.

Context {V : Type}.
Implicit Types (d : list (value * V)) (k : value) (v : V).

Lemma odict_get_class d k k' :
  py_eqb k k' = true -> odict_get py_eqb d k = odict_get py_eqb d k'.
Proof.
  intros Hk. induction d as [|[k0 v0] d IH]; simpl; [done|].
  by rewrite (py_eqb_class k k' k0 Hk), IH.
Qed.

(** Reading after writing. *)
Lemma odict_get_set d k v k' :
  odict_get py_eqb (odict_set py_eqb d k v) k'
  = if py_eqb k k' then Some v else odict_get py_eqb d k'.
Proof.
  induction d as [|[k0 v0] d IH]; simpl; [done|].
  destruct (py_eqb k0 k) eqn:H0; simpl.
  - destruct (py_eqb k k') eqn:Hk.
    + by rewrite <- (py_eqb_class k k' k0 Hk), H0.
    + destruct (py_eqb k0 k') eqn:H0'; [|done].
      rewrite py_eqb_sym in H0. by rewrite (py_eqb_trans k k0 k') in Hk.
  - rewrite IH. destruct (py_eqb k0 k') eqn:H0'; [|done].
    destruct (py_eqb k k') eqn:Hk; [|done].
    by rewrite (py_eqb_class k k' k0 Hk), H0' in H0.
Qed.

Lemma odict_set_keys d k v :
  map fst (odict_set py_eqb d k v)
  = match odict_get py_eqb d k with
    | Some _ => map fst d
    | None => map fst d ++ [k]
    end.
Proof.
  induction d as [|[k0 v0] d IH]; simpl; [done|].
  destruct (py_eqb k0 k); simpl; [done|].
  rewrite IH. by destruct (odict_get py_eqb d k).
Qed.

Lemma odict_set_distinct d k v :
  keys_distinct d -> keys_distinct (odict_set py_eqb d k v).
Proof.
  unfold keys_distinct.
  induction d as [|[k0 v0] d IH]; simpl; [done|].
  intros [Hhd Htl]. destruct (py_eqb k0 k) eqn:H0; simpl; [done|].
  split; [|by apply IH].
  rewrite odict_set_keys. destruct (odict_get py_eqb d k); [done|].
  apply Forall_app. split; [done|]. by apply Forall_singleton.
Qed.

Lemma odict_get_elem d k v :
  keys_distinct d -> (k, v) ∈ d -> odict_get py_eqb d k = Some v.
Proof.
  unfold keys_distinct.
  induction d as [|[k0 v0] d IH]; simpl; [by intros _ ?%elem_of_nil|].
  intros [Hhd Htl] [[= -> ->]|Hin]%elem_of_cons.
  - by rewrite py_eqb_refl.
  - assert (Hk : py_eqb k0 k = false).
    { apply (proj1 (Forall_forall _ _) Hhd). apply list_elem_of_fmap. by exists (k, v). }
    rewrite Hk. by apply IH.
Qed.

Lemma odict_elem_get d k v :
  odict_get py_eqb d k = Some v -> exists k0, py_eqb k0 k = true /\ (k0, v) ∈ d.
Proof.
  induction d as [|[k0 v0] d IH]; simpl; [done|].
  destruct (py_eqb k0 k) eqn:H0.
  - intros [= ->]. exists k0. split; [done | left].
  - intros Hg. destruct (IH Hg) as (k1 & Hk1 & Hin). exists k1. split; [done | by right].
Qed.

Lemma odict_elem_is_Some d k v :
  (k, v) ∈ d -> is_Some (odict_get py_eqb d k).
Proof.
  induction d as [|[k0 v0] d IH]; simpl; [by intros ?%elem_of_nil|].
  intros [[= -> ->]|Hin]%elem_of_cons.
  - rewrite py_eqb_refl. by eexists.
  - destruct (py_eqb k0 k); [by eexists | by apply IH].
Qed.

End OrderedDictFacts.

(** ** Sets and sorting *)

Lemma py_set_elem (l : list value) (x : value) : x ∈ py_set l -> x ∈ l.
Proof.
  revert x. induction l as [|y l IH]; simpl; intros x Hx; [done|].
  apply elem_of_cons in Hx as [->|Hx]; [left|right].
  apply list_elem_of_filter in Hx as [_ Hx]. by apply IH.
Qed.

Lemma py_set_covers (l : list value) (x : value) :
  x ∈ l -> exists y, y ∈ py_set l /\ py_eqb y x = true.
Proof.
  induction l as [|z l IH]; simpl; intros Hx; [by apply elem_of_nil in Hx|].
  apply elem_of_cons in Hx as [->|Hx].
  - exists z. split; [left | apply py_eqb_refl].
  - destruct (IH Hx) as (y & Hy & Hyx).
    destruct (py_eqb z y) eqn:Hzy.
    + exists z. split; [left | by apply (py_eqb_trans z y x)].
    + exists y. split; [|done]. right. by apply list_elem_of_filter.
Qed.

Lemma values_distinct_filter (P : value -> Prop) `{forall x, Decision (P x)}
    (l : list value) :
  values_distinct l -> values_distinct (filter P l).
Proof.
  induction l as [|x l IH]; simpl; [done|]. intros [Hx Hl].
  rewrite filter_cons. destruct (decide (P x)); simpl; [|by apply IH].
  split; [|by apply IH].
  apply Forall_forall. intros y [_ Hy]%list_elem_of_filter.
  by apply (proj1 (Forall_forall _ _) Hx).
Qed.

(** The elements of a set are pairwise different under [==]. *)
Lemma py_set_distinct (l : list value) : values_distinct (py_set l).
Proof.
  induction l as [|z l IH]; simpl; [done|]. split.
  - apply Forall_forall. by intros y [? _]%list_elem_of_filter.
  - by apply values_distinct_filter.
Qed.

Lemma values_distinct_Permutation (l m : list value) :
  l ≡ₚ m -> values_distinct l -> values_distinct m.
Proof.
  induction 1 as [|x l m Hp IH|x y l|l m n _ IH1 _ IH2]; simpl; try done.
  - intros [Hx Hl]. split; [by rewrite <- Hp | by apply IH].
  - intros [Hy [Hx Hl]]. apply Forall_cons in Hy as [Hyx Hy].
    split; [|by split]. apply Forall_cons. split; [|done].
    by rewrite py_eqb_sym.
  - auto.
Qed.

Lemma py_set_length (l : list value) : (length (py_set l) <= length l)%nat.
Proof.
  induction l as [|z l IH]; simpl; [done|].
  pose proof (length_filter (fun y => py_eqb z y = false) (py_set l)). lia.
Qed.

Lemma py_set_nonempty (l : list value) : l <> [] -> py_set l <> [].
Proof. by destruct l. Qed.

Lemma py_eqb_is_str (a b : value) : py_eqb a b = true -> is_str a = is_str b.
Proof. by destruct a, b. Qed.

Lemma string_compare_OT (s t : string) :
  String.compare s t = OrdersEx.String_as_OT.compare s t.
Proof.
  revert t. induction s as [|a s IH]; intros [|b t]; simpl; try done.
Qed.

Lemma string_leb_trans (s t u : string) :
  String.leb s t = true -> String.leb t u = true -> String.leb s u = true.
Proof.
  unfold String.leb.
  rewrite (string_compare_OT s t), (string_compare_OT t u), (string_compare_OT s u).
  pose proof (StrictOrder_Transitive (R := OrdersEx.String_as_OT.lt)) as T.
  pose proof (StrictOrder_Irreflexive (R := OrdersEx.String_as_OT.lt)) as I.
  destruct (OrdersEx.String_as_OT.compare_spec s t) as [Hst|Hst|Hst];
    destruct (OrdersEx.String_as_OT.compare_spec t u) as [Htu|Htu|Htu];
    destruct (OrdersEx.String_as_OT.compare_spec s u) as [Hsu|Hsu|Hsu];
    simpl; try done; intros _ _; exfalso;
    unfold OrdersEx.String_as_OT.eq in *; subst;
    solve [ eapply I; eassumption
          | eapply I, T; eassumption
          | eapply I, T; [eapply T|]; eassumption ].
Qed.

#[global] Instance value_order_total : Total value_order.
Proof.
  intros a b. unfold value_order.
  destruct a as [s|x|p], b as [t|y|q]; simpl; auto.
  - apply String.leb_total.
  - rewrite !Qle_bool_iff. destruct (Qlt_le_dec (inject_Z x) (inject_Z y)) as [?%Qlt_le_weak|?]; auto.
  - rewrite !Qle_bool_iff. destruct (Qlt_le_dec (inject_Z x) q) as [?%Qlt_le_weak|?]; auto.
  - rewrite !Qle_bool_iff. destruct (Qlt_le_dec p (inject_Z y)) as [?%Qlt_le_weak|?]; auto.
  - rewrite !Qle_bool_iff. destruct (Qlt_le_dec p q) as [?%Qlt_le_weak|?]; auto.
Qed.

#[global] Instance value_order_trans : Transitive value_order.
Proof.
  intros a b c. unfold value_order.
  destruct a as [s|x|p], b as [t|y|q], c as [u|z|r]; simpl; try done;
    try apply string_leb_trans;
    rewrite !Qle_bool_iff; apply Qle_trans.
Qed.

Lemma py_sorted_Some (l ps : list value) :
  py_sorted l = Some ps ->
  StronglySorted value_order ps /\ ps ≡ₚ l.
Proof.
  unfold py_sorted. destruct (_ || _); [|done]. intros [= <-].
  split; [apply StronglySorted_merge_sort; apply _ | apply merge_sort_Permutation].
Qed.

Lemma py_sorted_None (l : list value) :
  py_sorted l = None <->
  exists s v, VStr s ∈ l /\ v ∈ l /\ is_str v = false.
Proof.
  unfold py_sorted. split.
  - destruct (forallb is_str l) eqn:Hs; [done|].
    destruct (forallb (fun v => negb (is_str v)) l) eqn:Hn; [done|]. intros _.
    apply (not_true_iff_false _), (not_iff_compat (forallb_forall _ _)) in Hs, Hn.
    assert (Hv : exists v, v ∈ l /\ is_str v = false).
    { clear Hn. induction l as [|v l IH]; [by destruct Hs|].
      destruct (is_str v) eqn:Hv.
      - destruct IH as (w & ? & ?).
        + intros Hall. apply Hs. intros x [<-|Hx]; [done | by apply Hall].
        + exists w. split; [by right | done].
      - exists v. split; [left | done]. }
    assert (Hw : exists w, w ∈ l /\ is_str w = true).
    { clear Hs Hv. induction l as [|v l IH]; [by destruct Hn|].
      destruct (is_str v) eqn:Hv.
      - exists v. split; [left | done].
      - destruct IH as (w & ? & ?).
        + intros Hall. apply Hn. intros x [<-|Hx]; [by rewrite Hv | by apply Hall].
        + exists w. split; [by right | done]. }
    destruct Hv as (v & Hv & Hvs), Hw as ([s| |] & Hw & Hws); try done.
    by exists s, v.
  - intros (s & v & Hs & Hv & Hvs).
    assert (forallb is_str l = false) as ->.
    { apply not_true_iff_false. intros Hall. rewrite forallb_forall in Hall.
      apply list_elem_of_In, Hall in Hv. congruence. }
    assert (forallb (fun v => negb (is_str v)) l = false) as ->; [|done].
    apply not_true_iff_false. intros Hall. rewrite forallb_forall in Hall.
    by apply list_elem_of_In, Hall in Hs.
Qed.

(** ** Plan and category listings *)

Lemma list_field_Some (key : string) (cs : list chunk) (ps : list value) :
  list_field key cs = Some ps -> lists_values_of key cs ps.
Proof.
  unfold list_field. intros (Hsorted & Hperm)%py_sorted_Some.
  split; [done|]. split; [|split].
  - apply (values_distinct_Permutation (py_set (omap (fun c : chunk => c !! key) cs)));
      [done | apply py_set_distinct].
  - intros p Hp. rewrite Hperm in Hp. apply py_set_elem in Hp.
    apply list_elem_of_omap in Hp as (c & Hc & Hk). by exists c.
  - intros c v Hc Hk.
    destruct (py_set_covers (omap (fun c : chunk => c !! key) cs) v) as (p & Hp & Hpv).
    { apply list_elem_of_omap. by exists c. }
    exists p. split; [by rewrite Hperm | done].
Qed.

Lemma list_field_None (key : string) (cs : list chunk) :
  list_field key cs = None <-> mixes_kinds key cs.
Proof.
  unfold list_field, mixes_kinds. rewrite py_sorted_None. split.
  - intros (s & v & Hs & Hv & Hvs).
    apply py_set_elem, list_elem_of_omap in Hs as (c1 & Hc1 & Hk1).
    apply py_set_elem, list_elem_of_omap in Hv as (c2 & Hc2 & Hk2).
    by exists c1, c2, s, v.
  - intros (c1 & c2 & s & v & Hc1 & Hc2 & Hk1 & Hk2 & Hvs).
    destruct (py_set_covers (omap (fun c : chunk => c !! key) cs) (VStr s))
      as (y & Hy & Hys); [apply list_elem_of_omap; by exists c1|].
    destruct (py_set_covers (omap (fun c : chunk => c !! key) cs) v)
      as (w & Hw & Hwv); [apply list_elem_of_omap; by exists c2|].
    apply py_eqb_is_str in Hys, Hwv. destruct y as [s'| |]; try done.
    exists s', w. split; [done|]. split; [done|]. congruence.
Qed.

(** X1. [list_plans] and [list_categories] return the distinct plan names
    (categories) that occur in the store, in ascending order; they raise
    the [TypeError] of [sorted] exactly when the store holds both a
    string and a number under that key. *)
Theorem list_plans_and_categories_sorted_distinct {Index : Type}
    (self : retriever Index) :
  (forall ps, list_plans self = Some ps ->
     lists_values_of "plan_name" (chunks self) ps) /\
  (list_plans self = None <-> mixes_kinds "plan_name" (chunks self)) /\
  (forall ps, list_categories self = Some ps ->
     lists_values_of "category" (chunks self) ps) /\
  (list_categories self = None <-> mixes_kinds "category" (chunks self)).
Proof.
  split; [intros ps; apply list_field_Some|].
  split; [apply list_field_None|].
  split; [intros ps; apply list_field_Some | apply list_field_None].
Qed.

Lemma list_plans_and_categories_sorted_distinct_witness :
  list_plans demo_retriever = Some [VStr "Plan A"; VStr "Plan B"]
  /\ lists_values_of "plan_name" (chunks demo_retriever) [VStr "Plan A"; VStr "Plan B"].
Proof.
  split; [reflexivity|].
  apply (proj1 (list_plans_and_categories_sorted_distinct demo_retriever)).
  reflexivity.
Defined.

(** ** Statistics *)

Lemma count_step_sum (key : string) (fallback : value) (d : list (value * nat))
    (c : chunk) :
  sum_list (map snd (count_step key fallback d c)) = S (sum_list (map snd d)).
Proof.
  unfold count_step. generalize (default fallback (c !! key)). intros k.
  induction d as [|[k0 n0] d IH]; simpl; [done|].
  destruct (py_eqb k0 k); simpl; [lia|]. rewrite IH. lia.
Qed.

Lemma count_step_count (key : string) (fallback : value) (d : list (value * nat))
    (c : chunk) (k : value) :
  count_of (count_step key fallback d c) k
  = (count_of d k + if py_eqb (default fallback (c !! key)) k then 1 else 0)%nat.
Proof.
  unfold count_of, count_step. rewrite odict_get_set.
  destruct (py_eqb (default fallback (c !! key)) k) eqn:Hk; simpl; [|lia].
  by rewrite (odict_get_class d _ _ Hk).
Qed.

Lemma count_loop_sum (key : string) (fallback : value) (cs : list chunk) :
  sum_list (map snd (foldl (count_step key fallback) [] cs)) = length cs.
Proof.
  induction cs as [|c cs IH] using rev_ind; [done|].
  rewrite foldl_app, length_app. simpl. rewrite count_step_sum, IH. lia.
Qed.

Lemma count_loop_count (key : string) (fallback : value) (cs : list chunk)
    (k : value) :
  count_of (foldl (count_step key fallback) [] cs) k
  = length (filter (fun c : chunk => py_eqb (default fallback (c !! key)) k = true) cs).
Proof.
  induction cs as [|c cs IH] using rev_ind; [done|].
  rewrite foldl_app, filter_app, length_app. simpl.
  rewrite count_step_count, IH, filter_cons, filter_nil.
  destruct (py_eqb (default fallback (c !! key)) k) eqn:Hk.
  - by rewrite decide_True.
  - by rewrite decide_False by congruence.
Qed.

Lemma count_loop_distinct (key : string) (fallback : value) (cs : list chunk) :
  keys_distinct (foldl (count_step key fallback) [] cs).
Proof.
  induction cs as [|c cs IH] using rev_ind; [done|].
  rewrite foldl_app. simpl. by apply odict_set_distinct.
Qed.

(** X2. [get_statistics] counts every chunk once per table: the counts of
    [chunks_by_plan] add up to [total_chunks], and so do those of
    [chunks_by_category]; [total_plans] is the length of [plans]. It
    raises only when [list_plans] or [list_categories] does. *)
Theorem get_statistics_totals {Index : Type} (self : retriever Index) :
  (forall st, get_statistics self = Some st ->
     st_total_chunks st = length (chunks self) /\
     list_plans self = Some (st_plans st) /\
     list_categories self = Some (st_categories st) /\
     st_total_plans st = length (st_plans st) /\
     sum_list (map snd (st_chunks_by_plan st)) = st_total_chunks st /\
     sum_list (map snd (st_chunks_by_category st)) = st_total_chunks st) /\
  (get_statistics self = None <->
   list_plans self = None \/ list_categories self = None).
Proof.
  unfold get_statistics. split.
  - intros st Hst.
    destruct (list_plans self) as [plans|]; [|done].
    destruct (list_categories self) as [categories|]; [|done].
    simpl in Hst. injection Hst as <-. simpl.
    by rewrite !count_loop_sum.
  - destruct (list_plans self) as [plans|]; simpl; [|by split; [left|]].
    destruct (list_categories self) as [categories|]; simpl.
    + split; [done | by intros [?|?]].
    + split; [by right | done].
Qed.

Lemma get_statistics_totals_witness :
  get_statistics demo_retriever = Some demo_statistics
  /\ sum_list (map snd (st_chunks_by_plan demo_statistics))
     = st_total_chunks demo_statistics.
Proof.
  split; [reflexivity|].
  destruct (proj1 (get_statistics_totals demo_retriever) demo_statistics eq_refl)
    as (_ & _ & _ & _ & Hsum & _).
  exact Hsum.
Defined.

(** X3. In [get_statistics], the entry of [chunks_by_plan] for a plan is the
    number of chunks of that plan (chunks without a plan name count under
    'Unknown'), no two keys of the table are equal, and every plan listed
    in [plans] has a count of at least one; likewise for categories. *)
Theorem get_statistics_counts_per_key {Index : Type} (self : retriever Index)
    (st : statistics) :
  get_statistics self = Some st ->
  (forall k, count_of (st_chunks_by_plan st) k
             = length (filter (fun c : chunk => py_eqb (plan_of c) k = true)
                              (chunks self))) /\
  (forall k, count_of (st_chunks_by_category st) k
             = length (filter (fun c : chunk =>
                                 py_eqb (default (VStr "unknown") (c !! "category")) k
                                 = true) (chunks self))) /\
  keys_distinct (st_chunks_by_plan st) /\
  keys_distinct (st_chunks_by_category st) /\
  (forall p, p ∈ st_plans st -> (1 <= count_of (st_chunks_by_plan st) p)%nat) /\
  (forall c, c ∈ st_categories st -> (1 <= count_of (st_chunks_by_category st) c)%nat).
Proof.
  unfold get_statistics. intros Hst.
  destruct (list_plans self) as [plans|] eqn:Hplans; [|done].
  destruct (list_categories self) as [categories|] eqn:Hcats; [|done].
  simpl in Hst. injection Hst as <-. simpl.
  assert (Hpos : forall key fallback ps p,
            lists_values_of key (chunks self) ps -> p ∈ ps ->
            (1 <= count_of (foldl (count_step key fallback) [] (chunks self)) p)%nat).
  { intros key fallback ps p (_ & _ & Hin & _) Hp.
    destruct (Hin p Hp) as (c & Hc & Hk).
    rewrite count_loop_count.
    assert (Hc' : c ∈ filter (fun c : chunk =>
                    py_eqb (default fallback (c !! key)) p = true) (chunks self)).
    { apply list_elem_of_filter. split; [|done]. rewrite Hk. apply py_eqb_refl. }
    destruct (filter _ (chunks self)); [by apply elem_of_nil in Hc' | simpl; lia]. }
  repeat split.
  - intros k. apply count_loop_count.
  - intros k. apply count_loop_count.
  - apply count_loop_distinct.
  - apply count_loop_distinct.
  - intros p Hp. apply (Hpos "plan_name" _ plans); [by apply list_field_Some | done].
  - intros c Hc. apply (Hpos "category" _ categories); [by apply list_field_Some | done].
Qed.

Lemma get_statistics_counts_per_key_witness :
  get_statistics demo_retriever = Some demo_statistics
  /\ count_of (st_chunks_by_plan demo_statistics) (VStr "Plan B")
     = length (filter (fun c : chunk => py_eqb (plan_of c) (VStr "Plan B") = true)
                      (chunks demo_retriever)).
Proof.
  split; [reflexivity|].
  exact (proj1 (get_statistics_counts_per_key demo_retriever demo_statistics eq_refl)
           (VStr "Plan B")).
Defined.

(** ** Search results and the passage store *)

Lemma py_getitem_lookup {A : Type} (l : list A) (idx : Z) (a : A) :
  py_getitem l idx = Ok a -> 0 <= idx -> l !! Z.to_nat idx = Some a.
Proof.
  unfold py_getitem. intros Hg Hidx.
  destruct (Z.ltb_spec idx 0); [lia|].
  destruct ((0 <=? idx) && (idx <? Z.of_nat (length l))); [|done].
  by destruct (l !! Z.to_nat idx) as [b|]; [injection Hg as ->|].
Qed.

(** Where a returned result comes from. *)
Lemma search_Ok_elem {Index Vec : Type}
    (index_search : Index -> Vec -> Z -> result (list (Q * Z)))
    (encode : string -> Vec) (round32 : Q -> Q)
    (self : retriever Index) (query : string) (top_k : Z)
    (pf cf : option string) (results : list chunk) (r : chunk) :
  search index_search encode round32 self query top_k pf cf = Ok results ->
  r ∈ results ->
  exists (cands : list (Q * Z)) (j : nat) (cand : Q * Z) (c : chunk),
    index_search (index self) (encode query) (requested self top_k) = Ok cands /\
    cands !! j = Some cand /\ cand.2 <> -1 /\
    py_getitem (chunks self) cand.2 = Ok c /\
    rejects pf c "plan_name" = false /\ rejects cf c "category" = false /\
    r = annotate round32 c cand.1 (Z.of_nat j) cand.2.
Proof.
  intros Hs Hr.
  destruct (search_Ok _ _ _ _ _ _ _ _ _ Hs) as (cands & n & Hc & ->).
  apply list_elem_of_lookup in Hr as [a Ha].
  apply lookup_take_Some in Ha as [Ha _].
  destruct (accepted_lookup _ _ _ _ _ _ _ _ Ha) as (j & cand & _ & Hj & Hacc & _).
  apply lookup_take_Some in Hj as [Hj _].
  destruct (accept_Some _ _ _ _ _ _ _ Hacc) as (c & Hne & Hg & Hp & Hcat & ->).
  exists cands, j, cand, c. by rewrite Z.add_0_l.
Qed.

(** At most [top_k] results, when the index answers a request for [n]
    neighbours with [n] candidates. *)
Lemma search_Ok_length {Index Vec : Type}
    (index_search : Index -> Vec -> Z -> result (list (Q * Z)))
    (encode : string -> Vec) (round32 : Q -> Q)
    (self : retriever Index) (query : string) (top_k : Z)
    (pf cf : option string) (results : list chunk) :
  faiss_answer_ok (requested self top_k)
    (index_search (index self) (encode query) (requested self top_k)) = true ->
  search index_search encode round32 self query top_k pf cf = Ok results ->
  Z.of_nat (length results) <= top_k.
Proof.
  intros Hfaiss Hs.
  destruct (search_Ok _ _ _ _ _ _ _ _ _ Hs) as (cands & n & Hc & ->).
  rewrite Hc in Hfaiss. simpl in Hfaiss.
  apply andb_true_iff in Hfaiss as [Hlen _]. apply Z.eqb_eq in Hlen.
  rewrite length_take. unfold quota, requested in *.
  destruct (Z.le_gt_cases 1 top_k) as [Hk|Hk]; [lia|].
  assert (Hnil : cands = []) by (apply length_zero_iff_nil; lia).
  subst cands. rewrite take_nil. simpl in *. lia.
Qed.

(** X4. Every result of [search] is a passage of the store with three keys
    set: its [chunk_id] is the position of that passage, it agrees with
    the passage on every other key, and it carries a [rank] and a
    [similarity_score] (replacing such keys of the passage, if any). *)
Theorem search_results_are_stored_passages {Index Vec : Type}
    (index_search : Index -> Vec -> Z -> result (list (Q * Z)))
    (encode : string -> Vec) (round32 : Q -> Q)
    (self : retriever Index) (query : string) (top_k : Z)
    (pf cf : option string) (results : list chunk) (r : chunk) :
  search index_search encode round32 self query top_k pf cf = Ok results ->
  r ∈ results ->
  exists (idx : Z) (c : chunk),
    chunk_id_of r = Some idx /\ idx <> -1 /\
    py_getitem (chunks self) idx = Ok c /\
    (0 <= idx -> chunks self !! Z.to_nat idx = Some c) /\
    (forall k : string, k <> "chunk_id" -> k <> "rank" -> k <> "similarity_score" ->
       r !! k = c !! k) /\
    is_Some (rank_of r) /\ is_Some (similarity_of r).
Proof.
  intros Hs Hr.
  destruct (search_Ok_elem _ _ _ _ _ _ _ _ _ _ Hs Hr)
    as (cands & j & [d idx] & c & _ & _ & Hne & Hg & _ & _ & ->).
  simpl in *. exists idx, c.
  rewrite annotate_chunk_id, annotate_rank, annotate_similarity.
  repeat split; try done.
  - by apply py_getitem_lookup.
  - intros k H1 H2 H3. by apply annotate_other.
Qed.

Lemma search_results_are_stored_passages_witness :
  demo_search 3 (Some "Plan B") None = Ok [annotate exact demo_chunk_b (2 # 10) 1 1]
  /\ exists (idx : Z) (c : chunk),
       chunk_id_of (annotate exact demo_chunk_b (2 # 10) 1 1) = Some idx /\
       py_getitem (chunks demo_retriever) idx = Ok c.
Proof.
  split; [reflexivity|].
  destruct (search_results_are_stored_passages toy_search toy_encode exact
              demo_retriever "gym membership" 3 (Some "Plan B") None
              [annotate exact demo_chunk_b (2 # 10) 1 1]
              (annotate exact demo_chunk_b (2 # 10) 1 1)
              eq_refl (list_elem_of_here _ _))
    as (idx & c & Hid & _ & Hg & _).
  by exists idx, c.
Defined.

(** ** Grouping by plan *)

Lemma group_step_get (d : list (value * list chunk)) (r : chunk) (k : value) :
  odict_get py_eqb (group_step d r) k
  = if py_eqb (plan_of r) k
    then Some (default [] (odict_get py_eqb d k) ++ [r])
    else odict_get py_eqb d k.
Proof.
  unfold group_step.
  destruct (odict_get py_eqb d (plan_of r)) as [g|] eqn:Hg.
  - rewrite odict_get_set, Hg.
    destruct (py_eqb (plan_of r) k) eqn:Hk; [|done].
    by rewrite <- (odict_get_class d _ _ Hk), Hg.
  - rewrite !odict_get_set, py_eqb_refl. simpl.
    destruct (py_eqb (plan_of r) k) eqn:Hk; [|done].
    by rewrite <- (odict_get_class d _ _ Hk), Hg.
Qed.

Lemma group_step_distinct (d : list (value * list chunk)) (r : chunk) :
  keys_distinct d -> keys_distinct (group_step d r).
Proof.
  intros Hd. unfold group_step. apply odict_set_distinct.
  destruct (odict_get py_eqb d (plan_of r)); [done | by apply odict_set_distinct].
Qed.

Lemma group_loop_get (rs : list chunk) (k : value) :
  odict_get py_eqb (foldl group_step [] rs) k
  = match filter (fun r => py_eqb (plan_of r) k = true) rs with
    | [] => None
    | g => Some g
    end.
Proof.
  induction rs as [|r rs IH] using rev_ind; [done|].
  rewrite foldl_app, filter_app. simpl. rewrite group_step_get, IH.
  rewrite filter_cons, filter_nil.
  destruct (py_eqb (plan_of r) k) eqn:Hk.
  - rewrite decide_True by done.
    by destruct (filter _ rs).
  - rewrite decide_False by congruence. by rewrite app_nil_r.
Qed.

Lemma group_loop_distinct (rs : list chunk) : keys_distinct (foldl group_step [] rs).
Proof.
  induction rs as [|r rs IH] using rev_ind; [done|].
  rewrite foldl_app. simpl. by apply group_step_distinct.
Qed.

(** X5. [search_with_context] returns the unfiltered search results, their
    number, and their grouping by plan: the group of a plan holds exactly
    the results of that plan ('Unknown' for a result without plan name),
    in result order and never empty; no plan has two groups, every result
    is in the group of its plan, and [plans_found] lists the group keys. *)
Theorem search_with_context_groups_results {Index Vec : Type}
    (index_search : Index -> Vec -> Z -> result (list (Q * Z)))
    (encode : string -> Vec) (round32 : Q -> Q)
    (self : retriever Index) (query : string) (top_k : Z) (ctx : search_context) :
  search_with_context index_search encode round32 self query top_k = Ok ctx ->
  search index_search encode round32 self query top_k None None
  = Ok (sc_results ctx) /\
  sc_query ctx = query /\
  sc_total_results ctx = length (sc_results ctx) /\
  sc_plans_found ctx = map fst (sc_by_plan ctx) /\
  keys_distinct (sc_by_plan ctx) /\
  (forall p g, (p, g) ∈ sc_by_plan ctx ->
     g <> [] /\
     g = filter (fun r => py_eqb (plan_of r) p = true) (sc_results ctx)) /\
  (forall r, r ∈ sc_results ctx ->
     exists p g, (p, g) ∈ sc_by_plan ctx /\ py_eqb p (plan_of r) = true /\ r ∈ g).
Proof.
  unfold search_with_context.
  destruct (search _ _ _ _ _ _ _ _) as [results|e]; simpl; [|done].
  intros [= <-]. simpl.
  split; [done|]. split; [done|]. split; [done|]. split; [done|].
  split; [apply group_loop_distinct|]. split.
  - intros p g Hpg.
    apply (odict_get_elem _ _ _ (group_loop_distinct results)) in Hpg.
    rewrite group_loop_get in Hpg.
    destruct (filter _ results); [done|]. by injection Hpg as <-.
  - intros r Hr.
    assert (Hin : r ∈ filter (fun r' => py_eqb (plan_of r') (plan_of r) = true) results).
    { apply list_elem_of_filter. split; [apply py_eqb_refl | done]. }
    pose proof (group_loop_get results (plan_of r)) as Hg.
    destruct (filter _ results) as [|r0 g] eqn:Hf; [by apply elem_of_nil in Hin|].
    destruct (odict_elem_get _ _ _ Hg) as (p & Hp & Hpg).
    by exists p, (r0 :: g).
Qed.

Lemma search_with_context_groups_results_witness :
  search_with_context toy_search toy_encode exact demo_retriever "gym membership" 5
  = Ok demo_context
  /\ sc_total_results demo_context = length (sc_results demo_context)
  /\ keys_distinct (sc_by_plan demo_context).
Proof.
  split; [reflexivity|].
  destruct (search_with_context_groups_results toy_search toy_encode exact
              demo_retriever "gym membership" 5 demo_context eq_refl)
    as (_ & _ & Htotal & _ & Hkeys & _).
  by split.
Defined.

(** ** Comparing plans *)

Lemma sdict_get_set {V : Type} (d : list (string * V)) (k : string) (v : V)
    (k' : string) :
  odict_get String.eqb (odict_set String.eqb d k v) k'
  = if String.eqb k k' then Some v else odict_get String.eqb d k'.
Proof.
  induction d as [|[k0 v0] d IH]; simpl; [done|].
  destruct (String.eqb_spec k0 k) as [->|Hne]; simpl.
  - by destruct (String.eqb_spec k k').
  - rewrite IH. destruct (String.eqb_spec k0 k') as [->|Hne']; [|done].
    by destruct (String.eqb_spec k k').
Qed.

Lemma sdict_set_keys {V : Type} (d : list (string * V)) (k : string) (v : V) :
  map fst (odict_set String.eqb d k v)
  = if decide (k ∈ map fst d) then map fst d else map fst d ++ [k].
Proof.
  induction d as [|[k0 v0] d IH].
  - cbn [odict_set map fst].
    destruct (decide (k ∈ [])) as [Hk|Hk]; [by apply elem_of_nil in Hk | done].
  - cbn [odict_set map fst].
    destruct (String.eqb_spec k0 k) as [->|Hne]; cbn [map fst].
    + destruct (decide (k ∈ k :: map fst d)) as [Hk|Hk]; [done|].
      exfalso. apply Hk. left.
    + rewrite IH.
      destruct (decide (k ∈ map fst d)) as [Hk|Hk];
        destruct (decide (k ∈ k0 :: map fst d)) as [Hk'|Hk']; try done.
      * exfalso. apply Hk'. by right.
      * apply elem_of_cons in Hk' as [?|?]; [congruence | done].
Qed.

Section CompareLoop.

Context {Index Vec : Type}.
Context (index_search : Index -> Vec -> Z -> result (list (Q * Z))).
Context (encode : string -> Vec) (round32 : Q -> Q).
Context (self : retriever Index) (query : string).

Lemma compare_loop_Ok (names : list string) (acc out : list (string * list chunk)) :
  compare_loop index_search encode round32 self query names acc = Ok out ->
  (forall k, k ∈ map fst out <-> k ∈ map fst acc \/ k ∈ names) /\
  (NoDup (map fst acc) -> NoDup (map fst out)) /\
  (forall k, k ∉ names -> odict_get String.eqb out k = odict_get String.eqb acc k) /\
  (forall name, name ∈ names ->
     exists rs, odict_get String.eqb out name = Some rs /\
       search index_search encode round32 self query 3 (Some name) None = Ok rs).
Proof.
  revert acc.
  induction names as [|name names IH]; intros acc Hloop; simpl in Hloop.
  - injection Hloop as <-. repeat split; try done.
    + by left.
    + by intros [?|?%elem_of_nil].
    + by intros name ?%elem_of_nil.
  - destruct (search index_search encode round32 self query 3 (Some name) None)
      as [rs|e] eqn:Hs; simpl in Hloop; [|done].
    destruct (IH _ Hloop) as (Hkeys & Hnd & Hother & Hin).
    assert (Hacc : forall k, k ∈ map fst (odict_set String.eqb acc name rs)
                             <-> k ∈ map fst acc \/ k = name).
    { intros k. rewrite sdict_set_keys. destruct (decide (name ∈ map fst acc)).
      - split; [by left | by intros [?| ->]].
      - rewrite elem_of_app, list_elem_of_singleton. done. }
    repeat split.
    + intros Hk. apply Hkeys in Hk as [Hk|Hk]; [|right; by right].
      apply Hacc in Hk as [?| ->]; [by left | right; left].
    + intros [Hk|[->|Hk]%elem_of_cons]; apply Hkeys.
      * left. apply Hacc. by left.
      * left. apply Hacc. by right.
      * by right.
    + intros Hacc_nd. apply Hnd. rewrite sdict_set_keys.
      destruct (decide (name ∈ map fst acc)); [done|].
      apply NoDup_app. split; [done|]. split; [|apply NoDup_singleton].
      intros k Hk ->%list_elem_of_singleton. done.
    + intros k Hk. apply not_elem_of_cons in Hk as [Hne Hk].
      rewrite (Hother k Hk), sdict_get_set.
      by destruct (String.eqb_spec name k).
    + intros name' [->|Hin']%elem_of_cons; [|by apply Hin].
      destruct (decide (name ∈ names)) as [Hn|Hn]; [by apply Hin|].
      exists rs. split; [|done].
      rewrite (Hother name Hn), sdict_get_set. by rewrite String.eqb_refl.
Qed.

Lemma compare_loop_Err (names : list string) (acc : list (string * list chunk))
    (e : exn) :
  compare_loop index_search encode round32 self query names acc = Err e ->
  exists name, name ∈ names /\
    search index_search encode round32 self query 3 (Some name) None = Err e.
Proof.
  revert acc.
  induction names as [|name names IH]; intros acc Hloop; simpl in Hloop; [done|].
  destruct (search index_search encode round32 self query 3 (Some name) None)
    as [rs|e'] eqn:Hs; simpl in Hloop.
  - destruct (IH _ Hloop) as (name' & Hin & Hs'). exists name'. split; [by right | done].
  - injection Hloop as ->. exists name. split; [left | done].
Qed.

End CompareLoop.

(** X6. [compare_plans] returns one entry per requested plan name and no
    other: the entry of a name is what [search] returns for the query
    with [top_k = 3] and that name as plan filter, so its results all
    belong to that plan (for a non-empty name) and are at most three
    (when the index answers a request for [n] neighbours with [n]
    candidates). It raises exactly what the first failing search raises. *)
Theorem compare_plans_entries {Index Vec : Type}
    (index_search : Index -> Vec -> Z -> result (list (Q * Z)))
    (encode : string -> Vec) (round32 : Q -> Q)
    (self : retriever Index) (query : string) (plan_names : list string) :
  (forall q comparison,
     compare_plans index_search encode round32 self query plan_names
     = Ok (q, comparison) ->
     q = query /\
     NoDup (map fst comparison) /\
     (forall k, k ∈ map fst comparison <-> k ∈ plan_names) /\
     (forall name, name ∈ plan_names ->
        exists rs,
          odict_get String.eqb comparison name = Some rs /\
          search index_search encode round32 self query 3 (Some name) None = Ok rs /\
          (name <> "" -> forall r : chunk, r ∈ rs -> r !! "plan_name" = Some (VStr name)) /\
          (faiss_answer_ok (requested self 3)
             (index_search (index self) (encode query) (requested self 3)) = true ->
           (length rs <= 3)%nat))) /\
  (forall e,
     compare_plans index_search encode round32 self query plan_names = Err e ->
     exists name, name ∈ plan_names /\
       search index_search encode round32 self query 3 (Some name) None = Err e).
Proof.
  unfold compare_plans. split.
  - intros q comparison Hc.
    destruct (compare_loop _ _ _ _ _ _ _) as [out|e] eqn:Hloop; simpl in Hc; [|done].
    injection Hc as <- <-.
    destruct (compare_loop_Ok _ _ _ _ _ _ _ _ Hloop) as (Hkeys & Hnd & _ & Hin).
    split; [done|]. split; [apply Hnd; constructor|]. split.
    + intros k. rewrite Hkeys. split; [by intros [?%elem_of_nil|?] | by right].
    + intros name Hname. destruct (Hin name Hname) as (rs & Hget & Hs).
      exists rs. split; [done|]. split; [done|]. split.
      * intros Hne r Hr.
        destruct (search_Ok_elem _ _ _ _ _ _ _ _ _ _ Hs Hr)
          as (cands & j & cand & c & _ & _ & _ & _ & Hrej & _ & ->).
        rewrite annotate_other by done.
        destruct (rejects_false_field (Some name) c "plan_name")
          as (p & [= <-] & Hf); [|done..].
        simpl. by apply negb_true_iff, String.eqb_neq.
      * intros Hfaiss.
        pose proof (search_Ok_length _ _ _ _ _ _ _ _ _ Hfaiss Hs). lia.
  - intros e Hc.
    destruct (compare_loop _ _ _ _ _ _ _) as [out|e'] eqn:Hloop; simpl in Hc; [done|].
    injection Hc as ->. by apply (compare_loop_Err _ _ _ _ _ _ []).
Qed.

Lemma compare_plans_entries_witness :
  compare_plans toy_search toy_encode exact demo_retriever "gym membership"
    ["Plan B"; "Plan A"]
  = Ok ("gym membership",
        [("Plan B", returned (demo_search 3 (Some "Plan B") None));
         ("Plan A", returned (demo_search 3 (Some "Plan A") None))])
  /\ NoDup ["Plan B"; "Plan A"].
Proof.
  split; [reflexivity|].
  exact (proj1 (proj2 (proj1 (compare_plans_entries toy_search toy_encode exact
                                demo_retriever "gym membership" ["Plan B"; "Plan A"])
                         _ _ eq_refl))).
Defined.

(** ** The range of the classifier *)

Lemma max_list_zero (l : list nat) :
  max_list l = 0%nat <-> forall n, n ∈ l -> n = 0%nat.
Proof.
  split.
  - intros Hmax n Hn. apply max_list_elem_of_le in Hn. lia.
  - intros Hall. destruct l as [|x l]; [done|].
    apply Hall, max_list_elem_of. done.
Qed.

Lemma keyword_score_zero (kws : list string) (text : string) :
  keyword_score kws text = 0%nat <->
  forall kw, kw ∈ kws -> contains kw text = false.
Proof.
  unfold keyword_score. rewrite length_zero_iff_nil. split.
  - intros Hnil kw Hkw. apply not_true_iff_false. intros Hc.
    assert (Hin : kw ∈ filter (fun kw => contains kw text = true) kws)
      by (by apply list_elem_of_filter).
    rewrite Hnil in Hin. by apply elem_of_nil in Hin.
  - intros Hall. induction kws as [|kw kws IH]; [done|].
    rewrite filter_cons, decide_False.
    + apply IH. intros kw' Hkw'. apply Hall. by right.
    + rewrite (Hall kw) by left. done.
Qed.

(** X7. [_classify] returns 'general' or the name of one of the categories,
    and it returns 'general' exactly when no keyword phrase of any
    category occurs in the text. *)
Theorem classify_range (text : string) :
  _classify text ∈ "general" :: map fst categories /\
  (_classify text = "general" <->
   forall kw, kw ∈ all_keywords -> contains kw text = false).
Proof.
  rewrite _classify_first_max. cbv zeta.
  set (score := fun c : string * list string => keyword_score c.2 text).
  assert (Hall : (forall kw, kw ∈ all_keywords -> contains kw text = false) <->
                 max_list (map score categories) = 0%nat).
  { rewrite max_list_zero. split.
    - intros Hno n Hn. apply list_elem_of_fmap in Hn as (c & -> & Hc).
      apply keyword_score_zero. intros kw Hkw. apply Hno.
      unfold all_keywords. apply list_elem_of_In, in_concat. exists c.2.
      split; apply list_elem_of_In; [|done]. apply list_elem_of_fmap. by exists c.
    - intros Hzero kw Hkw. unfold all_keywords in Hkw.
      apply list_elem_of_In, in_concat in Hkw as (kws & Hkws & Hkw).
      apply list_elem_of_In, list_elem_of_fmap in Hkws as (c & -> & Hc).
      apply list_elem_of_In in Hkw.
      assert (Hs : score c = 0%nat).
      { apply Hzero. apply list_elem_of_fmap. by exists c. }
      by apply (proj1 (keyword_score_zero c.2 text) Hs). }
  destruct (Nat.ltb_spec 0 (max_list (map score categories))) as [Hpos|Hzero].
  - assert (Hmax : max_list (map score categories) ∈ map score categories)
      by (apply max_list_elem_of; by vm_compute).
    apply list_elem_of_fmap in Hmax as (c & Hc & Hin).
    destruct (find _ categories) as [c'|] eqn:Hfind.
    + apply find_some in Hfind as [Hc' _]. apply list_elem_of_In in Hc'.
      assert (Hname : c'.1 ∈ map fst categories)
        by (apply list_elem_of_fmap; by exists c').
      split; [by right|]. split.
      * intros Heq. rewrite Heq in Hname. exfalso. revert Hname.
        apply (bool_decide_unpack _). by vm_compute.
      * intros Hno%Hall. lia.
    + exfalso. apply list_elem_of_In in Hin.
      pose proof (find_none _ _ Hfind c Hin) as Hne. simpl in Hne.
      rewrite <- Hc, Nat.eqb_refl in Hne. done.
  - split; [left|]. split; [|done]. intros _. apply Hall. lia.
Qed.

Lemma classify_range_witness :
  (forall kw, kw ∈ all_keywords -> contains kw "hello world" = false)
  /\ _classify "hello world" = "general".
Proof.
  assert (Hno : forall kw, kw ∈ all_keywords -> contains kw "hello world" = false).
  { apply Forall_forall. apply (bool_decide_unpack _). by vm_compute. }
  split; [exact Hno|].
  exact (proj2 (proj2 (classify_range "hello world")) Hno).
Defined.

(** ** [chunk_file] *)

Section ChunkFile.

Context (float_repr : Q -> string).

Lemma _create_benefit_chunk_Ok (benefit metadata : chunk) :
  (exists c, _create_benefit_chunk float_repr benefit metadata = Ok c) <->
  exists s d, benefit !! "service" = Some (VStr s) /\
              benefit !! "description" = Some (VStr d).
Proof.
  unfold _create_benefit_chunk, dict_item. split.
  - intros [c Hc].
    destruct (benefit !! "service") as [[s| |]|]; simpl in Hc; try done;
      destruct (benefit !! "description") as [[d| |]|]; simpl in Hc; try done.
    by exists s, d.
  - intros (s & d & -> & ->). simpl. by eexists.
Qed.

Lemma _create_benefit_chunk_keys (benefit metadata c : chunk) :
  _create_benefit_chunk float_repr benefit metadata = Ok c ->
  is_Some (c !! "text") /\ is_Some (c !! "type") /\ is_Some (c !! "category") /\
  (forall k v, metadata !! k = Some v -> c !! k = Some v) /\
  (metadata !! "type" = None -> c !! "type" = Some (VStr "benefit")).
Proof.
  unfold _create_benefit_chunk, dict_item. intros Hc.
  destruct (benefit !! "service") as [[s| |]|]; simpl in Hc; try done;
    destruct (benefit !! "description") as [[d| |]|]; simpl in Hc; try done.
  injection Hc as <-.
  repeat split; try (intros k v Hk; by apply lookup_union_Some_l).
  - apply lookup_union_is_Some. right.
    rewrite !lookup_insert_ne by done. rewrite lookup_insert_eq. by eexists.
  - apply lookup_union_is_Some. right.
    rewrite lookup_insert_ne by done. rewrite lookup_insert_eq. by eexists.
  - apply lookup_union_is_Some. right. rewrite lookup_insert_eq. by eexists.
  - intros Hk. rewrite lookup_union_r by done.
    rewrite lookup_insert_ne by done. by rewrite lookup_insert_eq.
Qed.

Lemma _create_overview_keys (metadata : chunk) :
  is_Some (_create_overview float_repr metadata !! "text") /\
  is_Some (_create_overview float_repr metadata !! "type") /\
  is_Some (_create_overview float_repr metadata !! "category") /\
  (forall k v, metadata !! k = Some v ->
     _create_overview float_repr metadata !! k = Some v) /\
  (metadata !! "type" = None ->
   _create_overview float_repr metadata !! "type" = Some (VStr "overview")).
Proof.
  unfold _create_overview.
  repeat split; try (intros k v Hk; by apply lookup_union_Some_l).
  - apply lookup_union_is_Some. right.
    rewrite !lookup_insert_ne by done. rewrite lookup_insert_eq. by eexists.
  - apply lookup_union_is_Some. right.
    rewrite lookup_insert_ne by done. rewrite lookup_insert_eq. by eexists.
  - apply lookup_union_is_Some. right. rewrite lookup_insert_eq. by eexists.
  - intros Hk. rewrite lookup_union_r by done.
    rewrite lookup_insert_ne by done. by rewrite lookup_insert_eq.
Qed.

Lemma chunk_benefits_Ok (benefits : list chunk) (metadata : chunk) (cs : list chunk) :
  chunk_benefits float_repr benefits metadata = Ok cs <->
  Forall2 (fun b c => _create_benefit_chunk float_repr b metadata = Ok c) benefits cs.
Proof.
  revert cs. induction benefits as [|b benefits IH]; intros cs; simpl.
  - split; [intros [= <-]; constructor | by intros ->%Forall2_nil_inv_l].
  - split.
    + destruct (_create_benefit_chunk float_repr b metadata) as [c|e] eqn:Hc;
        simpl; [|done].
      destruct (chunk_benefits float_repr benefits metadata) as [cs'|e] eqn:Hcs;
        simpl; [|done].
      intros [= <-]. constructor; [done | by apply IH].
    + intros (c & cs' & Hc & Hcs & ->)%Forall2_cons_inv_l.
      rewrite Hc. simpl. apply IH in Hcs. by rewrite Hcs.
Qed.

Lemma chunk_benefits_Err (benefits : list chunk) (metadata : chunk) (e : exn) :
  chunk_benefits float_repr benefits metadata = Err e ->
  exists b, b ∈ benefits /\ _create_benefit_chunk float_repr b metadata = Err e.
Proof.
  induction benefits as [|b benefits IH]; simpl; [done|].
  destruct (_create_benefit_chunk float_repr b metadata) as [c|e'] eqn:Hc; simpl.
  - destruct (chunk_benefits float_repr benefits metadata) as [cs'|e'']; simpl; [done|].
    intros [= ->]. destruct IH as (b' & Hb' & He); [done|].
    exists b'. split; [by right | done].
  - intros [= ->]. exists b. split; [left | done].
Qed.

End ChunkFile.

(** X8. [chunk_file] returns the overview chunk followed by one chunk per
    benefit, in order. It raises [KeyError] when the file has no
    ['metadata'] and otherwise succeeds exactly when every benefit has a
    string ['service'] and a string ['description']; a file without
    ['benefits'] gives the overview alone. *)
Theorem chunk_file_shape (float_repr : Q -> string) (data : extracted) :
  (forall cs, chunk_file float_repr data = Ok cs ->
     exists metadata rest,
       ex_metadata data = Some metadata /\
       cs = _create_overview float_repr metadata :: rest /\
       length cs = S (length (default [] (ex_benefits data))) /\
       Forall2 (fun b c => _create_benefit_chunk float_repr b metadata = Ok c)
               (default [] (ex_benefits data)) rest) /\
  (ex_metadata data = None -> chunk_file float_repr data = Err KeyError) /\
  (is_Some (ex_metadata data) ->
   ((exists cs, chunk_file float_repr data = Ok cs) <->
    forall b : chunk, b ∈ default [] (ex_benefits data) ->
      exists s d, b !! "service" = Some (VStr s) /\
                  b !! "description" = Some (VStr d))).
Proof.
  unfold chunk_file. split; [|split].
  - intros cs Hcs. destruct (ex_metadata data) as [m|]; simpl in Hcs; [|done].
    destruct (chunk_benefits float_repr _ m) as [rest|e] eqn:Hrest; simpl in Hcs; [|done].
    injection Hcs as <-. apply chunk_benefits_Ok in Hrest.
    exists m, rest. repeat split; try done.
    simpl. by rewrite (Forall2_length _ _ _ Hrest).
  - by intros ->.
  - intros [m ->]. simpl. split.
    + intros [cs Hcs] b Hb.
      destruct (chunk_benefits float_repr _ m) as [rest|e] eqn:Hrest; simpl in Hcs; [|done].
      apply chunk_benefits_Ok in Hrest.
      apply list_elem_of_lookup in Hb as [i Hi].
      destruct (Forall2_lookup_l _ _ _ _ _ Hrest Hi) as (c & _ & Hc).
      apply (_create_benefit_chunk_Ok float_repr b m). by exists c.
    + intros Hall.
      destruct (chunk_benefits float_repr _ m) as [rest|e] eqn:Hrest; simpl; [by eexists|].
      apply chunk_benefits_Err in Hrest as (b & Hb & He).
      destruct (proj2 (_create_benefit_chunk_Ok float_repr b m) (Hall b Hb)) as [c Hc].
      congruence.
Qed.

Lemma chunk_file_shape_witness :
  chunk_file demo_float_repr demo_extracted
  = Ok (returned (chunk_file demo_float_repr demo_extracted))
  /\ length (returned (chunk_file demo_float_repr demo_extracted)) = 2%nat.
Proof.
  split; [reflexivity|].
  destruct (proj1 (chunk_file_shape demo_float_repr demo_extracted) _ eq_refl)
    as (m & rest & _ & _ & Hlen & _).
  exact Hlen.
Defined.

(** ** The benefits extracted from the text of a document *)

Lemma join_space_nonempty (ds : list string) :
  ds <> [] -> Forall (fun d => d <> "") ds -> join_space ds <> "".
Proof.
  destruct ds as [|d ds]; [done|]. intros _ [Hd _]%Forall_cons.
  simpl. destruct ds; [done|]. by destruct d.
Qed.

Lemma benefit_record_service (s : string) (ds : list string) :
  benefit_record s ds !! "service" = Some (VStr s).
Proof. unfold benefit_record. rewrite lookup_insert_ne by done. apply lookup_insert_eq. Qed.

Lemma benefit_record_description (s : string) (ds : list string) :
  benefit_record s ds !! "description" = Some (VStr (join_space ds)).
Proof. unfold benefit_record. apply lookup_insert_eq. Qed.

Lemma header_lines_cons (line : string) (lines : list string) :
  header_lines (line :: lines)
  = if negb (String.eqb (strip line) "")
       && negb (bool_decide (strip line ∈ section_headers))
       && _is_service_header (strip line)
    then strip line :: header_lines lines
    else header_lines lines.
Proof.
  unfold header_lines. cbn [map]. rewrite filter_cons.
  destruct (negb _ && negb _ && _is_service_header (strip line)) eqn:Hh.
  - by rewrite decide_True.
  - by rewrite decide_False by congruence.
Qed.

Lemma save_benefit_ok (s : string) (cd : list string) (bs : list chunk)
    (hs' : list string) :
  s <> "" -> _is_service_header s = true -> Forall (fun d => d <> "") cd ->
  Forall benefit_well_formed bs ->
  omap (fun b : chunk => b !! "service") bs `sublist_of` map VStr hs' ->
  Forall benefit_well_formed (save_benefit (Some s) cd bs) /\
  omap (fun b : chunk => b !! "service") (save_benefit (Some s) cd bs)
    `sublist_of` map VStr (hs' ++ [s]).
Proof.
  intros Hs Hh Hcd Hbs Hsub. unfold save_benefit.
  destruct cd as [|d cd].
  - split; [done|]. rewrite map_app. by apply sublist_inserts_r.
  - rewrite (proj2 (String.eqb_neq s "") Hs). split.
    + apply Forall_app. split; [done|]. apply Forall_singleton.
      by exists s, (d :: cd).
    + rewrite omap_app, map_app. apply sublist_app; [done|].
      simpl. by rewrite benefit_record_service.
Qed.

Lemma extract_loop_inv (lines : list string) (cs : option string)
    (cd : list string) (bs : list chunk) (hs : list string) :
  Forall benefit_well_formed bs -> Forall (fun d => d <> "") cd ->
  loop_state_ok cs bs hs ->
  Forall benefit_well_formed (extract_loop lines cs cd bs).2 /\
  Forall (fun d => d <> "") (extract_loop lines cs cd bs).1.2 /\
  loop_state_ok (extract_loop lines cs cd bs).1.1 (extract_loop lines cs cd bs).2
                (hs ++ header_lines lines).
Proof.
  revert cs cd bs hs.
  induction lines as [|line lines IH]; intros cs cd bs hs Hbs Hcd Hst.
  - simpl. by rewrite app_nil_r.
  - rewrite header_lines_cons. cbn [extract_loop].
    destruct (String.eqb_spec (strip line) "") as [Hblank|Hblank]; simpl;
      [by apply IH|].
    destruct (bool_decide (strip line ∈ section_headers)) eqn:Hsec; simpl;
      [by apply IH|].
    destruct (_is_service_header (strip line)) eqn:Hh.
    + replace (hs ++ strip line :: header_lines lines)
        with ((hs ++ [strip line]) ++ header_lines lines)
        by (by rewrite <- app_assoc).
      destruct cs as [s|].
      * destruct Hst as (Hs & Hsh & hs' & -> & Hsub).
        destruct (save_benefit_ok s cd bs hs' Hs Hsh Hcd Hbs Hsub) as [Hwf Hsub'].
        apply IH; [done | done |].
        split; [done|]. split; [done|]. by exists (hs' ++ [s]).
      * destruct Hst as [-> ->]. apply IH; [done | done |].
        split; [done|]. split; [done|]. exists []. by split.
    + destruct cs as [s|]; [|by apply IH].
      destruct Hst as (Hs & Hsh & Hrest).
      rewrite (proj2 (String.eqb_neq s "") Hs).
      apply IH; [done | |by split].
      apply Forall_app. split; [done|]. by apply Forall_singleton.
Qed.

Lemma extract_benefits_inv (text : string) :
  Forall benefit_well_formed (_extract_benefits text) /\
  omap (fun b : chunk => b !! "service") (_extract_benefits text)
    `sublist_of` map VStr (header_lines (split_lines text)).
Proof.
  unfold _extract_benefits.
  destruct (extract_loop_inv (split_lines text) None [] [] [])
    as (Hbs & Hcd & Hst); [done | done | done |].
  destruct (extract_loop (split_lines text) None [] []) as [[cs cd] bs].
  simpl in *. destruct cs as [s|].
  - destruct Hst as (Hs & Hsh & hs' & -> & Hsub).
    by apply save_benefit_ok.
  - destruct Hst as [-> ->]. unfold save_benefit. by destruct cd.
Qed.

(** X9. Every benefit that [_extract_benefits] returns has exactly the keys
    ['service'] and ['description'], both strings: the service is a
    non-blank line accepted by [_is_service_header] and the description
    is not empty.  A header followed by no description line yields no
    benefit. *)
Theorem extract_benefits_well_formed (text : string) (b : chunk) :
  b ∈ _extract_benefits text ->
  exists s d,
    b = <["description" := VStr d]> (<["service" := VStr s]> ∅) /\
    s <> "" /\ d <> "" /\ _is_service_header s = true /\
    s ∈ header_lines (split_lines text).
Proof.
  intros Hb. destruct (extract_benefits_inv text) as [Hwf Hsub].
  destruct (proj1 (Forall_forall _ _) Hwf b Hb) as (s & ds & -> & Hs & Hsh & Hds & Hne).
  exists s, (join_space ds). split; [done|]. split; [done|].
  split; [by apply join_space_nonempty|]. split; [done|].
  assert (Hin : VStr s ∈ omap (fun b : chunk => b !! "service") (_extract_benefits text)).
  { apply list_elem_of_omap. exists (benefit_record s ds).
    split; [done | apply benefit_record_service]. }
  apply (sublist_subseteq _ _ Hsub) in Hin.
  apply list_elem_of_fmap in Hin as (s' & [= ->] & Hin). done.
Qed.

Lemma extract_benefits_well_formed_witness :
  benefit_record "Primary Care Visit" ["You pay $25 copay per visit"]
    ∈ _extract_benefits demo_text
  /\ exists s d,
       benefit_record "Primary Care Visit" ["You pay $25 copay per visit"]
       = <["description" := VStr d]> (<["service" := VStr s]> ∅) /\
       s <> "" /\ d <> "".
Proof.
  assert (Hin : benefit_record "Primary Care Visit" ["You pay $25 copay per visit"]
                ∈ _extract_benefits demo_text).
  { replace (_extract_benefits demo_text)
      with [benefit_record "Primary Care Visit" ["You pay $25 copay per visit"];
            benefit_record "Dental Preventive" ["No charge."]]
      by (by vm_compute).
    left. }
  split; [exact Hin|].
  destruct (extract_benefits_well_formed demo_text _ Hin) as (s & d & Hb & Hs & Hd & _).
  by exists s, d.
Defined.

(** X10. The services of the extracted benefits are service-header lines of
    the document, in document order, each header contributing at most
    one benefit: there are never more benefits than header lines, and a
    text without header lines has no benefits. *)
Theorem extract_benefits_follow_headers (text : string) :
  omap (fun b : chunk => b !! "service") (_extract_benefits text)
    `sublist_of` map VStr (header_lines (split_lines text)) /\
  (length (_extract_benefits text) <= length (header_lines (split_lines text)))%nat /\
  (header_lines (split_lines text) = [] -> _extract_benefits text = []).
Proof.
  destruct (extract_benefits_inv text) as [Hwf Hsub].
  assert (Hlen : length (omap (fun b : chunk => b !! "service") (_extract_benefits text))
                 = length (_extract_benefits text)).
  { clear Hsub. induction Hwf as [|b bs (s & ds & -> & _) _ IH]; [done|].
    change (omap (fun b : chunk => b !! "service") (benefit_record s ds :: bs))
      with (match benefit_record s ds !! "service" with
            | Some v => v :: omap (fun b : chunk => b !! "service") bs
            | None => omap (fun b : chunk => b !! "service") bs
            end).
    rewrite benefit_record_service. cbn [length]. by rewrite IH. }
  split; [done|].
  pose proof (sublist_length _ _ Hsub) as Hle. rewrite Hlen, length_map in Hle.
  split; [done|]. intros Hnil. rewrite Hnil in Hle.
  by destruct (_extract_benefits text); [|simpl in Hle; lia].
Qed.

Lemma extract_benefits_follow_headers_witness :
  header_lines (split_lines "You pay nothing") = []
  /\ _extract_benefits "You pay nothing" = [].
Proof.
  split; [reflexivity|].
  exact (proj2 (proj2 (extract_benefits_follow_headers "You pay nothing")) eq_refl).
Defined.

(** ** From extraction to chunks to the store *)

(** X11. Chunking what the extractor returned never raises: for every text
    and every plan metadata, [chunk_file] succeeds on the extracted
    benefits and returns one chunk more than there are benefits, each
    with a text, a type and a category. *)
Theorem extracted_benefits_always_chunk (float_repr : Q -> string)
    (text : string) (metadata : chunk) :
  exists cs,
    chunk_file float_repr
      {| ex_metadata := Some metadata; ex_benefits := Some (_extract_benefits text) |}
    = Ok cs /\
    length cs = S (length (_extract_benefits text)) /\
    forall c : chunk, c ∈ cs ->
      is_Some (c !! "text") /\ is_Some (c !! "type") /\ is_Some (c !! "category").
Proof.
  unfold chunk_file. simpl.
  destruct (chunk_benefits float_repr (_extract_benefits text) metadata)
    as [rest|e] eqn:Hrest; simpl.
  - apply chunk_benefits_Ok in Hrest.
    eexists. split; [done|]. split.
    + simpl. by rewrite (Forall2_length _ _ _ Hrest).
    + intros c [->|Hc]%elem_of_cons.
      * destruct (_create_overview_keys float_repr metadata) as (? & ? & ? & _). done.
      * apply list_elem_of_lookup in Hc as [i Hi].
        destruct (Forall2_lookup_r _ _ _ _ _ Hrest Hi) as (b & _ & Hb).
        destruct (_create_benefit_chunk_keys float_repr _ _ _ Hb) as (? & ? & ? & _).
        done.
  - exfalso. apply chunk_benefits_Err in Hrest as (b & Hb & He).
    destruct (extract_benefits_inv text) as [Hwf _].
    destruct (proj1 (Forall_forall _ _) Hwf b Hb) as (s & ds & -> & _).
    destruct (proj2 (_create_benefit_chunk_Ok float_repr (benefit_record s ds) metadata))
      as [c Hc]; [|congruence].
    exists s, (join_space ds).
    by rewrite benefit_record_service, benefit_record_description.
Qed.

Lemma extracted_benefits_always_chunk_witness :
  exists cs,
    chunk_file demo_float_repr
      {| ex_metadata := Some demo_metadata;
         ex_benefits := Some (_extract_benefits demo_text) |} = Ok cs
    /\ length cs = 3%nat.
Proof.
  destruct (extracted_benefits_always_chunk demo_float_repr demo_text demo_metadata)
    as (cs & Hcs & Hlen & _).
  exists cs. split; [exact Hcs|]. rewrite Hlen. reflexivity.
Defined.

Lemma py_set_all_same (l : list value) (p : value) :
  l <> [] -> (forall x, x ∈ l -> x = p) -> py_set l = [p].
Proof.
  induction l as [|x l IH]; [done|]. intros _ Hall. simpl.
  rewrite (Hall x) by left. f_equal.
  destruct l as [|y l]; [done|].
  rewrite IH; [|done|intros z Hz; apply Hall; by right].
  rewrite filter_cons, decide_False; [done|]. by rewrite py_eqb_refl.
Qed.

Lemma py_sorted_singleton (p : value) : py_sorted [p] = Some [p].
Proof. by destruct p. Qed.

(** X12. The chunks of one file form one plan: when the metadata names the
    plan, [list_plans] over these chunks lists that plan alone, and when
    the name is a string and the metadata has no ['type'],
    [get_plan_overview] for it returns the overview chunk of the file. *)
Theorem file_chunks_form_one_plan {Index : Type} (ix : Index)
    (float_repr : Q -> string) (data : extracted) (metadata : chunk)
    (cs : list chunk) (p : value) :
  chunk_file float_repr data = Ok cs ->
  ex_metadata data = Some metadata ->
  metadata !! "plan_name" = Some p ->
  (forall c : chunk, c ∈ cs -> c !! "plan_name" = Some p) /\
  list_plans {| index := ix; chunks := cs |} = Some [p] /\
  (forall name, p = VStr name -> metadata !! "type" = None ->
     get_plan_overview {| index := ix; chunks := cs |} name
     = Some (_create_overview float_repr metadata)).
Proof.
  unfold chunk_file. intros Hcs Hm Hp. rewrite Hm in Hcs. simpl in Hcs.
  destruct (chunk_benefits float_repr _ metadata) as [rest|e] eqn:Hrest;
    simpl in Hcs; [|done].
  injection Hcs as <-. apply chunk_benefits_Ok in Hrest.
  assert (Hall : forall c : chunk,
            c ∈ _create_overview float_repr metadata :: rest ->
            c !! "plan_name" = Some p).
  { intros c [->|Hc]%elem_of_cons.
    - by apply _create_overview_keys.
    - apply list_elem_of_lookup in Hc as [i Hi].
      destruct (Forall2_lookup_r _ _ _ _ _ Hrest Hi) as (b & _ & Hb).
      by apply (_create_benefit_chunk_keys float_repr _ _ _ Hb). }
  split; [done|]. split.
  - unfold list_plans, list_field. cbn [chunks].
    rewrite (py_set_all_same _ p); [apply py_sorted_singleton| |].
    + cbn [omap list_omap]. rewrite (Hall (_create_overview float_repr metadata)) by left.
      done.
    + intros x (c & Hc & Hx)%list_elem_of_omap. rewrite (Hall c Hc) in Hx. congruence.
  - intros name -> Htype. unfold get_plan_overview, field_is. cbn [chunks find].
    rewrite (Hall (_create_overview float_repr metadata)) by left.
    destruct (_create_overview_keys float_repr metadata) as (_ & _ & _ & _ & Ht).
    rewrite (Ht Htype). simpl. by rewrite String.eqb_refl.
Qed.

Lemma file_chunks_form_one_plan_witness :
  chunk_file demo_float_repr demo_extracted
  = Ok (returned (chunk_file demo_float_repr demo_extracted))
  /\ ex_metadata demo_extracted = Some demo_metadata
  /\ demo_metadata !! "plan_name" = Some (VStr "Plan A")
  /\ list_plans {| index := 0%nat;
                   chunks := returned (chunk_file demo_float_repr demo_extracted) |}
     = Some [VStr "Plan A"].
Proof.
  split; [reflexivity|]. split; [reflexivity|]. split; [reflexivity|].
  exact (proj1 (proj2 (file_chunks_form_one_plan 0%nat demo_float_repr demo_extracted
                         demo_metadata _ (VStr "Plan A") eq_refl eq_refl eq_refl))).
Defined.

(** ** Embedding the chunks *)

Lemma chunk_texts_Ok (cs : list chunk) (texts : list value) :
  chunk_texts cs = Ok texts <->
  Forall2 (fun (c : chunk) t => c !! "text" = Some t) cs texts.
Proof.
  revert texts. induction cs as [|c cs IH]; intros texts; simpl.
  - split; [intros [= <-]; constructor | by intros ->%Forall2_nil_inv_l].
  - split.
    + destruct (c !! "text") as [t|] eqn:Ht; simpl; [|done].
      destruct (chunk_texts cs) as [ts|e]; simpl; [|done].
      intros [= <-]. constructor; [done | by apply IH].
    + intros (t & ts & -> & Hts & ->)%Forall2_cons_inv_l. simpl.
      apply IH in Hts. by rewrite Hts.
Qed.

Lemma chunk_texts_Err (cs : list chunk) (e : exn) :
  chunk_texts cs = Err e -> e = KeyError /\ exists c : chunk, c ∈ cs /\ c !! "text" = None.
Proof.
  induction cs as [|c cs IH]; simpl; [done|].
  destruct (c !! "text") as [t|] eqn:Ht; simpl.
  - destruct (chunk_texts cs) as [ts|e']; simpl; [done|].
    intros [= ->]. destruct IH as (-> & c' & Hc' & Hn); [done|].
    split; [done|]. exists c'. split; [by right | done].
  - intros [= <-]. split; [done|]. exists c. split; [left | done].
Qed.

(** X13. [generate_embeddings] hands the model the texts of the chunks, one
    per chunk and in order; it raises [KeyError], and only that, when
    some chunk has no ['text'] -- which never happens for the chunks
    that [chunk_file] returned. *)
Theorem generate_embeddings_texts (encode_all : list value -> ndarray)
    (cs : list chunk) :
  (forall a, generate_embeddings encode_all cs = Ok a ->
     exists texts, a = encode_all texts /\
       Forall2 (fun (c : chunk) t => c !! "text" = Some t) cs texts) /\
  (forall e, generate_embeddings encode_all cs = Err e ->
     e = KeyError /\ exists c : chunk, c ∈ cs /\ c !! "text" = None) /\
  (forall float_repr data, chunk_file float_repr data = Ok cs ->
     exists texts, generate_embeddings encode_all cs = Ok (encode_all texts) /\
       length texts = length cs).
Proof.
  unfold generate_embeddings. split; [|split].
  - intros a Ha. destruct (chunk_texts cs) as [texts|e] eqn:Ht; simpl in Ha; [|done].
    injection Ha as <-. exists texts. split; [done | by apply chunk_texts_Ok].
  - intros e He. destruct (chunk_texts cs) as [texts|e'] eqn:Ht; simpl in He; [done|].
    injection He as ->. by apply chunk_texts_Err.
  - intros float_repr data Hcs.
    destruct (chunk_texts cs) as [texts|e] eqn:Ht; simpl.
    + exists texts. split; [done|]. apply chunk_texts_Ok in Ht.
      by rewrite (Forall2_length _ _ _ Ht).
    + exfalso. apply chunk_texts_Err in Ht as (_ & c & Hc & Hn).
      unfold chunk_file in Hcs.
      destruct (ex_metadata data) as [m|]; simpl in Hcs; [|done].
      destruct (chunk_benefits float_repr _ m) as [rest|e'] eqn:Hrest;
        simpl in Hcs; [|done].
      injection Hcs as <-. apply chunk_benefits_Ok in Hrest.
      apply elem_of_cons in Hc as [->|Hc].
      * destruct (_create_overview_keys float_repr m) as ([? Ht] & _). congruence.
      * apply list_elem_of_lookup in Hc as [i Hi].
        destruct (Forall2_lookup_r _ _ _ _ _ Hrest Hi) as (b & _ & Hb).
        destruct (_create_benefit_chunk_keys float_repr _ _ _ Hb) as ([? Ht] & _).
        congruence.
Qed.

Lemma generate_embeddings_texts_witness :
  chunk_file demo_float_repr demo_extracted
  = Ok (returned (chunk_file demo_float_repr demo_extracted))
  /\ exists texts : list value,
       generate_embeddings (fun _ => demo_old_embeddings)
         (returned (chunk_file demo_float_repr demo_extracted))
       = Ok demo_old_embeddings /\ length texts = 2%nat.
Proof.
  split; [reflexivity|].
  destruct (proj2 (proj2 (generate_embeddings_texts (fun _ => demo_old_embeddings)
                            (returned (chunk_file demo_float_repr demo_extracted))))
              demo_float_repr demo_extracted eq_refl) as (texts & Hg & Hlen).
  by exists texts.
Defined.

(** ** More on the persisted unit *)

Lemma mkdir_default {Index : Type} (dir : string) (fs : FS Index) :
  default ∅ (mkdir dir fs !! dir) = default ∅ (fs !! dir).
Proof.
  rewrite mkdir_lookup. destruct (fs !! dir); [done|].
  by rewrite decide_True by left.
Qed.

Lemma save_all_unfold {Index : Type} (dimension : Z) (ix : Index)
    (cs : list chunk) (emb : ndarray) (dir : string) (fs : FS Index) :
  save_all dimension ix cs emb dir fs
  = <[dir := <["metadata.json" := FJson (make_summary dimension cs)]>
               (<["embeddings.npy" := FNpy emb]>
                  (<["chunks.pkl" := FPickle cs]>
                     (<["benefits.index" := FIndex ix]> (default ∅ (fs !! dir)))))]>
      (mkdir dir fs).
Proof.
  unfold save_all, run_writes, save_all_writes, write_file. simpl.
  rewrite !lookup_insert_eq. simpl. rewrite mkdir_default.
  by rewrite !insert_insert_eq.
Qed.

(** [mkdir] finds nothing to do once the directory was written to after
    a [mkdir]. *)
Lemma mkdir_after_write {Index : Type} (dir : string) (files : gmap string (file Index))
    (fs : FS Index) :
  mkdir dir (<[dir := files]> (mkdir dir fs)) = <[dir := files]> (mkdir dir fs).
Proof.
  apply map_eq. intros d. rewrite mkdir_lookup.
  destruct (decide (d = dir)) as [->|Hne]; [by rewrite lookup_insert_eq|].
  rewrite lookup_insert_ne by done. rewrite mkdir_lookup.
  destruct (fs !! d); [done|]. by destruct (decide (d ∈ dir :: parents dir)).
Qed.

(** X14. A retriever constructed over a location right after [save_all] wrote
    to it holds the index and the passages that were saved, whatever the
    location held before: construction finds the directory and the two
    files it reads, and ends as the loading of the embedding model ends. *)
Theorem retriever_loads_what_save_all_wrote {Index : Type}
    (load_model : string -> result unit) (dimension : Z)
    (ix : Index) (cs : list chunk) (emb : ndarray) (dir : string) (fs : FS Index) :
  __init__ load_model dir (save_all dimension ix cs emb dir fs)
  = (_ ← load_model "all-MiniLM-L6-v2"; Ok {| index := ix; chunks := cs |}).
Proof.
  unfold __init__.
  destruct (save_all dimension ix cs emb dir fs !! dir) eqn:Hd.
  - unfold read_index, load_chunks, save_all, run_writes. simpl. by read_files.
  - by rewrite save_all_unfold, lookup_insert_eq in Hd.
Qed.



(** X16. A completed [save_all] replaces the whole previous unit: saving a
    unit over another one leaves the file system exactly as saving it
    directly would, so no file of the older unit survives and saving
    twice is saving once. *)
Theorem save_all_replaces_previous_unit {Index : Type} (dimension dimension' : Z)
    (ix ix' : Index) (cs cs' : list chunk) (emb emb' : ndarray) (dir : string)
    (fs : FS Index) :
  save_all dimension' ix' cs' emb' dir (save_all dimension ix cs emb dir fs)
  = save_all dimension' ix' cs' emb' dir fs.
Proof.
  rewrite !save_all_unfold. rewrite mkdir_after_write.
  rewrite lookup_insert_eq, insert_insert_eq. simpl.
  f_equal. apply map_eq. intros name.
  destruct (decide (name = "metadata.json")) as [->|H1];
    [by rewrite !lookup_insert_eq|].
  rewrite !(lookup_insert_ne _ "metadata.json") by done.
  destruct (decide (name = "embeddings.npy")) as [->|H2];
    [by rewrite !lookup_insert_eq|].
  rewrite !(lookup_insert_ne _ "embeddings.npy") by done.
  destruct (decide (name = "chunks.pkl")) as [->|H3];
    [by rewrite !lookup_insert_eq|].
  rewrite !(lookup_insert_ne _ "chunks.pkl") by done.
  destruct (decide (name = "benefits.index")) as [->|H4];
    [by rewrite !lookup_insert_eq|].
  rewrite !(lookup_insert_ne _ "benefits.index") by done.
  rewrite !(lookup_insert_ne _ "metadata.json") by done.
  rewrite !(lookup_insert_ne _ "embeddings.npy") by done.
  rewrite !(lookup_insert_ne _ "chunks.pkl") by done.
  by rewrite !(lookup_insert_ne _ "benefits.index") by done.
Qed.

(** ** The summary metadata *)

Lemma column_omap (key : string) (fallback : value) (cs : list chunk) :
  (forall c : chunk, c ∈ cs -> is_Some (c !! key)) ->
  column key fallback cs = omap (fun c : chunk => c !! key) cs.
Proof.
  induction cs as [|c cs IH]; [done|]. intros Hall.
  unfold column in *. cbn [map omap list_omap].
  destruct (Hall c) as [v Hv]; [left|]. rewrite Hv. simpl.
  f_equal. apply IH. intros c' Hc'. apply Hall. by right.
Qed.

(** X17. In the summary that [save_all] writes, [plans] and [categories] hold
    no value twice, every chunk's plan name ('Unknown' when it has none)
    is one of [plans] up to [==] and every listed plan is the plan name
    of some chunk; [total_plans] is the length of [plans], at most
    [total_chunks] and at least one for a non-empty store. *)
Theorem summary_lists_each_plan_once (dimension : Z) (cs : list chunk) :
  total_chunks (make_summary dimension cs) = length cs /\
  total_plans (make_summary dimension cs) = length (plans (make_summary dimension cs)) /\
  values_distinct (plans (make_summary dimension cs)) /\
  values_distinct (summary_categories (make_summary dimension cs)) /\
  (forall c : chunk, c ∈ cs ->
     exists p, p ∈ plans (make_summary dimension cs) /\
               py_eqb p (default (VStr "Unknown") (c !! "plan_name")) = true) /\
  (forall p, p ∈ plans (make_summary dimension cs) ->
     exists c : chunk, c ∈ cs /\ default (VStr "Unknown") (c !! "plan_name") = p) /\
  (total_plans (make_summary dimension cs) <= total_chunks (make_summary dimension cs))%nat /\
  (cs <> [] -> (1 <= total_plans (make_summary dimension cs))%nat).
Proof.
  simpl. repeat split; try apply py_set_distinct.
  - intros c Hc. apply py_set_covers. unfold column. apply list_elem_of_fmap. by exists c.
  - intros p Hp%py_set_elem. unfold column in Hp.
    apply list_elem_of_fmap in Hp as (c & -> & Hc). by exists c.
  - etransitivity; [apply py_set_length|]. unfold column. by rewrite length_map.
  - intros Hne. destruct cs as [|c cs]; [done|]. simpl. lia.
Qed.

Lemma summary_lists_each_plan_once_witness :
  [demo_chunk_a] <> []
  /\ (1 <= total_plans (make_summary 384 [demo_chunk_a]))%nat.
Proof.
  assert (Hne : [demo_chunk_a] <> []) by discriminate.
  split; [exact Hne|].
  destruct (summary_lists_each_plan_once 384 [demo_chunk_a])
    as (_ & _ & _ & _ & _ & _ & _ & Hpos).
  exact (Hpos Hne).
Defined.

(** X18. For a store in which every chunk has a plan name, the persisted
    summary and [get_statistics] agree: the same number of chunks, the
    same number of plans, and the same plans up to order. *)
Theorem summary_agrees_with_statistics {Index : Type} (ix : Index) (dimension : Z)
    (cs : list chunk) (st : statistics) :
  (forall c : chunk, c ∈ cs -> is_Some (c !! "plan_name")) ->
  get_statistics {| index := ix; chunks := cs |} = Some st ->
  total_chunks (make_summary dimension cs) = st_total_chunks st /\
  total_plans (make_summary dimension cs) = st_total_plans st /\
  plans (make_summary dimension cs) ≡ₚ st_plans st.
Proof.
  intros Hall Hst. unfold get_statistics, list_plans, list_field in Hst. cbn [chunks] in Hst.
  destruct (py_sorted (py_set (omap (fun c : chunk => c !! "plan_name") cs)))
    as [ps|] eqn:Hps; [|done].
  simpl in Hst.
  destruct (list_categories _) as [cats|]; [|done]. simpl in Hst.
  injection Hst as <-. simpl.
  apply py_sorted_Some in Hps as [_ Hperm].
  rewrite (column_omap _ _ _ Hall). split; [done|]. split; [by rewrite Hperm | done].
Qed.

Lemma summary_agrees_with_statistics_witness :
  (forall c : chunk, c ∈ chunks demo_retriever -> is_Some (c !! "plan_name"))
  /\ get_statistics demo_retriever = Some demo_statistics
  /\ total_plans (make_summary 384 (chunks demo_retriever))
     = st_total_plans demo_statistics.
Proof.
  assert (Hall : forall c : chunk, c ∈ chunks demo_retriever -> is_Some (c !! "plan_name")).
  { intros c Hc. simpl in Hc.
    apply elem_of_cons in Hc as [->|Hc]; [by eexists|].
    apply list_elem_of_singleton in Hc as ->. by eexists. }
  split; [exact Hall|]. split; [reflexivity|].
  exact (proj1 (proj2 (summary_agrees_with_statistics demo_index 384
                         (chunks demo_retriever) demo_statistics Hall eq_refl))).
Defined.

(** ** Asking a question *)

Lemma py_getitem_elem {A : Type} (l : list A) (idx : Z) (a : A) :
  py_getitem l idx = Ok a -> a ∈ l.
Proof.
  unfold py_getitem.
  destruct ((0 <=? _) && (_ <? Z.of_nat (length l))); [|done].
  destruct (l !! Z.to_nat _) as [b|] eqn:Hb; [|done].
  intros [= <-]. by eapply list_elem_of_lookup_2.
Qed.

Lemma show_result_Ok (show_details : bool) (r : chunk) :
  show_result show_details r = Ok tt <->
  is_Some (r !! "plan_name") /\ is_Some (r !! "text") /\
  (show_details = true ->
   is_Some (r !! "similarity_score") /\ is_Some (r !! "category")).
Proof.
  unfold show_result, dict_item. split.
  - destruct (r !! "plan_name") as [v1|]; simpl; [|done].
    destruct (r !! "text") as [v2|]; simpl; [|done].
    destruct show_details.
    + destruct (r !! "similarity_score") as [v3|]; simpl; [|done].
      destruct (r !! "category") as [v4|]; simpl; [|done].
      intros _. split; [by exists v1|]. split; [by exists v2|].
      intros _. split; [by exists v3 | by exists v4].
    + intros _. split; [by exists v1|]. split; [by exists v2 | done].
  - intros ([v1 ->] & [v2 ->] & Hd). simpl. destruct show_details; [|done].
    destruct Hd as ([v3 ->] & [v4 ->]); done.
Qed.

Lemma show_result_Err (show_details : bool) (r : chunk) (e : exn) :
  show_result show_details r = Err e -> e = KeyError.
Proof.
  unfold show_result, dict_item.
  destruct (r !! "plan_name"); simpl; [|by intros [= <-]].
  destruct (r !! "text"); simpl; [|by intros [= <-]].
  destruct show_details; [|done].
  destruct (r !! "similarity_score"); simpl; [|by intros [= <-]].
  destruct (r !! "category"); simpl; [|by intros [= <-]]. done.
Qed.

Lemma show_results_Ok (show_details : bool) (rs : list chunk) :
  show_results show_details rs = Ok tt <->
  Forall (fun r => show_result show_details r = Ok tt) rs.
Proof.
  induction rs as [|r rs IH]; simpl; [done|]. split.
  - destruct (show_result show_details r) as [[]|e] eqn:Hr; simpl; [|done].
    intros Hrs%IH. by constructor.
  - intros [-> Hrs%IH]%Forall_cons. done.
Qed.

Lemma show_results_Err (show_details : bool) (rs : list chunk) (e : exn) :
  show_results show_details rs = Err e ->
  e = KeyError /\ exists r, r ∈ rs /\ show_result show_details r = Err KeyError.
Proof.
  induction rs as [|r rs IH]; simpl; [done|].
  destruct (show_result show_details r) as [[]|e'] eqn:Hr; simpl.
  - intros (-> & r' & Hr' & He)%IH. split; [done|]. exists r'. split; [by right | done].
  - intros [= ->]. pose proof (show_result_Err _ _ _ Hr) as ->.
    split; [done|]. exists r. split; [left | done].
Qed.

(** A search result carries a similarity score. *)
Lemma search_Ok_score {Index Vec : Type}
    (index_search : Index -> Vec -> Z -> result (list (Q * Z)))
    (encode : string -> Vec) (round32 : Q -> Q)
    (self : retriever Index) (query : string) (top_k : Z)
    (pf cf : option string) (results : list chunk) (r : chunk) :
  search index_search encode round32 self query top_k pf cf = Ok results ->
  r ∈ results -> is_Some (r !! "similarity_score").
Proof.
  intros Hs Hr.
  destruct (search_Ok_elem _ _ _ _ _ _ _ _ _ _ Hs Hr)
    as (cands & j & cand & c & _ & _ & _ & _ & _ & _ & ->).
  unfold annotate. rewrite !lookup_insert_ne by done.
  rewrite lookup_insert_eq. by eexists.
Qed.

(** The keys [ask] needs in a result that has a similarity score. *)
Lemma show_result_scored (show_details : bool) (r : chunk) :
  is_Some (r !! "similarity_score") ->
  (show_result show_details r = Ok tt <->
   is_Some (r !! "plan_name") /\ is_Some (r !! "text") /\
   (show_details = true -> is_Some (r !! "category"))) /\
  (show_result show_details r = Err KeyError <->
   r !! "plan_name" = None \/ r !! "text" = None \/
   (show_details = true /\ r !! "category" = None)).
Proof.
  intros [s Hs]. unfold show_result, dict_item. rewrite Hs.
  destruct (r !! "plan_name") as [v1|]; cbn [mbind result_bind rbind].
  2: { split; [split; [done | by intros ([? [=]] & _)] | split; [by left | done]]. }
  destruct (r !! "text") as [v2|]; cbn [mbind result_bind rbind].
  2: { split; [split; [done | by intros (_ & [? [=]] & _)]
              | split; [by right; left | done]]. }
  destruct show_details.
  - destruct (r !! "category") as [v3|]; cbn [mbind result_bind rbind].
    + split; [split; [by eauto | done]|].
      split; [done | by intros [[=]|[[=]|[_ [=]]]]].
    + split; [split; [done | intros (_ & _ & Hc); by destruct (Hc eq_refl)]|].
      split; [by right; right | done].
  - split; [split; [by eauto | done]|].
    split; [done | by intros [[=]|[[=]|[[=] _]]]].
Qed.

(** X19. [ask] searches with [top_k = 3] and no filter. It returns the
    'no information' message exactly when the search returns nothing, and
    the results exactly when there are some and each of them has a
    ['plan_name'] and a ['text'] (and a ['category'] when details are
    shown). It raises what the search raises, and otherwise [KeyError],
    exactly when some result lacks one of these keys; this cannot happen
    over a store whose passages all have them. *)
Theorem ask_outcomes {Index Vec : Type}
    (index_search : Index -> Vec -> Z -> result (list (Q * Z)))
    (encode : string -> Vec) (round32 : Q -> Q)
    (self : retriever Index) (question : string) (show_details : bool) :
  (forall msg,
     ask index_search encode round32 self question show_details = Ok (inl msg) <->
     msg = no_information /\
     search index_search encode round32 self question 3 None None = Ok []) /\
  (forall rs,
     ask index_search encode round32 self question show_details = Ok (inr rs) <->
     rs <> [] /\
     search index_search encode round32 self question 3 None None = Ok rs /\
     forall r : chunk, r ∈ rs ->
       is_Some (r !! "plan_name") /\ is_Some (r !! "text") /\
       (show_details = true -> is_Some (r !! "category"))) /\
  (forall e,
     ask index_search encode round32 self question show_details = Err e <->
     search index_search encode round32 self question 3 None None = Err e \/
     (e = KeyError /\
      exists rs r,
        search index_search encode round32 self question 3 None None = Ok rs /\
        r ∈ rs /\
        (r !! "plan_name" = None \/ r !! "text" = None \/
         (show_details = true /\ r !! "category" = None)))) /\
  ((forall c : chunk, c ∈ chunks self ->
      is_Some (c !! "plan_name") /\ is_Some (c !! "text") /\ is_Some (c !! "category")) ->
   forall rs,
     search index_search encode round32 self question 3 None None = Ok rs ->
     ask index_search encode round32 self question show_details
     = Ok (match rs with [] => inl no_information | _ :: _ => inr rs end)).
Proof.
  assert (Hshown : forall rs,
            search index_search encode round32 self question 3 None None = Ok rs ->
            (show_results show_details rs = Ok tt <->
             forall r : chunk, r ∈ rs ->
               is_Some (r !! "plan_name") /\ is_Some (r !! "text") /\
               (show_details = true -> is_Some (r !! "category"))) /\
            (forall e, show_results show_details rs = Err e ->
               e = KeyError /\ exists r, r ∈ rs /\
                 (r !! "plan_name" = None \/ r !! "text" = None \/
                  (show_details = true /\ r !! "category" = None))) /\
            (forall r : chunk, r ∈ rs ->
               r !! "plan_name" = None \/ r !! "text" = None \/
               (show_details = true /\ r !! "category" = None) ->
               show_results show_details rs = Err KeyError)).
  { intros rs Hs.
    assert (Hscore : forall r : chunk, r ∈ rs ->
              is_Some (r !! "similarity_score")).
    { intros r Hr. by eapply search_Ok_score. }
    split; [|split].
    - rewrite show_results_Ok, Forall_forall. split.
      + intros Hall r Hr. by apply (show_result_scored _ _ (Hscore r Hr)), Hall.
      + intros Hall r Hr. by apply (show_result_scored _ _ (Hscore r Hr)), Hall.
    - intros e (-> & r & Hr & He)%show_results_Err. split; [done|].
      exists r. split; [done|]. by apply (show_result_scored _ _ (Hscore r Hr)).
    - intros r Hr Hmiss.
      destruct (show_results show_details rs) as [[]|e] eqn:Hshow.
      + apply show_results_Ok in Hshow.
        apply (proj1 (Forall_forall _ _) Hshow) in Hr as Hok.
        apply (show_result_scored _ _ (Hscore r Hr)) in Hmiss. congruence.
      + by apply show_results_Err in Hshow as [-> _]. }
  unfold ask.
  destruct (search index_search encode round32 self question 3 None None)
    as [rs|e0] eqn:Hs; cbn [mbind result_bind rbind].
  2: { repeat apply conj.
       - intros msg. split; [done | by intros [_ [=]]].
       - intros rs. split; [done | by intros (_ & [=] & _)].
       - intros e. split; [intros [= ->]; by left|].
         intros [[= ->]|(_ & rs & r & [=] & _)]; done.
       - by intros _ rs [=]. }
  destruct rs as [|r0 rs'].
  { repeat apply conj.
    - intros msg. split; [by intros [= <-] | by intros [-> _]].
    - intros rs. split; [done | intros (Hne & [= <-] & _); by destruct Hne].
    - intros e. split; [done|].
      intros [[=]|(_ & rs & r & [= <-] & Hr & _)]. by apply elem_of_nil in Hr.
    - by intros _ rs [= <-]. }
  destruct (show_results show_details (r0 :: rs')) as [[]|e1] eqn:Hshow;
    cbn [mbind result_bind rbind];
    destruct (Hshown (r0 :: rs') eq_refl) as (Hok & Herr & Hmiss).
  - repeat apply conj.
    + intros msg. split; [done | by intros [_ [=]]].
    + intros rs. split.
      * intros [= <-]. split; [done|]. split; [done|]. by apply Hok.
      * by intros (_ & [= <-] & _).
    + intros e. split; [done|].
      intros [[=]|(_ & rs & r & [= <-] & Hr & Hm)].
      by rewrite (Hmiss r Hr Hm) in Hshow.
    + by intros _ rs [= <-].
  - destruct (Herr e1 Hshow) as (-> & r & Hr & Hm).
    repeat apply conj.
    + intros msg. split; [done | by intros [_ [=]]].
    + intros rs. split; [done|]. intros (_ & [= <-] & Hall).
      apply Hok in Hall. congruence.
    + intros e. split.
      * intros [= <-]. right. split; [done|]. by exists (r0 :: rs'), r.
      * by intros [[=]|[-> _]].
    + intros Hstore rs [= <-]. exfalso.
      assert (Hall : show_results show_details (r0 :: rs') = Ok tt); [|congruence].
      apply Hok. intros r' Hr'.
      destruct (search_Ok_elem _ _ _ _ _ _ _ _ _ _ Hs Hr')
        as (cands & j & cand & c & _ & _ & _ & Hg & _ & _ & ->).
      apply py_getitem_elem, Hstore in Hg as (Hp & Ht & Hc).
      by rewrite (annotate_other _ _ _ _ _ "plan_name"),
        (annotate_other _ _ _ _ _ "text"),
        (annotate_other _ _ _ _ _ "category") by done.
Qed.

Lemma ask_outcomes_witness :
  (search toy_search toy_encode exact demo_unmatched_retriever "gym membership" 3
     None None = Ok []
   /\ ask toy_search toy_encode exact demo_unmatched_retriever "gym membership" true
      = Ok (inl no_information))
  /\ ((forall c : chunk, c ∈ chunks demo_passage_retriever ->
         is_Some (c !! "plan_name") /\ is_Some (c !! "text") /\
         is_Some (c !! "category"))
      /\ search toy_search toy_encode exact demo_passage_retriever "gym membership" 3
           None None
         = Ok [annotate exact demo_passage (1 # 10) 0 0]
      /\ ask toy_search toy_encode exact demo_passage_retriever "gym membership" true
         = Ok (inr [annotate exact demo_passage (1 # 10) 0 0]))
  /\ (ask toy_search toy_encode exact demo_passage_retriever "gym membership" true
      = Ok (inr [annotate exact demo_passage (1 # 10) 0 0])
      /\ forall r : chunk, r ∈ [annotate exact demo_passage (1 # 10) 0 0] ->
           is_Some (r !! "plan_name") /\ is_Some (r !! "text") /\
           (true = true -> is_Some (r !! "category")))
  /\ (search toy_search toy_encode exact demo_retriever "gym membership" 3 None None
      = Ok demo_results
      /\ annotate exact demo_chunk_a (1 # 10) 0 0 ∈ demo_results
      /\ annotate exact demo_chunk_a (1 # 10) 0 0 !! "text" = None
      /\ ask toy_search toy_encode exact demo_retriever "gym membership" false
         = Err KeyError).
Proof.
  split; [|split; [|split]].
  - split; [reflexivity|].
    apply (proj1 (ask_outcomes toy_search toy_encode exact demo_unmatched_retriever
                    "gym membership" true) no_information).
    split; reflexivity.
  - assert (Hstore : forall c : chunk, c ∈ chunks demo_passage_retriever ->
              is_Some (c !! "plan_name") /\ is_Some (c !! "text") /\
              is_Some (c !! "category")).
    { intros c Hc. apply list_elem_of_singleton in Hc as ->.
      repeat split; by eexists. }
    split; [exact Hstore|]. split; [reflexivity|].
    exact (proj2 (proj2 (proj2 (ask_outcomes toy_search toy_encode exact
                                  demo_passage_retriever "gym membership" true)))
             Hstore [annotate exact demo_passage (1 # 10) 0 0] eq_refl).
  - split; [reflexivity|].
    exact (proj2 (proj2 (proj1 (proj1 (proj2 (ask_outcomes toy_search toy_encode exact
                                  demo_passage_retriever "gym membership" true))
             [annotate exact demo_passage (1 # 10) 0 0]) eq_refl))).
  - assert (Hin : annotate exact demo_chunk_a (1 # 10) 0 0 ∈ demo_results)
      by (vm_compute; left).
    split; [reflexivity|]. split; [exact Hin|]. split; [reflexivity|].
    apply (proj1 (proj2 (proj2 (ask_outcomes toy_search toy_encode exact
                                  demo_retriever "gym membership" false)))
             KeyError).
    right. split; [reflexivity|].
    exists demo_results, (annotate exact demo_chunk_a (1 # 10) 0 0).
    split; [reflexivity|]. split; [exact Hin|]. right. left. reflexivity.
Defined.

(** * Construction and the query operations (C7) *)

(** [search] over an answer of the index whose ids are the sentinel or
    positions of the store. *)
Lemma search_valid {Index Vec : Type}
    (index_search : Index -> Vec -> Z -> result (list (Q * Z)))
    (encode : string -> Vec) (round32 : Q -> Q)
    (self : retriever Index) (query : string) (top_k : Z)
    (pf cf : option string) (cands : list (Q * Z)) :
  index_search (index self) (encode query) (requested self top_k) = Ok cands ->
  Forall (fun cand => valid_id (length (chunks self)) cand.2) cands ->
  search index_search encode round32 self query top_k pf cf
  = Ok (take (quota top_k 0) (accepted round32 (chunks self) pf cf 0 cands)).
Proof.
  intros Hc Hvalid. unfold search. unfold requested in Hc. rewrite Hc.
  cbn [mbind result_bind rbind]. by rewrite collect_valid.
Qed.

Lemma list_field_strings (key : string) (cs : list chunk) :
  ~ mixes_kinds key cs -> is_Some (list_field key cs).
Proof.
  intros Hmix. destruct (list_field key cs) eqn:Hl; [by eexists|].
  by apply list_field_None in Hl.
Qed.

(** C7, as the code has it. Constructing a retriever over a missing
    directory raises [FileNotFoundError], and construction succeeds
    exactly when the index and passage files are readable and the
    embedding model loads. [load_all] succeeds exactly when the index,
    passage and vector files are readable -- the summary metadata is
    never consulted -- and raises when one of them is missing. After
    construction, [search], [search_with_context] and [compare_plans]
    return whenever the index answers the request with candidates that
    are the sentinel or positions of the store, [search] with the empty
    list when nothing is accepted; [list_plans], [list_categories] and
    [get_statistics] return unless the store mixes strings and numbers
    under the key. A passage without a field is skipped by a filter on
    that field and by [get_plan_overview]: the field is absent, not an
    error. *)
Theorem load_and_search_failure_modes {Index Vec : Type}
    (index_search : Index -> Vec -> Z -> result (list (Q * Z)))
    (load_model : string -> result unit)
    (encode : string -> Vec) (round32 : Q -> Q) :
  (forall (dir : string) (fs : FS Index),
     fs !! dir = None -> __init__ load_model dir fs = Err FileNotFoundError) /\
  (forall (dir : string) (fs : FS Index) (self : retriever Index),
     __init__ load_model dir fs = Ok self <->
     read_file dir "benefits.index" fs = Some (FIndex (index self)) /\
     read_file dir "chunks.pkl" fs = Some (FPickle (chunks self)) /\
     load_model "all-MiniLM-L6-v2" = Ok tt) /\
  (forall (dir : string) (fs : FS Index) ix cs emb,
     load_all dir fs = Ok (ix, cs, emb) <->
     read_file dir "benefits.index" fs = Some (FIndex ix) /\
     read_file dir "chunks.pkl" fs = Some (FPickle cs) /\
     read_file dir "embeddings.npy" fs = Some (FNpy emb)) /\
  (forall (dir : string) (fs : FS Index),
     read_file dir "benefits.index" fs = None \/
     read_file dir "chunks.pkl" fs = None \/
     read_file dir "embeddings.npy" fs = None ->
     exists e, load_all dir fs = Err e) /\
  (forall (self : retriever Index) query top_k pf cf cands,
     index_search (index self) (encode query) (requested self top_k) = Ok cands ->
     Forall (fun cand => valid_id (length (chunks self)) cand.2) cands ->
     (exists results,
        search index_search encode round32 self query top_k pf cf = Ok results) /\
     (accepted round32 (chunks self) pf cf 0 cands = [] ->
      search index_search encode round32 self query top_k pf cf = Ok []) /\
     (exists context,
        search_with_context index_search encode round32 self query top_k
        = Ok context)) /\
  (forall (self : retriever Index) query plan_names cands,
     index_search (index self) (encode query) (requested self 3) = Ok cands ->
     Forall (fun cand => valid_id (length (chunks self)) cand.2) cands ->
     exists comparison,
       compare_plans index_search encode round32 self query plan_names
       = Ok comparison) /\
  (forall self : retriever Index,
     (~ mixes_kinds "plan_name" (chunks self) -> is_Some (list_plans self)) /\
     (~ mixes_kinds "category" (chunks self) -> is_Some (list_categories self)) /\
     (~ mixes_kinds "plan_name" (chunks self) ->
      ~ mixes_kinds "category" (chunks self) -> is_Some (get_statistics self))) /\
  (forall (flt : option string) (c : chunk) (key : string),
     c !! key = None -> rejects flt c key = truthy flt) /\
  (forall (ix : Index) (c : chunk) (cs : list chunk) (plan_name : string),
     c !! "plan_name" = None \/ c !! "type" = None ->
     get_plan_overview {| index := ix; chunks := c :: cs |} plan_name
     = get_plan_overview {| index := ix; chunks := cs |} plan_name).
Proof.
  repeat apply conj.
  - intros dir fs Hdir. unfold __init__. by rewrite Hdir.
  - intros dir fs [ix cs]. unfold __init__, read_index, load_chunks, read_file.
    cbn [index chunks].
    destruct (fs !! dir) as [files|]; cbn [mbind option_bind];
      [|by split; [|intros ([=] & _)]].
    destruct (files !! "benefits.index") as [[ix'| | | | |]|];
      cbn [mbind result_bind rbind]; try by split; [|intros ([=] & _)].
    destruct (files !! "chunks.pkl") as [[|cs'| | | |]|];
      cbn [mbind result_bind rbind]; try by split; [|intros (_ & [=] & _)].
    destruct (load_model "all-MiniLM-L6-v2") as [[]|e];
      cbn [mbind result_bind rbind]; [|by split; [|intros (_ & _ & [=])]].
    split; [by intros [= -> ->] | by intros ([= ->] & [= ->] & _)].
  - intros dir fs ix cs emb. apply load_all_Ok.
  - intros dir fs Hmiss.
    unfold load_all, read_index, load_chunks, load_embeddings.
    destruct (read_file dir "benefits.index" fs) as [[]|];
      cbn [mbind result_bind rbind]; try by eexists.
    destruct (read_file dir "chunks.pkl" fs) as [[]|];
      cbn [mbind result_bind rbind]; try by eexists.
    destruct (read_file dir "embeddings.npy" fs) as [[]|];
      cbn [mbind result_bind rbind]; try by eexists.
    by destruct Hmiss as [?|[?|?]].
  - intros self query top_k pf cf cands Hc Hvalid.
    split; [|split].
    + rewrite (search_valid _ _ _ _ _ _ _ _ _ Hc Hvalid). by eexists.
    + intros Hnil. rewrite (search_valid _ _ _ _ _ _ _ _ _ Hc Hvalid), Hnil.
      by rewrite take_nil.
    + unfold search_with_context.
      rewrite (search_valid _ _ _ _ _ _ _ _ _ Hc Hvalid).
      cbn [mbind result_bind rbind]. by eexists.
  - intros self query plan_names cands Hc Hvalid. unfold compare_plans.
    destruct (compare_loop index_search encode round32 self query plan_names [])
      as [comparison|e] eqn:Hloop; cbn [mbind result_bind rbind]; [by eexists|].
    apply compare_loop_Err in Hloop as (name & _ & Hs).
    by rewrite (search_valid _ _ _ _ _ _ _ _ _ Hc Hvalid) in Hs.
  - intros self. split; [|split].
    + apply list_field_strings.
    + apply list_field_strings.
    + intros Hp Hc. unfold get_statistics.
      destruct (list_field_strings _ _ Hp) as [ps Hps].
      destruct (list_field_strings _ _ Hc) as [cats Hcats].
      unfold list_plans, list_categories. rewrite Hps, Hcats.
      cbn [mbind option_bind]. by eexists.
  - intros flt c key Hk. unfold rejects, field_differs. rewrite Hk.
    apply andb_true_r.
  - intros ix c cs plan_name Hmiss. unfold get_plan_overview, field_is.
    cbn [chunks List.find].
    destruct Hmiss as [->| ->]; [done|]. by rewrite andb_false_r.
Qed.

Lemma load_and_search_failure_modes_witness :
  (∅ : FS (list (Q * Z))) !! demo_dir = None
  /\ __init__ demo_load_model demo_dir (∅ : FS (list (Q * Z)))
     = Err FileNotFoundError
  /\ __init__ demo_load_model demo_dir demo_unit_fs = Ok demo_retriever
  /\ read_file demo_dir "embeddings.npy" (∅ : FS (list (Q * Z))) = None
  /\ (exists e, load_all demo_dir (∅ : FS (list (Q * Z))) = Err e)
  /\ toy_search (index demo_retriever) (toy_encode "gym membership")
       (requested demo_retriever 3) = Ok demo_index
  /\ Forall (fun cand : Q * Z => valid_id (length (chunks demo_retriever)) cand.2)
       demo_index
  /\ demo_search 3 (Some "Plan C") None = Ok []
  /\ (exists context,
        search_with_context toy_search toy_encode exact demo_retriever
          "gym membership" 3 = Ok context)
  /\ (exists comparison,
        compare_plans toy_search toy_encode exact demo_retriever "gym membership"
          ["Plan A"; "Plan C"] = Ok comparison)
  /\ ~ mixes_kinds "plan_name" (chunks demo_retriever)
  /\ ~ mixes_kinds "category" (chunks demo_retriever)
  /\ is_Some (list_plans demo_retriever)
  /\ is_Some (list_categories demo_retriever)
  /\ is_Some (get_statistics demo_retriever)
  /\ (∅ : chunk) !! "plan_name" = None
  /\ rejects (Some "Plan A") ∅ "plan_name" = true
  /\ get_plan_overview {| index := demo_index; chunks := [∅; demo_chunk_a] |} "Plan A"
     = get_plan_overview {| index := demo_index; chunks := [demo_chunk_a] |} "Plan A".
Proof.
  assert (Hvalid : Forall (fun cand : Q * Z =>
                     valid_id (length (chunks demo_retriever)) cand.2) demo_index).
  { repeat apply Forall_cons_2; [right; simpl; lia | right; simpl; lia | constructor]. }
  assert (Hstrings : forall key, ~ mixes_kinds key (chunks demo_retriever)).
  { intros key (c1 & c2 & s & v & _ & Hc2 & _ & Hv & Hs).
    destruct v as [s'| |]; try discriminate Hs;
      apply elem_of_cons in Hc2 as [->|Hc2];
      try apply list_elem_of_singleton in Hc2 as ->;
      unfold demo_chunk_a, demo_chunk_b in Hv;
      repeat (apply lookup_insert_Some in Hv as [[_ [=]]|[_ Hv]]);
      by rewrite lookup_empty in Hv. }
  destruct (load_and_search_failure_modes toy_search demo_load_model toy_encode exact)
    as (Hmissing & Hinit & _ & Hload & Hsearch & Hcompare & Hlists & Hunset & Hover).
  destruct (Hsearch demo_retriever "gym membership" 3 (Some "Plan C") None
              demo_index eq_refl Hvalid) as (_ & Hempty & _).
  destruct (Hsearch demo_retriever "gym membership" 3 None None
              demo_index eq_refl Hvalid) as (_ & _ & Hcontext).
  destruct (Hlists demo_retriever) as (Hplans & Hcats & Hstats).
  split; [reflexivity|]. split; [by apply Hmissing|].
  split; [apply Hinit; repeat split; reflexivity|].
  split; [reflexivity|].
  split; [apply Hload; right; right; reflexivity|].
  split; [reflexivity|]. split; [exact Hvalid|].
  split; [exact (Hempty eq_refl)|]. split; [exact Hcontext|].
  split; [exact (Hcompare demo_retriever "gym membership" ["Plan A"; "Plan C"]
                   demo_index eq_refl Hvalid)|].
  split; [exact (Hstrings "plan_name")|]. split; [exact (Hstrings "category")|].
  split; [exact (Hplans (Hstrings "plan_name"))|].
  split; [exact (Hcats (Hstrings "category"))|].
  split; [exact (Hstats (Hstrings "plan_name") (Hstrings "category"))|].
  split; [reflexivity|].
  split; [exact (Hunset (Some "Plan A") ∅ "plan_name" eq_refl)|].
  exact (Hover demo_index ∅ [demo_chunk_a] "Plan A" (or_introl eq_refl)).
Defined.

(** C7 fails as stated, in its clause on [load] and in its clause on the
    query operations. A location without summary metadata is not a
    complete unit, yet [load_all] succeeds on it. And over a successfully
    constructed retriever a query can raise: [search] with [top_k = 0]
    asks the index for no neighbour, which the index refuses; over a
    location whose index was built for more passages than the passage
    file holds, [search] looks up a position beyond the store; over a
    store with a plan named by a string and a plan named by a number,
    [list_plans] and [get_statistics] raise the [TypeError] of [sorted]. *)
Lemma incomplete_unit_loads_and_queries_raise :
  (read_file demo_dir "metadata.json" demo_fs_without_metadata = None
   /\ load_all demo_dir demo_fs_without_metadata
      = Ok (1%nat, [demo_chunk_a], demo_old_embeddings))
  /\ (__init__ demo_load_model demo_dir demo_unit_fs = Ok demo_retriever
      /\ search toy_search toy_encode exact demo_retriever "gym membership" 0
           None None = Err AssertionError)
  /\ (__init__ demo_load_model demo_dir demo_mismatched_fs
      = Ok demo_mismatched_retriever
      /\ search toy_search toy_encode exact demo_mismatched_retriever
           "gym membership" 3 None None = Err IndexError)
  /\ (list_plans demo_mixed_retriever = None
      /\ get_statistics demo_mixed_retriever = None).
Proof. repeat split; reflexivity. Qed.
